(** * Escalation lifecycle of the AI receptionist back end

    A shallow embedding of the help-request services of the back end
    ([app/services/firebase_service.py], [app/services/timeout_service.py],
    [app/services/notification_service.py] and the routes of
    [app/api/routes/help_requests.py]) together with the properties of the
    escalation life cycle that the code has.

    The Firebase tree, the clock, the uuid generator and the set of
    websocket connections form one explicit [world]; every service function
    is a computation in a state-and-exception monad over that world.  As in
    Python, the effects a function performed before it raised stay. *)

From Stdlib Require Import ZArith Ascii Sorting.Sorted.
From stdpp Require Import gmap strings list fin_maps.

Local Open Scope string_scope.
Local Open Scope Z_scope.
Local Open Scope list_scope.

(** ** JSON values and dict-shaped records *)

(** The scalars found in the fields of a stored record. *)
Inductive jvalue : Type :=
  | JNull
  | JBool (b : bool)
  | JNum (n : Z)
  | JStr (s : string).

#[global] Instance jvalue_eq_dec : EqDecision jvalue.
Proof. solve_decision. Defined.

(** A Python [dict] with string keys, as [ref.get()] returns it for one
    record. *)
Abbreviation pydict := (gmap string jvalue).

(** A child of [/help_requests] or [/knowledge_base]: a record (a dict) or
    a scalar such as the marker ["initialized": True]. *)
Inductive node : Type :=
  | Leaf (v : jvalue)
  | Dict (d : pydict).

(** [d.get(k)]: [None] when the key is missing. *)
Definition dict_get (d : pydict) (k : string) : jvalue :=
  default JNull (d !! k).

(** Python truth value, [bool(x)]. *)
Definition truthy (v : jvalue) : bool :=
  match v with
  | JNull => false
  | JBool b => b
  | JNum n => negb (n =? 0)
  | JStr s => negb (String.eqb s "")
  end.

#[global] Instance node_eq_dec : EqDecision node.
Proof. solve_decision. Defined.

Definition node_truthy (n : node) : bool :=
  match n with
  | Leaf v => truthy v
  | Dict d => negb (bool_decide (d = ∅))
  end.

(** [len(s)] of a [str]: its number of characters.  A string is held as
    its UTF-8 bytes, so the characters are counted by the bytes that start
    one, which are those that are no continuation byte [10xxxxxx]. *)
Definition is_continuation (c : ascii) : bool :=
  match c with
  | Ascii _ _ _ _ _ _ b6 b7 => b7 && negb b6
  end.

Fixpoint len (s : string) : nat :=
  match s with
  | EmptyString => 0%nat
  | String c s' => if is_continuation c then len s' else S (len s')
  end.

(** ** The enumerations of [app/models/firebase_models.py] *)

Inductive RequestStatus := PENDING | RESOLVED | TIMEOUT.

Definition RequestStatus_value (s : RequestStatus) : string :=
  match s with
  | PENDING => "pending"
  | RESOLVED => "resolved"
  | TIMEOUT => "timeout"
  end.

Inductive KnowledgeSource := INITIAL | LEARNED | MANUAL.

Definition KnowledgeSource_value (s : KnowledgeSource) : string :=
  match s with
  | INITIAL => "initial"
  | LEARNED => "learned"
  | MANUAL => "manual"
  end.

(** ** Library functions of the Python runtime

    Instants are integers (microseconds); [isoformat] and [fromisoformat]
    stand for [datetime.isoformat] and [datetime.fromisoformat] ([None]
    where Python raises [ValueError]), [json_dumps] for [json.dumps] on a
    flat object of strings.

    [items] is [data.items()] on the dict that [ref.get()] returned for a
    subtree: its children, each once, in the order in which the store
    listed them.  Nothing else is known of that order. *)
Class PyRuntime := {
  isoformat : Z -> string;
  fromisoformat : string -> option Z;
  json_dumps : list (string * string) -> string;
  items : gmap string node -> list (string * node);
  items_listing : forall data, items data ≡ₚ map_to_list data
}.

(** [timedelta(hours=h)] *)
Definition timedelta_hours (h : Z) : Z := h * 3600 * 1000000.

(** ** Messages pushed to the operator clients *)

Record message := {
  msg_type : string;
  msg_data : pydict;
  msg_timestamp : string
}.

(** ** The world *)

Inductive exn : Type :=
  | ValueError (msg : string)
  | TypeError
  | KeyError (k : string)
  | AttributeError
  | ValidationError
  | StoreError
  | SendError
  | HTTPException (status_code : nat).

Record world := {
  (** children of [/help_requests] *)
  help_requests : gmap string node;
  (** children of [/knowledge_base] *)
  knowledge_base : gmap string node;
  (** fate of the coming store calls, in order: [true] if the call raises;
      calls beyond the list succeed *)
  faults : list bool;
  (** readings of [datetime.utcnow()] and how many were taken *)
  clock : nat -> Z;
  ticks : nat;
  (** values of [uuid4()] and how many were drawn *)
  uuids : nat -> string;
  drawn : nat;
  (** [ConnectionManager.active_connections], by socket handle *)
  active_connections : list nat;
  (** the sockets on which [send_json] raises *)
  send_raises : nat -> bool;
  (** every call of [send_json], oldest first *)
  attempted : list (nat * message);
  (** what each socket received, oldest first *)
  delivered : list (nat * message);
  (** history of the messages handed to [broadcast], oldest first *)
  broadcasts : list message
}.

Definition set_help_requests (f : gmap string node -> gmap string node) (w : world) : world :=
  {| help_requests := f (help_requests w); knowledge_base := knowledge_base w;
     faults := faults w; clock := clock w; ticks := ticks w;
     uuids := uuids w; drawn := drawn w;
     active_connections := active_connections w; send_raises := send_raises w;
     attempted := attempted w; delivered := delivered w; broadcasts := broadcasts w |}.

Definition set_knowledge_base (f : gmap string node -> gmap string node) (w : world) : world :=
  {| help_requests := help_requests w; knowledge_base := f (knowledge_base w);
     faults := faults w; clock := clock w; ticks := ticks w;
     uuids := uuids w; drawn := drawn w;
     active_connections := active_connections w; send_raises := send_raises w;
     attempted := attempted w; delivered := delivered w; broadcasts := broadcasts w |}.

Definition set_faults (fs : list bool) (w : world) : world :=
  {| help_requests := help_requests w; knowledge_base := knowledge_base w;
     faults := fs; clock := clock w; ticks := ticks w;
     uuids := uuids w; drawn := drawn w;
     active_connections := active_connections w; send_raises := send_raises w;
     attempted := attempted w; delivered := delivered w; broadcasts := broadcasts w |}.

Definition set_ticks (n : nat) (w : world) : world :=
  {| help_requests := help_requests w; knowledge_base := knowledge_base w;
     faults := faults w; clock := clock w; ticks := n;
     uuids := uuids w; drawn := drawn w;
     active_connections := active_connections w; send_raises := send_raises w;
     attempted := attempted w; delivered := delivered w; broadcasts := broadcasts w |}.

Definition set_drawn (n : nat) (w : world) : world :=
  {| help_requests := help_requests w; knowledge_base := knowledge_base w;
     faults := faults w; clock := clock w; ticks := ticks w;
     uuids := uuids w; drawn := n;
     active_connections := active_connections w; send_raises := send_raises w;
     attempted := attempted w; delivered := delivered w; broadcasts := broadcasts w |}.

Definition set_active_connections (l : list nat) (w : world) : world :=
  {| help_requests := help_requests w; knowledge_base := knowledge_base w;
     faults := faults w; clock := clock w; ticks := ticks w;
     uuids := uuids w; drawn := drawn w;
     active_connections := l; send_raises := send_raises w;
     attempted := attempted w; delivered := delivered w; broadcasts := broadcasts w |}.

Definition set_delivered (l : list (nat * message)) (w : world) : world :=
  {| help_requests := help_requests w; knowledge_base := knowledge_base w;
     faults := faults w; clock := clock w; ticks := ticks w;
     uuids := uuids w; drawn := drawn w;
     active_connections := active_connections w; send_raises := send_raises w;
     attempted := attempted w; delivered := l; broadcasts := broadcasts w |}.

Definition set_attempted (l : list (nat * message)) (w : world) : world :=
  {| help_requests := help_requests w; knowledge_base := knowledge_base w;
     faults := faults w; clock := clock w; ticks := ticks w;
     uuids := uuids w; drawn := drawn w;
     active_connections := active_connections w; send_raises := send_raises w;
     attempted := l; delivered := delivered w; broadcasts := broadcasts w |}.

Definition set_broadcasts (l : list message) (w : world) : world :=
  {| help_requests := help_requests w; knowledge_base := knowledge_base w;
     faults := faults w; clock := clock w; ticks := ticks w;
     uuids := uuids w; drawn := drawn w;
     active_connections := active_connections w; send_raises := send_raises w;
     attempted := attempted w; delivered := delivered w; broadcasts := l |}.

(** ** The monad: state, plus exceptions that keep the state *)

Inductive outcome (A : Type) : Type :=
  | Ok (a : A)
  | Raise (e : exn).
Arguments Ok {A} a.
Arguments Raise {A} e.

Definition M (A : Type) : Type := world -> outcome A * world.

Definition ret {A} (a : A) : M A := fun w => (Ok a, w).

Definition raise {A} (e : exn) : M A := fun w => (Raise e, w).

Definition bind {A B} (c : M A) (k : A -> M B) : M B :=
  fun w =>
    match c w with
    | (Ok a, w') => k a w'
    | (Raise e, w') => (Raise e, w')
    end.

(** [try: c except Exception as e: h e] *)
Definition try_except {A} (c : M A) (h : exn -> M A) : M A :=
  fun w =>
    match c w with
    | (Ok a, w') => (Ok a, w')
    | (Raise e, w') => h e w'
    end.

Notation "x <- c ;; k" := (bind c (fun x => k))
  (at level 100, c at next level, right associativity).
Notation "c ;; k" := (bind c (fun _ => k))
  (at level 100, right associativity).

(** ** Primitive effects *)

(** [datetime.utcnow()] *)
Definition utcnow : M Z :=
  fun w => (Ok (clock w (ticks w)), set_ticks (S (ticks w)) w).

(** [str(uuid4())] *)
Definition uuid4 : M string :=
  fun w => (Ok (uuids w (drawn w)), set_drawn (S (drawn w)) w).

(** One round trip to the store ([get_db_ref] followed by [get] or [set]). *)
Definition store_call : M unit :=
  fun w =>
    match faults w with
    | [] => (Ok tt, w)
    | false :: fs => (Ok tt, set_faults fs w)
    | true :: fs => (Raise StoreError, set_faults fs w)
    end.

(** [get_db_ref("/help_requests").get()] *)
Definition get_help_requests : M (gmap string node) :=
  store_call ;; fun w => (Ok (help_requests w), w).

(** [get_db_ref(f"/help_requests/{request_id}").get()] *)
Definition get_help_request (request_id : string) : M (option node) :=
  store_call ;; fun w => (Ok (help_requests w !! request_id), w).

(** [get_db_ref(f"/help_requests/{request_id}").set(request_data)] *)
Definition set_help_request (request_id : string) (request_data : pydict) : M unit :=
  store_call ;;
  fun w => (Ok tt, set_help_requests (insert request_id (Dict request_data)) w).

(** [get_db_ref("/knowledge_base").get()] *)
Definition get_knowledge_base : M (gmap string node) :=
  store_call ;; fun w => (Ok (knowledge_base w), w).

(** [get_db_ref(f"/knowledge_base/{kb_id}").set(kb_entry_data)] *)
Definition set_kb_entry (kb_id : string) (kb_entry_data : pydict) : M unit :=
  store_call ;;
  fun w => (Ok tt, set_knowledge_base (insert kb_id (Dict kb_entry_data)) w).

(** [get_db_ref(f"/knowledge_base/{kb_id}").get()] *)
Definition get_kb_entry (kb_id : string) : M (option node) :=
  store_call ;; fun w => (Ok (knowledge_base w !! kb_id), w).

(** [get_db_ref(f"/help_requests/{request_id}").delete()] *)
Definition remove_help_request (request_id : string) : M unit :=
  store_call ;; fun w => (Ok tt, set_help_requests (delete request_id) w).

(** [get_db_ref("/help_requests").set(data)]: replaces the whole subtree. *)
Definition put_help_requests (data : gmap string node) : M unit :=
  store_call ;; fun w => (Ok tt, set_help_requests (fun _ => data) w).

(** [get_db_ref("/knowledge_base").set(data)] *)
Definition put_knowledge_base (data : gmap string node) : M unit :=
  store_call ;; fun w => (Ok tt, set_knowledge_base (fun _ => data) w).

(** ** Response models of [app/models/firebase_models.py]

    A pydantic model built from the keyword arguments of a dict checks the declared
    fields and ignores the other keys: a [str] field must hold a string, an
    [Optional[str]] field a string, [None] or nothing. *)

Record HelpRequestResponse := {
  hr_id : string;
  hr_question : string;
  hr_caller_info : option string;
  hr_status : string;
  hr_created_at : string;
  hr_resolved_at : option string;
  hr_timeout_at : string;
  hr_answer : option string;
  hr_answered_by : option string;
  hr_session_id : string
}.

Record KnowledgeBaseResponse := {
  kb_id : string;
  kb_question : string;
  kb_answer : string;
  kb_source : string;
  kb_created_at : string;
  kb_updated_at : string;
  kb_use_count : Z
}.

(** [HelpRequestAnswer]: the answer of a supervisor. *)
Record HelpRequestAnswer := {
  answer : string;
  supervisor_name : string
}.

Definition field_str (d : pydict) (k : string) : option string :=
  match d !! k with
  | Some (JStr s) => Some s
  | _ => None
  end.

Definition field_opt_str (d : pydict) (k : string) : option (option string) :=
  match d !! k with
  | None | Some JNull => Some None
  | Some (JStr s) => Some (Some s)
  | Some _ => None
  end.

Definition field_int (d : pydict) (k : string) : option Z :=
  match d !! k with
  | Some (JNum n) => Some n
  | _ => None
  end.

(** [HelpRequestResponse] built from the keys of [d]; [None] where
    pydantic raises. *)
Definition HelpRequestResponse_of_dict (d : pydict) : option HelpRequestResponse :=
  i ← field_str d "id";
  q ← field_str d "question";
  c ← field_opt_str d "caller_info";
  s ← field_str d "status";
  ca ← field_str d "created_at";
  ra ← field_opt_str d "resolved_at";
  ta ← field_str d "timeout_at";
  a ← field_opt_str d "answer";
  ab ← field_opt_str d "answered_by";
  si ← field_str d "session_id";
  Some {| hr_id := i; hr_question := q; hr_caller_info := c; hr_status := s;
          hr_created_at := ca; hr_resolved_at := ra; hr_timeout_at := ta;
          hr_answer := a; hr_answered_by := ab; hr_session_id := si |}.

(** [KnowledgeBaseResponse] built from the keys of [d]; the only dicts it
    is built from carry the integer literal [0] as [use_count]. *)
Definition KnowledgeBaseResponse_of_dict (d : pydict) : option KnowledgeBaseResponse :=
  i ← field_str d "id";
  q ← field_str d "question";
  a ← field_str d "answer";
  s ← field_str d "source";
  ca ← field_str d "created_at";
  ua ← field_str d "updated_at";
  n ← field_int d "use_count";
  Some {| kb_id := i; kb_question := q; kb_answer := a; kb_source := s;
          kb_created_at := ca; kb_updated_at := ua; kb_use_count := n |}.

Definition validate {A} (o : option A) : M A :=
  match o with
  | Some a => ret a
  | None => raise ValidationError
  end.

Definition jopt (o : option string) : jvalue :=
  match o with
  | Some s => JStr s
  | None => JNull
  end.

(** [result.model_dump()] *)
Definition model_dump (r : HelpRequestResponse) : pydict :=
  <["id" := JStr (hr_id r)]> (
  <["question" := JStr (hr_question r)]> (
  <["caller_info" := jopt (hr_caller_info r)]> (
  <["status" := JStr (hr_status r)]> (
  <["created_at" := JStr (hr_created_at r)]> (
  <["resolved_at" := jopt (hr_resolved_at r)]> (
  <["timeout_at" := JStr (hr_timeout_at r)]> (
  <["answer" := jopt (hr_answer r)]> (
  <["answered_by" := jopt (hr_answered_by r)]> (
  <["session_id" := JStr (hr_session_id r)]> ∅))))))))).

(** ** [app/services/notification_service.py] *)

Module ConnectionManager.

(** [await connection.send_json(message)] *)
Definition send_json (connection : nat) (msg : message) : M unit :=
  fun w =>
    let w := set_attempted (attempted w ++ [(connection, msg)]) w in
    if send_raises w connection then (Raise SendError, w)
    else (Ok tt, set_delivered (delivered w ++ [(connection, msg)]) w).

(** [list.remove]: drops the first occurrence. *)
Fixpoint list_remove (x : nat) (l : list nat) : list nat :=
  match l with
  | [] => []
  | y :: l' => if decide (x = y) then l' else y :: list_remove x l'
  end.

Definition connect (websocket : nat) : M unit :=
  fun w => (Ok tt, set_active_connections (active_connections w ++ [websocket]) w).

Definition disconnect (websocket : nat) : M unit :=
  fun w =>
    if decide (websocket ∈ active_connections w)
    then (Ok tt, set_active_connections (list_remove websocket (active_connections w)) w)
    else (Ok tt, w).

(** The sending loop of [broadcast]; returns [failed_connections]. *)
Fixpoint send_loop (msg : message) (connections : list nat)
    (failed_connections : list nat) : M (list nat) :=
  match connections with
  | [] => ret failed_connections
  | connection :: rest =>
      failed <- try_except
                  (send_json connection msg ;; ret failed_connections)
                  (fun _ => ret (failed_connections ++ [connection])) ;;
      send_loop msg rest failed
  end.

Fixpoint cleanup (failed_connections : list nat) : M unit :=
  match failed_connections with
  | [] => ret tt
  | conn :: rest => disconnect conn ;; cleanup rest
  end.

Definition broadcast (msg : message) : M unit :=
  (fun w => (Ok tt, set_broadcasts (broadcasts w ++ [msg]) w)) ;;
  fun w =>
    match active_connections w with
    | [] => ret tt w
    | connections =>
        (failed_connections <- send_loop msg connections [] ;;
         cleanup failed_connections) w
    end.

End ConnectionManager.

Module NotificationService.
Section with_runtime.
Context `{PyRuntime}.

Definition notify_request_resolved (request_data : pydict) : M unit :=
  now <- utcnow ;;
  ConnectionManager.broadcast
    {| msg_type := "request_resolved";
       msg_data :=
         <["request_id" := dict_get request_data "id"]> (
         <["answer" := dict_get request_data "answer"]> (
         <["answered_by" := dict_get request_data "answered_by"]> (
         <["resolved_at" := dict_get request_data "resolved_at"]> ∅)));
       msg_timestamp := isoformat now |}.

Definition notify_request_timeout (request_data : pydict) : M unit :=
  now <- utcnow ;;
  ConnectionManager.broadcast
    {| msg_type := "request_timeout";
       msg_data :=
         <["request_id" := dict_get request_data "id"]> (
         <["question" := dict_get request_data "question"]> (
         <["created_at" := dict_get request_data "created_at"]> (
         <["caller_info" := dict_get request_data "caller_info"]> ∅)));
       msg_timestamp := isoformat now |}.

(** The route hands in the response model, which has no [get]: the
    first [request_data.get] raises [AttributeError]. *)
Definition notify_new_request (request_data : pydict + HelpRequestResponse) : M unit :=
  match request_data with
  | inl d =>
      now <- utcnow ;;
      ConnectionManager.broadcast
        {| msg_type := "new_request";
           msg_data :=
             <["request_id" := dict_get d "id"]> (
             <["question" := dict_get d "question"]> (
             <["caller_info" := dict_get d "caller_info"]> (
             <["created_at" := dict_get d "created_at"]> ∅)));
           msg_timestamp := isoformat now |}
  | inr _ => raise AttributeError
  end.

Definition notify_kb_updated (question answer : string) : M unit :=
  now <- utcnow ;;
  ConnectionManager.broadcast
    {| msg_type := "knowledge_base_updated";
       msg_data :=
         <["question" := JStr question]> (
         <["answer" := JStr answer]> ∅);
       msg_timestamp := isoformat now |}.

(** Console output only. *)
Definition notify_customer_callback (request_data : pydict) : M unit :=
  _ <- utcnow ;; ret tt.

End with_runtime.
End NotificationService.

(** ** [app/services/firebase_service.py] *)

(** The dict that [get_stats] returns. *)
Record Stats := {
  pending : nat;
  resolved : nat;
  timeout : nat;
  total : nat
}.

Module FirebaseService.
Section with_runtime.
Context `{PyRuntime}.

(** [d[k]], raising [KeyError] on a missing key. *)
Definition subscript (d : pydict) (k : string) : M jvalue :=
  match d !! k with
  | Some v => ret v
  | None => raise (KeyError k)
  end.

Definition create_help_request (question caller_info session_id : string)
    : M HelpRequestResponse :=
  try_except
    (request_id <- uuid4 ;;
     t <- utcnow ;;
     let now := isoformat t in
     t' <- utcnow ;;
     let timeout_at := isoformat (t' + timedelta_hours 2) in
     let help_request_data : pydict :=
       <["id" := JStr request_id]> (
       <["question" := JStr question]> (
       <["caller_info" :=
           JStr (if String.eqb caller_info "" then "Anonymous" else caller_info)]> (
       <["status" := JStr (RequestStatus_value PENDING)]> (
       <["created_at" := JStr now]> (
       <["resolved_at" := JNull]> (
       <["timeout_at" := JStr timeout_at]> (
       <["answer" := JNull]> (
       <["answered_by" := JNull]> (
       <["session_id" := JStr session_id]> (
       <["callback_info" :=
           JStr (json_dumps [("phone", caller_info); ("ask_time", now)])]> (
       <["attempt_count" := JNum 0]> ∅))))))))))) in
     set_help_request request_id help_request_data ;;
     validate (HelpRequestResponse_of_dict help_request_data))
    (fun e => raise e).

(** Stable sort on [created_at], newest first
    ([sort(key=lambda x: x.created_at, reverse=True)]). *)
Fixpoint insert_newest_first (x : HelpRequestResponse) (l : list HelpRequestResponse)
    : list HelpRequestResponse :=
  match l with
  | [] => [x]
  | y :: l' =>
      if String.leb (hr_created_at y) (hr_created_at x) then x :: l
      else y :: insert_newest_first x l'
  end.

Definition sort_newest_first (l : list HelpRequestResponse) : list HelpRequestResponse :=
  foldr insert_newest_first [] l.

(** One turn of the loop of [get_all_help_requests]: the response of an
    entry, or nothing for the marker, a scalar or a dict that fails
    validation. *)
Definition parse_entry (entry : string * node) : option HelpRequestResponse :=
  let '(request_id, request_data) := entry in
  if String.eqb request_id "initialized" then None
  else match request_data with
       | Dict d => HelpRequestResponse_of_dict d
       | Leaf _ => None
       end.

Definition get_all_help_requests : M (list HelpRequestResponse) :=
  try_except
    (data <- get_help_requests ;;
     if bool_decide (data = ∅) then ret []
     else ret (sort_newest_first (omap parse_entry (items data))))
    (fun _ => ret []).

Definition get_request_by_id (request_id : string) : M (option HelpRequestResponse) :=
  try_except
    (data <- get_help_request request_id ;;
     match data with
     | Some (Dict d) =>
         if bool_decide (d = ∅) then ret None
         else r <- validate (HelpRequestResponse_of_dict d) ;; ret (Some r)
     | Some (Leaf v) => if truthy v then raise TypeError else ret None
     | None => ret None
     end)
    (fun _ => ret None).

Definition add_to_knowledge_base (question : jvalue) (answer : string)
    : M KnowledgeBaseResponse :=
  try_except
    (kb_id <- uuid4 ;;
     t <- utcnow ;;
     let now := isoformat t in
     let kb_entry_data : pydict :=
       <["id" := JStr kb_id]> (
       <["question" := question]> (
       <["answer" := JStr answer]> (
       <["source" := JStr (KnowledgeSource_value LEARNED)]> (
       <["created_at" := JStr now]> (
       <["updated_at" := JStr now]> (
       <["use_count" := JNum 0]> ∅)))))) in
     set_kb_entry kb_id kb_entry_data ;;
     (* the log line takes [len(question)] *)
     match question with
     | JStr _ => ret tt
     | _ => raise TypeError
     end ;;
     validate (KnowledgeBaseResponse_of_dict kb_entry_data))
    (fun e => raise e).

Definition create_kb_entry (question answer : string) : M KnowledgeBaseResponse :=
  try_except
    (kb_id <- uuid4 ;;
     t <- utcnow ;;
     let now := isoformat t in
     let kb_entry_data : pydict :=
       <["id" := JStr kb_id]> (
       <["question" := JStr question]> (
       <["answer" := JStr answer]> (
       <["source" := JStr (KnowledgeSource_value MANUAL)]> (
       <["created_at" := JStr now]> (
       <["updated_at" := JStr now]> (
       <["use_count" := JNum 0]> ∅)))))) in
     set_kb_entry kb_id kb_entry_data ;;
     validate (KnowledgeBaseResponse_of_dict kb_entry_data))
    (fun e => raise e).

(** The record that [answer_request] writes over [request_data]. *)
Definition answered (request_data : pydict) (answer_data : HelpRequestAnswer)
    (resolved_at : string) : pydict :=
  <["resolved_at" := JStr resolved_at]> (
  <["answered_by" := JStr (supervisor_name answer_data)]> (
  <["answer" := JStr (answer answer_data)]> (
  <["status" := JStr (RequestStatus_value RESOLVED)]> request_data))).

Definition answer_request (request_id : string) (answer_data : HelpRequestAnswer)
    : M HelpRequestResponse :=
  try_except
    (request_data <- get_help_request request_id ;;
     match request_data with
     | None => raise (ValueError ("Request " +:+ request_id +:+ " not found"))
     | Some n =>
         if negb (node_truthy n) then raise (ValueError ("Request " +:+ request_id +:+ " not found"))
         else match n with
              | Leaf _ => raise TypeError
              | Dict d =>
                  t <- utcnow ;;
                  let request_data := answered d answer_data (isoformat t) in
                  set_help_request request_id request_data ;;
                  question <- subscript request_data "question" ;;
                  add_to_knowledge_base question (answer answer_data) ;;
                  validate (HelpRequestResponse_of_dict request_data)
              end
     end)
    (fun e => raise e).

Definition timeout_request (request_id : string) : M HelpRequestResponse :=
  try_except
    (request_data <- get_help_request request_id ;;
     match request_data with
     | None => raise (ValueError ("Request " +:+ request_id +:+ " not found"))
     | Some n =>
         if node_truthy n then
           match n with
           | Leaf _ => raise TypeError
           | Dict d =>
               let request_data := <["status" := JStr (RequestStatus_value TIMEOUT)]> d in
               set_help_request request_id request_data ;;
               validate (HelpRequestResponse_of_dict request_data)
           end
         else raise (ValueError ("Request " +:+ request_id +:+ " not found"))
     end)
    (fun e => raise e).

(** [isinstance(r, dict) and r.get("status") == s.value] *)
Definition has_status (s : RequestStatus) (r : node) : bool :=
  match r with
  | Dict d => bool_decide (dict_get d "status" = JStr (RequestStatus_value s))
  | Leaf _ => false
  end.

(** [sum(1 for r in data.values() if ...)] *)
Definition count_status (s : RequestStatus) (data : gmap string node) : nat :=
  length (List.filter (has_status s) (items data).*2).

Definition zero_stats : Stats :=
  {| pending := 0; resolved := 0; timeout := 0; total := 0 |}.

Definition get_stats : M Stats :=
  try_except
    (data <- get_help_requests ;;
     if bool_decide (data = ∅) then ret zero_stats
     else
       let pending := count_status PENDING data in
       let resolved := count_status RESOLVED data in
       let timeout := count_status TIMEOUT data in
       ret {| pending := pending; resolved := resolved; timeout := timeout;
              total := (pending + resolved + timeout)%nat |})
    (fun _ => ret zero_stats).

(** One turn of the loop of [get_pending_requests]. *)
Definition parse_pending_entry (entry : string * node) : option HelpRequestResponse :=
  let '(request_id, request_data) := entry in
  if String.eqb request_id "initialized" then None
  else match request_data with
       | Dict d =>
           if bool_decide (dict_get d "status" = JStr (RequestStatus_value PENDING))
           then HelpRequestResponse_of_dict d
           else None
       | Leaf _ => None
       end.

Definition get_pending_requests : M (list HelpRequestResponse) :=
  try_except
    (data <- get_help_requests ;;
     if bool_decide (data = ∅) then ret []
     else ret (sort_newest_first (omap parse_pending_entry (items data))))
    (fun _ => ret []).

(** [entry.get("use_count", 0) + 1]: a missing count is 0, a boolean counts
    as an integer, anything else cannot be added to. *)
Definition next_use_count (entry : pydict) : M Z :=
  match entry !! "use_count" with
  | None => ret 1
  | Some (JNum n) => ret (n + 1)
  | Some (JBool b) => ret ((if b then 1 else 0) + 1)
  | Some _ => raise TypeError
  end.

Definition increment_kb_use_count (kb_id : string) : M unit :=
  try_except
    (entry <- get_kb_entry kb_id ;;
     match entry with
     | None => ret tt
     | Some n =>
         if node_truthy n then
           match n with
           | Leaf _ => raise AttributeError
           | Dict d =>
               count <- next_use_count d ;;
               t <- utcnow ;;
               set_kb_entry kb_id
                 (<["updated_at" := JStr (isoformat t)]> (
                  <["use_count" := JNum count]> d))
           end
         else ret tt
     end)
    (fun _ => ret tt).

End with_runtime.
End FirebaseService.

(** ** [app/services/timeout_service.py] *)

Module TimeoutService.
Section with_runtime.
Context `{PyRuntime}.

(** The test of the scanning loop on one dict: the status is pending and
    [timeout_at] parses to an instant not after [now].  A [timeout_at]
    that is no string or does not parse is reported and skipped. *)
Definition is_expired (now : Z) (request_data : pydict) : bool :=
  if bool_decide (dict_get request_data "status" = JStr (RequestStatus_value PENDING))
  then match dict_get request_data "timeout_at" with
       | JStr s =>
           match fromisoformat s with
           | Some timeout_at => timeout_at <=? now
           | None => false
           end
       | _ => false
       end
  else false.

(** One turn of the scanning loop. *)
Definition collect (now : Z) (entry : string * node) : option (string * pydict) :=
  let '(request_id, request_data) := entry in
  match request_data with
  | Leaf _ => None
  | Dict d =>
      if String.eqb request_id "initialized" then None
      else if is_expired now d then Some (request_id, d)
      else None
  end.

(** The list [timed_out_requests] built from the snapshot [data], in the
    order of [data.items()]. *)
Definition scan (now : Z) (data : gmap string node) : list (string * pydict) :=
  omap (collect now) (items data).

(** One turn of the second loop: mark the snapshot of the record, write
    it back, notify. *)
Definition timeout_one (entry : string * pydict) : M unit :=
  let '(request_id, request_data) := entry in
  let request_data := <["status" := JStr (RequestStatus_value TIMEOUT)]> request_data in
  set_help_request request_id request_data ;;
  NotificationService.notify_request_timeout request_data.

Fixpoint timeout_all (timed_out_requests : list (string * pydict)) : M unit :=
  match timed_out_requests with
  | [] => ret tt
  | entry :: rest => timeout_one entry ;; timeout_all rest
  end.

Definition _process_timeouts : M unit :=
  now <- utcnow ;;
  try_except
    (data <- get_help_requests ;;
     if bool_decide (data = ∅) then ret tt
     else timeout_all (scan now data))
    (fun _ => ret tt).

(** One turn of the loop of [_check_timeouts_loop]; the result is the time
    it then sleeps, in seconds. *)
Definition _check_timeouts_turn : M nat :=
  try_except (_process_timeouts ;; ret 300%nat) (fun _ => ret 60%nat).

End with_runtime.
End TimeoutService.

(** ** [app/api/routes/help_requests.py] *)

(** The request body of the POST route (the class of the routes file). *)
Record HelpRequestCreate := {
  question : string;
  caller_info : string;
  session_id : string
}.

Module HelpRequestRoutes.
Section with_runtime.
Context `{PyRuntime}.

(** The constructor of [HelpRequestAnswer] with the bounds on its fields
    (lengths are counted in bytes here). *)
Definition new_HelpRequestAnswer (answer supervisor_name : string) : M HelpRequestAnswer :=
  if bool_decide (5 <= len answer <= 2000 ∧ len supervisor_name <= 100)%nat
  then ret {| answer := answer; supervisor_name := supervisor_name |}
  else raise ValidationError.

Definition get_help_requests : M (list HelpRequestResponse) :=
  try_except FirebaseService.get_all_help_requests
    (fun _ => raise (HTTPException 500)).

Definition get_help_request (request_id : string) : M HelpRequestResponse :=
  try_except
    (result <- FirebaseService.get_request_by_id request_id ;;
     match result with
     | Some r => ret r
     | None => raise (HTTPException 404)
     end)
    (fun e => match e with
              | HTTPException _ => raise e
              | _ => raise (HTTPException 500)
              end).

Definition get_stats : M Stats :=
  try_except FirebaseService.get_stats (fun _ => raise (HTTPException 500)).

Definition create_help_request (request : HelpRequestCreate) : M HelpRequestResponse :=
  try_except
    (result <- FirebaseService.create_help_request
                 (question request) (caller_info request) (session_id request) ;;
     try_except (NotificationService.notify_new_request (inr result))
                (fun _ => ret tt) ;;
     ret result)
    (fun _ => raise (HTTPException 500)).

Definition answer_help_request (request_id answer supervisor_name : string)
    : M HelpRequestResponse :=
  try_except
    (answer_data <- new_HelpRequestAnswer answer supervisor_name ;;
     result <- FirebaseService.answer_request request_id answer_data ;;
     try_except (NotificationService.notify_request_resolved (model_dump result))
                (fun _ => ret tt) ;;
     try_except (NotificationService.notify_customer_callback (model_dump result))
                (fun _ => ret tt) ;;
     ret result)
    (fun _ => raise (HTTPException 500)).

Definition delete_help_request (request_id : string) : M unit :=
  try_except (remove_help_request request_id) (fun _ => raise (HTTPException 500)).

End with_runtime.
End HelpRequestRoutes.

(** ** [app/api/routes/knowledge_base.py] *)

Module KnowledgeBaseRoutes.
Section with_runtime.
Context `{PyRuntime}.

(** The check of the parameters raises inside the [try] of the handler. *)
Definition create_kb_entry (question answer : string) : M KnowledgeBaseResponse :=
  try_except
    ((if String.eqb question "" || String.eqb answer ""
      then raise (HTTPException 400) else ret tt) ;;
     result <- FirebaseService.create_kb_entry question answer ;;
     NotificationService.notify_kb_updated question answer ;;
     ret result)
    (fun _ => raise (HTTPException 500)).

End with_runtime.
End KnowledgeBaseRoutes.

(** ** [app/database.py] *)

Module Database.
Section with_runtime.
Context `{PyRuntime}.

(** Called at every start of the server. *)
Definition create_initial_data : M unit :=
  try_except
    (t <- utcnow ;;
     put_help_requests
       (<["initialized" := Leaf (JBool true)]> (
        <["created_at" := Leaf (JStr (isoformat t))]> ∅)) ;;
     t' <- utcnow ;;
     put_knowledge_base
       (<["initialized" := Leaf (JBool true)]> (
        <["created_at" := Leaf (JStr (isoformat t'))]> ∅)))
    (fun _ => ret tt).

End with_runtime.
End Database.

(** * Notions used in the statements *)

(** What the registry is after the failed connections were dropped. *)
Definition drop_all (failed l : list nat) : list nat :=
  foldl (fun acc c => ConnectionManager.list_remove c acc) l failed.

(** A stored child is a record with status [s]. *)
Definition status_is (s : RequestStatus) (n : node) : Prop :=
  exists d, n = Dict d /\ d !! "status" = Some (JStr (RequestStatus_value s)).

#[global] Instance status_is_dec (s : RequestStatus) (n : node) : Decision (status_is s n).
Proof.
  destruct n as [v|d].
  - right. by intros (d & ? & _).
  - destruct (decide (d !! "status" = Some (JStr (RequestStatus_value s)))) as [Hd|Hd].
    + left. by exists d.
    + right. intros (d' & [= <-] & Hd'). done.
Defined.

(** The records of the store that have status [s]. *)
Definition with_status (s : RequestStatus) (data : gmap string node) : gmap string node :=
  filter (fun entry : string * node => status_is s entry.2) data.

(** The record as the sweep writes it back. *)
Definition timed_out (d : pydict) : pydict :=
  <["status" := JStr (RequestStatus_value TIMEOUT)]> d.

(** A [request_timeout] event about the record [d]. *)
Definition is_timeout_event (d : pydict) (m : message) : Prop :=
  msg_type m = "request_timeout" /\
  msg_data m !! "request_id" = Some (dict_get d "id") /\
  msg_data m !! "question" = Some (dict_get d "question") /\
  msg_data m !! "created_at" = Some (dict_get d "created_at") /\
  msg_data m !! "caller_info" = Some (dict_get d "caller_info").

(** The store after the records of [l] were written back. *)
Definition write_back (l : list (string * pydict)) (data : gmap string node)
    : gmap string node :=
  foldl (fun m e => <[e.1 := Dict (timed_out e.2)]> m) data l.

(** [d'] is [d] with the status set to timeout and nothing else changed. *)
Definition only_status_changed (d d' : pydict) : Prop :=
  d' !! "status" = Some (JStr "timeout") /\
  forall f, f ≠ "status" -> d' !! f = d !! f.

(** No answer is recorded in [d]. *)
Definition unanswered (d : pydict) : Prop :=
  dict_get d "resolved_at" = JNull /\
  dict_get d "answer" = JNull /\
  dict_get d "answered_by" = JNull.

Section due.
Context `{PyRuntime}.

(** A record is due at [now]: it is no marker, its status is pending and
    its [timeout_at] reads as an instant not after [now]. *)
Definition due (now : Z) (k : string) (d : pydict) : Prop :=
  k ≠ "initialized" /\
  d !! "status" = Some (JStr "pending") /\
  exists s t, d !! "timeout_at" = Some (JStr s) /\ fromisoformat s = Some t /\ t <= now.

End due.

(** [request_id] names the event [m] of type [ty]. *)
Definition is_event (ty request_id : string) (m : message) : bool :=
  bool_decide (msg_type m = ty /\ msg_data m !! "request_id" = Some (JStr request_id)).

(** How many events of type [ty] about [request_id] were broadcast. *)
Definition count_events (ty request_id : string) (msgs : list message) : nat :=
  length (List.filter (is_event ty request_id) msgs).

(** Every stored record carries its key as its [id], as the records that
    [create_help_request] writes do. *)
Definition well_keyed (data : gmap string node) : Prop :=
  forall k d, data !! k = Some (Dict d) -> d !! "id" = Some (JStr k).

(** The stored record validates as a [HelpRequestResponse]. *)
Definition valid_record (d : pydict) : Prop :=
  is_Some (HelpRequestResponse_of_dict d).

(** The bounds that [HelpRequestAnswer] puts on its fields, in
    characters. *)
Definition valid_answer (answer supervisor_name : string) : Prop :=
  (5 <= len answer <= 2000 /\ len supervisor_name <= 100)%nat.

(** [x] was created no earlier than [y], by the order of their
    [created_at] strings. *)
Definition newer_or_same (x y : HelpRequestResponse) : Prop :=
  String.leb (hr_created_at y) (hr_created_at x) = true.

(** A store call failed on the way from [w] to [w']: among the answers of
    the store that were used up, one was a failure. *)
Definition store_failed (w w' : world) : Prop :=
  exists used, faults w = used ++ faults w' /\ true ∈ used.

(** [w'] shows the same data, connections and traffic as [w]: all that may
    differ are the clock, the uuid supply and the pending store faults. *)
Definition same_data (w w' : world) : Prop :=
  help_requests w' = help_requests w /\
  knowledge_base w' = knowledge_base w /\
  active_connections w' = active_connections w /\
  attempted w' = attempted w /\
  delivered w' = delivered w /\
  broadcasts w' = broadcasts w.

(** What a socket received, in order. *)
Definition received (c : nat) (w : world) : list message :=
  (List.filter (fun e => bool_decide (e.1 = c)) (delivered w)).*2.

(** * A resolve racing a sweep

    The server runs its coroutines on one event loop.  The store calls are
    synchronous, so a sweep can be suspended only where it awaits the
    notification of a record it has just written; the store part of a
    resolve runs without suspension. *)

Module Race.
Section with_runtime.
Context `{PyRuntime}.

(** The PUT request of the operator run to its end: what the handler
    raises becomes the HTTP response. *)
Definition resolve (request_id answer supervisor_name : string) : M unit :=
  try_except
    (HelpRequestRoutes.answer_help_request request_id answer supervisor_name ;; ret tt)
    (fun _ => ret tt).

(** [_process_timeouts] with [other] run while the sweep is suspended after
    the [n]-th record of [timed_out_requests] (after the sweep when it has
    fewer records; [n = 0] is a writer outside the event loop, between the
    read and the first write). *)
Definition sweep_interrupted (n : nat) (other : M unit) : M unit :=
  now <- utcnow ;;
  timed_out_requests <-
    try_except
      (data <- get_help_requests ;;
       ret (if bool_decide (data = ∅) then [] else TimeoutService.scan now data))
      (fun _ => ret []) ;;
  finished <-
    try_except
      (TimeoutService.timeout_all (take n timed_out_requests) ;; ret true)
      (fun _ => ret false) ;;
  other ;;
  if (finished : bool)
  then try_except (TimeoutService.timeout_all (drop n timed_out_requests))
                  (fun _ => ret tt)
  else ret tt.

Inductive schedule : Type :=
  | ResolveFirst
  | ResolveAfter (n : nat).

Definition run (s : schedule) (other : M unit) : M unit :=
  match s with
  | ResolveFirst => other ;; TimeoutService._process_timeouts
  | ResolveAfter n => sweep_interrupted n other
  end.

End with_runtime.
End Race.

(** * A runtime and worlds for the examples *)

Module ExampleRuntime.

(** Days since 1970-01-01 of a date of the proleptic Gregorian calendar,
    and back. *)
Definition days_from_civil (y m d : Z) : Z :=
  let y := if m <=? 2 then y - 1 else y in
  let era := y / 400 in
  let yoe := y - era * 400 in
  let mp := if 2 <? m then m - 3 else m + 9 in
  let doy := (153 * mp + 2) / 5 + d - 1 in
  let doe := yoe * 365 + yoe / 4 - yoe / 100 + doy in
  era * 146097 + doe - 719468.

Definition civil_from_days (z : Z) : Z * Z * Z :=
  let z := z + 719468 in
  let era := z / 146097 in
  let doe := z - era * 146097 in
  let yoe := (doe - doe / 1460 + doe / 36524 - doe / 146096) / 365 in
  let doy := doe - (365 * yoe + yoe / 4 - yoe / 100) in
  let mp := (5 * doy + 2) / 153 in
  let d := doy - (153 * mp + 2) / 5 + 1 in
  let m := if mp <? 10 then mp + 3 else mp - 9 in
  let y := yoe + era * 400 in
  (if m <=? 2 then y + 1 else y, m, d).

Definition digit (n : Z) : string :=
  String (Ascii.ascii_of_N (Z.to_N (48 + n mod 10))) "".

Fixpoint digits (width : nat) (n : Z) : string :=
  match width with
  | O => ""
  | S k => digits k (n / 10) +:+ digit n
  end.

(** Microseconds since 1970-01-01T00:00:00 as [YYYY-MM-DDTHH:MM:SS], with
    [.ffffff] when the microseconds are not zero. *)
Definition isoformat (t : Z) : string :=
  let us := t mod 1000000 in
  let s := t / 1000000 in
  let sod := s mod 86400 in
  let '(y, m, d) := civil_from_days (s / 86400) in
  digits 4 y +:+ "-" +:+ digits 2 m +:+ "-" +:+ digits 2 d +:+ "T" +:+
  digits 2 (sod / 3600) +:+ ":" +:+ digits 2 (sod / 60 mod 60) +:+ ":" +:+
  digits 2 (sod mod 60) +:+
  (if us =? 0 then "" else "." +:+ digits 6 us).

Definition digit_of (c : Ascii.ascii) : option Z :=
  let n := Z.of_N (Ascii.N_of_ascii c) in
  if (48 <=? n) && (n <=? 57) then Some (n - 48) else None.

Fixpoint read_digits (width : nat) (acc : Z) (s : string) : option (Z * string) :=
  match width, s with
  | O, _ => Some (acc, s)
  | S k, String c s' => d ← digit_of c; read_digits k (10 * acc + d) s'
  | S _, EmptyString => None
  end.

Definition expect (c : Ascii.ascii) (s : string) : option string :=
  match s with
  | String c' s' => if Ascii.eqb c c' then Some s' else None
  | EmptyString => None
  end.

(** Reads the two forms that [isoformat] writes. *)
Definition fromisoformat (s : string) : option Z :=
  '(y, s) ← read_digits 4 0 s; s ← expect "-"%char s;
  '(m, s) ← read_digits 2 0 s; s ← expect "-"%char s;
  '(d, s) ← read_digits 2 0 s; s ← expect "T"%char s;
  '(hh, s) ← read_digits 2 0 s; s ← expect ":"%char s;
  '(mm, s) ← read_digits 2 0 s; s ← expect ":"%char s;
  '(ss, s) ← read_digits 2 0 s;
  '(us, s) ← match s with
              | EmptyString => Some (0, s)
              | _ => s ← expect "."%char s; read_digits 6 0 s
              end;
  let days := days_from_civil y m d in
  if bool_decide (s = "" ∧ 1 <= y ∧ civil_from_days days = (y, m, d) ∧
                  hh < 24 ∧ mm < 60 ∧ ss < 60)
  then Some ((days * 86400 + hh * 3600 + mm * 60 + ss) * 1000000 + us)
  else None.

Definition quote_char : Ascii.ascii := Ascii.ascii_of_nat 34.
Definition backslash : Ascii.ascii := Ascii.ascii_of_nat 92.

Definition escape (c : Ascii.ascii) : string :=
  if Ascii.eqb c quote_char then String backslash (String quote_char "")
  else if Ascii.eqb c backslash then String backslash (String backslash "")
  else String c "".

Fixpoint escape_all (s : string) : string :=
  match s with
  | EmptyString => ""
  | String c s' => escape c +:+ escape_all s'
  end.

Definition quoted (s : string) : string :=
  String quote_char (escape_all s) +:+ String quote_char "".

Fixpoint members (l : list (string * string)) : string :=
  match l with
  | [] => ""
  | [(k, v)] => quoted k +:+ ": " +:+ quoted v
  | (k, v) :: l' => quoted k +:+ ": " +:+ quoted v +:+ ", " +:+ members l'
  end.

(** [json.dumps] of a flat object of printable ASCII strings. *)
Definition json_dumps (l : list (string * string)) : string :=
  "{" +:+ members l +:+ "}".

(** The children in the order of their keys. *)
Fixpoint insert_by_key (x : string * node) (l : list (string * node))
    : list (string * node) :=
  match l with
  | [] => [x]
  | y :: l' => if String.leb x.1 y.1 then x :: l else y :: insert_by_key x l'
  end.

Definition items (data : gmap string node) : list (string * node) :=
  foldr insert_by_key [] (map_to_list data).

Lemma insert_by_key_perm (x : string * node) (l : list (string * node)) :
  insert_by_key x l ≡ₚ x :: l.
Proof.
  induction l as [|y l IH]; [done|].
  simpl. destruct (String.leb x.1 y.1); [done|].
  by rewrite IH, Permutation_swap.
Qed.

Lemma items_by_key_listing (data : gmap string node) :
  items data ≡ₚ map_to_list data.
Proof.
  unfold items. induction (map_to_list data) as [|x l IH]; [done|].
  simpl. by rewrite insert_by_key_perm, IH.
Qed.

Definition runtime : PyRuntime :=
  Build_PyRuntime isoformat fromisoformat json_dumps items items_by_key_listing.

End ExampleRuntime.

Module Examples.

Definition rt : PyRuntime := ExampleRuntime.runtime.

(** 2024-01-01T00:00:00 *)
Definition new_year : Z := 1704067200000000.

(** A record as [create_help_request] writes it. *)
Definition record (request_id question caller_info created_at timeout_at session_id : string)
    : pydict :=
  <["id" := JStr request_id]> (
  <["question" := JStr question]> (
  <["caller_info" := JStr caller_info]> (
  <["status" := JStr "pending"]> (
  <["created_at" := JStr created_at]> (
  <["resolved_at" := JNull]> (
  <["timeout_at" := JStr timeout_at]> (
  <["answer" := JNull]> (
  <["answered_by" := JNull]> (
  <["session_id" := JStr session_id]> (
  <["callback_info" :=
      JStr (ExampleRuntime.json_dumps [("phone", caller_info); ("ask_time", created_at)])]> (
  <["attempt_count" := JNum 0]> ∅))))))))))).

(** Asked on 2023-12-31 at 21:00, due at 23:00. *)
Definition transplants : pydict :=
  record "req-1" "Do you do hair transplants?" "555-0101"
         "2023-12-31T21:00:00" "2023-12-31T23:00:00" "room-42".

(** Asked on 2023-12-31 at 23:30, due on 2024-01-01 at 01:30. *)
Definition cancellation : pydict :=
  record "req-2" "What is your cancellation policy?" "555-0102"
         "2023-12-31T23:30:00" "2024-01-01T01:30:00" "room-43".

Definition parking : pydict :=
  record "req-3" "Is there parking for bicycles?" "555-0103"
         "2023-12-31T20:00:00" "2023-12-31T22:00:00" "room-44".

Definition gift_cards : pydict :=
  record "req-4" "Do you sell gift cards?" "555-0104"
         "2023-12-31T19:00:00" "2023-12-31T21:00:00" "room-45".

(** [n] times the letter e with an acute accent, two bytes in UTF-8. *)
Fixpoint accented (n : nat) : string :=
  match n with
  | O => ""
  | S k => "é" +:+ accented k
  end.

Definition sarah : HelpRequestAnswer :=
  {| answer := "24 hours notice required"; supervisor_name := "Sarah" |}.

(** The tree after [create_initial_data]. *)
Definition initial_data : gmap string node :=
  <["initialized" := Leaf (JBool true)]> (
  <["created_at" := Leaf (JStr "2023-12-31T18:00:00")]> ∅).

(** The ids that [uuid4] hands out, in order. *)
Definition uuid_supply (n : nat) : string :=
  match n with
  | 0%nat => "00000000-0000-4000-8000-000000000000"
  | 1%nat => "00000000-0000-4000-8000-000000000001"
  | 2%nat => "00000000-0000-4000-8000-000000000002"
  | _ => "00000000-0000-4000-8000-000000000003"
  end.

(** A world on the stroke of the new year: the clock advances one second
    per reading. *)
Definition world_of (data : gmap string node) (fs : list bool)
    (connections : list nat) (bad : nat -> bool) : world :=
  {| help_requests := data;
     knowledge_base := ∅;
     faults := fs;
     clock := fun n => new_year + Z.of_nat n * 1000000;
     ticks := 0;
     uuids := uuid_supply;
     drawn := 0;
     active_connections := connections;
     send_raises := bad;
     attempted := [];
     delivered := [];
     broadcasts := [] |}.

(** Two pending records, one resolved, one timed out. *)
Definition mixed_store : gmap string node :=
  <["req-1" := Dict transplants]> (
  <["req-2" := Dict cancellation]> (
  <["req-3" :=
      Dict (FirebaseService.answered parking
              {| answer := "Yes, next to the entrance"; supervisor_name := "Sarah" |}
              "2023-12-31T20:30:00")]> (
  <["req-4" := Dict (timed_out gift_cards)]> initial_data))).

(** One record, overdue. *)
Definition overdue_store : gmap string node :=
  <["req-1" := Dict transplants]> initial_data.

(** Two records, both overdue. *)
Definition two_overdue_store : gmap string node :=
  <["req-4" := Dict gift_cards]> overdue_store.

End Examples.

(** * Properties *)

(** ** Running the primitives *)

Lemma world_eta (w : world) :
  {| help_requests := help_requests w; knowledge_base := knowledge_base w;
     faults := faults w; clock := clock w; ticks := ticks w;
     uuids := uuids w; drawn := drawn w;
     active_connections := active_connections w; send_raises := send_raises w;
     attempted := attempted w; delivered := delivered w; broadcasts := broadcasts w |} = w.
Proof. by destruct w. Qed.

Lemma store_call_up (w : world) :
  faults w = [] -> store_call w = (Ok tt, w).
Proof. intros Hf. unfold store_call. by rewrite Hf. Qed.

Lemma store_call_down (w : world) (fs : list bool) :
  faults w = true :: fs -> store_call w = (Raise StoreError, set_faults fs w).
Proof. intros Hf. unfold store_call. by rewrite Hf. Qed.

(** ** The connection manager *)

Section broadcast_facts.
Import ConnectionManager.

Lemma list_remove_not_in (x : nat) (l : list nat) :
  x ∉ l -> list_remove x l = l.
Proof.
  induction l as [|y l IH]; [done|].
  intros Hx. simpl. case_decide as Hxy.
  - subst. exfalso. apply Hx. by left.
  - f_equal. apply IH. intros Hin. apply Hx. by right.
Qed.

Lemma disconnect_run (c : nat) (w : world) :
  disconnect c w =
    (Ok tt, set_active_connections (list_remove c (active_connections w)) w).
Proof.
  unfold disconnect. case_decide as Hin; [done|].
  rewrite list_remove_not_in by done.
  unfold set_active_connections. by rewrite world_eta.
Qed.


Lemma cleanup_run (failed : list nat) (w : world) :
  cleanup failed w =
    (Ok tt, set_active_connections (drop_all failed (active_connections w)) w).
Proof.
  revert w. induction failed as [|c failed IH]; intros w.
  - simpl. unfold ret, set_active_connections. by rewrite world_eta.
  - simpl. unfold bind. rewrite disconnect_run, IH. done.
Qed.

Lemma send_loop_run (msg : message) (l failed : list nat) (w : world) :
  send_loop msg l failed w =
    (Ok (failed ++ List.filter (send_raises w) l),
     set_delivered
       (delivered w ++
        map (fun c => (c, msg)) (List.filter (fun c => negb (send_raises w c)) l))
       (set_attempted (attempted w ++ map (fun c => (c, msg)) l) w)).
Proof.
  revert failed w. induction l as [|c l IH]; intros failed w.
  - simpl. unfold ret, set_delivered, set_attempted. simpl.
    by rewrite !app_nil_r, world_eta.
  - simpl. unfold bind at 1. unfold try_except, bind, send_json.
    cbn [send_raises set_attempted].
    destruct (send_raises w c) eqn:Hc; simpl.
    + unfold ret. rewrite IH. unfold set_delivered, set_attempted. simpl.
      by rewrite <- !app_assoc.
    + unfold ret. rewrite IH. unfold set_delivered, set_attempted. simpl.
      by rewrite <- !app_assoc.
Qed.

Lemma drop_all_cons_keep (c : nat) (failed l : list nat) :
  c ∉ failed -> drop_all failed (c :: l) = c :: drop_all failed l.
Proof.
  revert l. induction failed as [|x failed IH]; intros l Hc; [done|].
  simpl. case_decide as Hx.
  - subst. exfalso. apply Hc. by left.
  - apply IH. intros Hin. apply Hc. by right.
Qed.

(** Dropping the first occurrence of every failed connection, one per
    failed send, leaves the connections whose send went through. *)
Lemma drop_all_failed (bad : nat -> bool) (l : list nat) :
  drop_all (List.filter bad l) l = List.filter (fun c => negb (bad c)) l.
Proof.
  induction l as [|c l IH]; [done|].
  simpl. destruct (bad c) eqn:Hc; simpl.
  - case_decide; [|done]. apply IH.
  - rewrite drop_all_cons_keep; [by rewrite IH|].
    intros Hin. apply list_elem_of_In, filter_In in Hin. destruct Hin. congruence.
Qed.

(** The whole effect of one [broadcast]. *)
Lemma broadcast_run (msg : message) (w : world) :
  broadcast msg w =
    (Ok tt,
     set_active_connections
       (List.filter (fun c => negb (send_raises w c)) (active_connections w))
       (set_delivered
          (delivered w ++
           map (fun c => (c, msg))
               (List.filter (fun c => negb (send_raises w c)) (active_connections w)))
          (set_attempted
             (attempted w ++ map (fun c => (c, msg)) (active_connections w))
             (set_broadcasts (broadcasts w ++ [msg]) w)))).
Proof.
  unfold broadcast. unfold bind at 1. cbv beta iota.
  change (active_connections (set_broadcasts (broadcasts w ++ [msg]) w))
    with (active_connections w).
  destruct (active_connections w) as [|c l] eqn:Hl.
  - simpl. unfold ret. rewrite !app_nil_r. f_equal.
    unfold set_active_connections, set_delivered, set_attempted, set_broadcasts. simpl.
    by rewrite Hl.
  - unfold bind. rewrite send_loop_run, cleanup_run.
    cbn [app]. f_equal.
    change (send_raises (set_broadcasts (broadcasts w ++ [msg]) w))
      with (send_raises w).
    unfold set_active_connections, set_delivered, set_attempted, set_broadcasts.
    cbn [help_requests knowledge_base faults clock ticks uuids drawn
         active_connections send_raises attempted delivered broadcasts].
    rewrite Hl. f_equal.
    apply (drop_all_failed (send_raises w) (c :: l)).
Qed.

End broadcast_facts.

Lemma filter_all (p : nat -> bool) (l : list nat) :
  (forall x, x ∈ l -> p x = true) -> List.filter p l = l.
Proof.
  induction l as [|y l IH]; intros Hall; [done|].
  simpl. rewrite (Hall y) by left. f_equal. apply IH.
  intros x Hx. apply Hall. by right.
Qed.

Lemma filter_all_but_one (p : nat -> bool) (l1 l2 : list nat) (c : nat) :
  p c = false -> (forall x, x ∈ l1 ++ l2 -> p x = true) ->
  List.filter p (l1 ++ c :: l2) = l1 ++ l2.
Proof.
  intros Hc Hall. rewrite List.filter_app. simpl. rewrite Hc.
  rewrite !filter_all; [done| |].
  - intros x Hx. apply Hall, elem_of_app. by right.
  - intros x Hx. apply Hall, elem_of_app. by left.
Qed.

(** C4. A broadcast never raises.  With [N] registered connections of which
    exactly one, [c], has a failing send, a send is attempted on each of the
    [N] connections, the event is delivered to each of the other [N-1],
    [c] is dropped from the registry, and the next broadcast reaches the
    [N-1] that remain. *)
Theorem broadcast_isolates_one_failure
    (msg : message) (w : world) (l1 l2 : list nat) (c : nat) :
  active_connections w = l1 ++ c :: l2 ->
  send_raises w c = true ->
  (forall x, x ∈ l1 ++ l2 -> send_raises w x = false) ->
  exists w',
    ConnectionManager.broadcast msg w = (Ok tt, w') /\
    attempted w' = attempted w ++ map (fun x => (x, msg)) (l1 ++ c :: l2) /\
    delivered w' = delivered w ++ map (fun x => (x, msg)) (l1 ++ l2) /\
    active_connections w' = l1 ++ l2 /\
    S (length (active_connections w')) = length (active_connections w) /\
    forall msg', exists w'',
      ConnectionManager.broadcast msg' w' = (Ok tt, w'') /\
      delivered w'' = delivered w' ++ map (fun x => (x, msg')) (l1 ++ l2) /\
      active_connections w'' = l1 ++ l2.
Proof.
  intros Hl Hc Hothers.
  assert (Hgood : List.filter (fun x => negb (send_raises w x)) (l1 ++ c :: l2)
                  = l1 ++ l2).
  { apply filter_all_but_one; [by rewrite Hc|].
    intros x Hx. by rewrite (Hothers x Hx). }
  eexists. split; [apply broadcast_run|].
  rewrite Hl, Hgood. simpl.
  split; [done|]. split; [done|]. split; [done|]. split.
  { rewrite !length_app. simpl. lia. }
  intros msg'. eexists. split; [apply broadcast_run|]. simpl.
  rewrite filter_all; [done|].
  intros x Hx. by rewrite (Hothers x Hx).
Qed.

(** ** The listing of a subtree *)

Section items_facts.
Context `{PyRuntime}.

Lemma elem_of_items (data : gmap string node) (k : string) (n : node) :
  (k, n) ∈ items data <-> data !! k = Some n.
Proof. by rewrite items_listing, elem_of_map_to_list. Qed.

Lemma NoDup_fst_items (data : gmap string node) : NoDup (items data).*1.
Proof.
  rewrite (fmap_Permutation fst _ _ (items_listing data)).
  apply NoDup_fst_map_to_list.
Qed.

Lemma items_empty : items ∅ = [].
Proof.
  apply Permutation_nil_r. by rewrite items_listing, map_to_list_empty.
Qed.

Lemma length_items (data : gmap string node) : length (items data) = size data.
Proof. by rewrite items_listing, length_map_to_list. Qed.

End items_facts.

(** ** Statistics *)


Lemma has_status_spec (s : RequestStatus) (n : node) :
  FirebaseService.has_status s n = true <-> status_is s n.
Proof.
  unfold status_is. destruct n as [v|d]; simpl.
  - split; [done|]. by intros (d & ? & _).
  - rewrite bool_decide_eq_true. unfold dict_get. split.
    + intros Hd. exists d. split; [done|].
      destruct (d !! "status") as [v|]; simpl in Hd; by subst.
    + intros (d' & [= <-] & Hd). by rewrite Hd.
Qed.



Lemma filter_length_perm {A} (p : A -> bool) (l l' : list A) :
  l ≡ₚ l' -> length (List.filter p l) = length (List.filter p l').
Proof.
  induction 1 as [|x l l' _ IH|x y l|l l' l'' _ IH1 _ IH2]; simpl.
  - done.
  - destruct (p x); simpl; by rewrite IH.
  - by destruct (p x), (p y).
  - by rewrite IH1.
Qed.

Section stats_facts.
Context `{PyRuntime}.

Lemma count_status_size (s : RequestStatus) (data : gmap string node) :
  FirebaseService.count_status s data = size (with_status s data).
Proof.
  unfold FirebaseService.count_status, with_status.
  rewrite (filter_length_perm _ _ (map_to_list data).*2)
    by (by rewrite items_listing).
  induction data as [|k n data Hk IH] using map_ind.
  - by rewrite map_filter_empty, map_to_list_empty, map_size_empty.
  - rewrite (filter_length_perm _ _ (n :: (map_to_list data).*2)).
    2:{ rewrite map_to_list_insert by done. done. }
    simpl. destruct (FirebaseService.has_status s n) eqn:Hs.
    + rewrite map_filter_insert_True by (by apply has_status_spec).
      rewrite map_size_insert_None.
      * simpl. by rewrite IH.
      * by rewrite map_lookup_filter_None_2; [|left].
    + rewrite map_filter_insert_not'.
      * done.
      * simpl. intros Hn. apply has_status_spec in Hn. congruence.
      * intros y. by rewrite Hk.
Qed.

(** C9. When the store answers, [get_stats] returns for each status the
    number of stored records with that status, and their sum as total; the
    store is left as it was. *)
Theorem get_stats_counts (w : world) :
  faults w = [] ->
  FirebaseService.get_stats w =
    (Ok {| pending := size (with_status PENDING (help_requests w));
           resolved := size (with_status RESOLVED (help_requests w));
           timeout := size (with_status TIMEOUT (help_requests w));
           total := size (with_status PENDING (help_requests w)) +
                    size (with_status RESOLVED (help_requests w)) +
                    size (with_status TIMEOUT (help_requests w)) |}, w).
Proof.
  intros Hf.
  unfold FirebaseService.get_stats, try_except, get_help_requests, bind.
  rewrite store_call_up by done.
  case_bool_decide as He.
  - rewrite He. unfold with_status. rewrite !map_filter_empty, map_size_empty. done.
  - unfold ret. by rewrite !count_status_size.
Qed.

End stats_facts.

(** ** The timeout sweep *)

Section sweep_facts.
Context `{PyRuntime}.
Import TimeoutService.



Lemma dict_get_timed_out (d : pydict) (k : string) :
  k ≠ "status" -> dict_get (timed_out d) k = dict_get d k.
Proof. intros Hk. unfold dict_get, timed_out. by rewrite lookup_insert_ne. Qed.

Lemma timeout_one_run (k : string) (d : pydict) (w : world) :
  faults w = [] ->
  exists w' m,
    timeout_one (k, d) w = (Ok tt, w') /\
    faults w' = [] /\
    help_requests w' = <[k := Dict (timed_out d)]> (help_requests w) /\
    knowledge_base w' = knowledge_base w /\
    broadcasts w' = broadcasts w ++ [m] /\
    is_timeout_event d m.
Proof.
  intros Hf.
  unfold timeout_one, set_help_request, bind. rewrite store_call_up by done.
  unfold NotificationService.notify_request_timeout, bind, utcnow.
  rewrite broadcast_run. do 2 eexists. split; [reflexivity|]. simpl.
  repeat split; try done.
  all: cbn [msg_data]; rewrite ?lookup_insert_ne by done;
       rewrite lookup_insert_eq; f_equal; by apply dict_get_timed_out.
Qed.


Lemma timeout_all_run (l : list (string * pydict)) (w : world) :
  faults w = [] ->
  exists w' msgs,
    timeout_all l w = (Ok tt, w') /\
    faults w' = [] /\
    help_requests w' = write_back l (help_requests w) /\
    knowledge_base w' = knowledge_base w /\
    broadcasts w' = broadcasts w ++ msgs /\
    Forall2 (fun e m => is_timeout_event e.2 m) l msgs.
Proof.
  revert w. induction l as [|[k d] l IH]; intros w Hf.
  - exists w, []. simpl. by rewrite app_nil_r.
  - destruct (timeout_one_run k d w Hf) as (w1 & m & Hrun & Hf1 & Hh1 & Hk1 & Hb1 & Hm).
    destruct (IH w1 Hf1) as (w2 & msgs & Hrun2 & Hf2 & Hh2 & Hk2 & Hb2 & Hms).
    exists w2, (m :: msgs).
    cbn [timeout_all]. unfold bind. rewrite Hrun, Hrun2.
    repeat split; try done.
    + by rewrite Hh2, Hh1.
    + by rewrite Hk2, Hk1.
    + by rewrite Hb2, Hb1, <- app_assoc.
    + by constructor.
Qed.

Lemma write_back_notin (l : list (string * pydict)) (data : gmap string node) (k : string) :
  k ∉ l.*1 -> write_back l data !! k = data !! k.
Proof.
  revert data. induction l as [|[k' d'] l IH]; intros data Hk; [done|].
  simpl. rewrite IH.
  - rewrite lookup_insert_ne; [done|]. intros ->. apply Hk. by left.
  - intros Hin. apply Hk. by right.
Qed.

Lemma write_back_in (l : list (string * pydict)) (data : gmap string node)
    (k : string) (d : pydict) :
  NoDup l.*1 -> (k, d) ∈ l -> write_back l data !! k = Some (Dict (timed_out d)).
Proof.
  revert data. induction l as [|[k' d'] l IH]; intros data Hnd Hin.
  - by apply elem_of_nil in Hin.
  - apply NoDup_cons in Hnd as [Hk' Hnd].
    apply elem_of_cons in Hin as [[= -> ->]|Hin]; simpl.
    + rewrite write_back_notin by done. by rewrite lookup_insert_eq.
    + by apply IH.
Qed.


Lemma collect_spec (now : Z) (k : string) (n : node) (e : string * pydict) :
  collect now (k, n) = Some e <-> exists d, e = (k, d) /\ n = Dict d /\ due now k d.
Proof.
  unfold collect, due, is_expired. destruct n as [v|d].
  { split; [done|]. by intros (? & _ & ? & _). }
  destruct (String.eqb_spec k "initialized") as [->|Hk].
  { split; [done|]. by intros (? & _ & _ & ? & _). }
  unfold dict_get. split.
  - case_bool_decide as Hs; [|done].
    destruct (d !! "status") as [st|] eqn:Hst; simpl in Hs; [subst st|done].
    destruct (d !! "timeout_at") as [[| | |s]|] eqn:Hta; simpl; try done.
    destruct (fromisoformat s) as [t|] eqn:Ht; [|done].
    destruct (Z.leb_spec t now); [|done].
    intros [= <-]. exists d. repeat split; try done. by exists s, t.
  - intros (d' & -> & [= <-] & _ & Hst & s & t & Hta & Ht & Hle).
    rewrite Hst, Hta. simpl. rewrite Ht. by rewrite (proj2 (Z.leb_le t now) Hle).
Qed.

Lemma elem_of_scan (now : Z) (data : gmap string node) (k : string) (d : pydict) :
  (k, d) ∈ scan now data <-> data !! k = Some (Dict d) /\ due now k d.
Proof.
  unfold scan. rewrite list_elem_of_omap. split.
  - intros ([k' n] & Hin & Hc). apply elem_of_items in Hin.
    apply collect_spec in Hc as (d' & [= -> ->] & -> & Hdue). done.
  - intros [Hk Hdue]. exists (k, Dict d). split.
    + by apply elem_of_items.
    + apply collect_spec. by exists d.
Qed.

Lemma collect_keys (now : Z) (l : list (string * node)) (k : string) :
  k ∈ (omap (collect now) l).*1 -> k ∈ l.*1.
Proof.
  intros Hk. apply list_elem_of_fmap in Hk as ([k' d] & -> & Hin).
  apply list_elem_of_omap in Hin as ([k'' n] & Hin & Hc).
  apply collect_spec in Hc as (d' & [= -> ->] & _).
  apply list_elem_of_fmap. by exists (k'', n).
Qed.

Lemma NoDup_scan (now : Z) (data : gmap string node) :
  NoDup (scan now data).*1.
Proof.
  unfold scan. pose proof (NoDup_fst_items data) as Hnd.
  induction (items data) as [|[k n] l IH]; [constructor|].
  simpl in Hnd. apply NoDup_cons in Hnd as [Hk Hnd].
  cbn [omap list_omap].
  destruct (collect now (k, n)) as [e|] eqn:Hc; [|by apply IH].
  apply collect_spec in Hc as (d & -> & _). cbn [fmap list_fmap fst].
  apply NoDup_cons.
  split; [|by apply IH]. intros Hin. by apply Hk, (collect_keys now).
Qed.

(** One sweep, when the store answers: the records found due are written
    back as timed out, one event is broadcast for each, in the order of
    the scan. *)
Lemma process_timeouts_run (w : world) :
  faults w = [] ->
  exists w' msgs,
    _process_timeouts w = (Ok tt, w') /\
    faults w' = [] /\
    help_requests w' =
      write_back (scan (clock w (ticks w)) (help_requests w)) (help_requests w) /\
    knowledge_base w' = knowledge_base w /\
    broadcasts w' = broadcasts w ++ msgs /\
    Forall2 (fun e m => is_timeout_event e.2 m)
            (scan (clock w (ticks w)) (help_requests w)) msgs.
Proof.
  intros Hf.
  unfold _process_timeouts, bind, utcnow, try_except, get_help_requests, bind.
  rewrite store_call_up by done. cbn [help_requests set_ticks].
  case_bool_decide as He.
  - exists (set_ticks (S (ticks w)) w), []. rewrite He.
    unfold scan. rewrite items_empty. simpl.
    rewrite app_nil_r. repeat split; done.
  - destruct (timeout_all_run (scan (clock w (ticks w)) (help_requests w))
                (set_ticks (S (ticks w)) w) Hf)
      as (w' & msgs & Hrun & Hrest).
    exists w', msgs. by rewrite Hrun.
Qed.

(** C3. One sweep, when the store answers, writes back as timed out exactly
    the stored records that are due (pending, with a [timeout_at] not after
    the time of the sweep), broadcasts one [request_timeout] event for each
    of them, and leaves every other child of the store as it was. *)
Theorem sweep_times_out_the_due (w : world) :
  faults w = [] ->
  exists w' l msgs,
    _process_timeouts w = (Ok tt, w') /\
    NoDup l.*1 /\
    (forall k d, (k, d) ∈ l <->
       help_requests w !! k = Some (Dict d) /\ due (clock w (ticks w)) k d) /\
    (forall k d, (k, d) ∈ l -> help_requests w' !! k = Some (Dict (timed_out d))) /\
    (forall k, k ∉ l.*1 -> help_requests w' !! k = help_requests w !! k) /\
    broadcasts w' = broadcasts w ++ msgs /\
    Forall2 (fun e m => is_timeout_event e.2 m) l msgs.
Proof.
  intros Hf.
  destruct (process_timeouts_run w Hf) as (w' & msgs & Hrun & _ & Hh & _ & Hb & Hms).
  exists w', (scan (clock w (ticks w)) (help_requests w)), msgs.
  split; [done|]. split; [apply NoDup_scan|]. split; [apply elem_of_scan|].
  split; [|split; [|done]].
  - intros k d Hin. rewrite Hh. apply write_back_in; [apply NoDup_scan|done].
  - intros k Hk. rewrite Hh. by apply write_back_notin.
Qed.

Lemma timed_out_only_status (d : pydict) : only_status_changed d (timed_out d).
Proof.
  split.
  - apply lookup_insert_eq.
  - intros f Hf. unfold timed_out. by rewrite lookup_insert_ne.
Qed.

Lemma timed_out_unanswered (d : pydict) : unanswered d -> unanswered (timed_out d).
Proof.
  intros (Hr & Ha & Hb). unfold unanswered.
  by rewrite !dict_get_timed_out.
Qed.

(** C10. The timeout transition changes the status of the record and no
    other field, in the sweep as in [timeout_request]: the record written
    back is the record that was read with its status set to timeout, so a
    record without answer stays without answer. *)
Theorem timeout_changes_only_status (w : world) (k : string) (d : pydict) :
  faults w = [] ->
  help_requests w !! k = Some (Dict d) ->
  (due (clock w (ticks w)) k d ->
   exists w' d',
     _process_timeouts w = (Ok tt, w') /\
     help_requests w' !! k = Some (Dict d') /\
     only_status_changed d d' /\
     (unanswered d -> unanswered d')) /\
  (d ≠ ∅ ->
   exists d',
     help_requests (FirebaseService.timeout_request k w).2 !! k = Some (Dict d') /\
     only_status_changed d d' /\
     (unanswered d -> unanswered d')).
Proof.
  intros Hf Hk. split.
  - intros Hdue.
    destruct (process_timeouts_run w Hf) as (w' & msgs & Hrun & _ & Hh & _).
    exists w', (timed_out d). split; [done|]. split.
    + rewrite Hh. apply write_back_in; [apply NoDup_scan|]. by apply elem_of_scan.
    + split; [apply timed_out_only_status|apply timed_out_unanswered].
  - intros Hd. exists (timed_out d). split.
    + unfold FirebaseService.timeout_request, try_except, bind, get_help_request, bind.
      rewrite store_call_up by done. rewrite Hk. simpl.
      rewrite bool_decide_eq_false_2 by done. simpl.
      unfold set_help_request, bind. rewrite store_call_up by done.
      destruct (HelpRequestResponse_of_dict _); simpl; apply lookup_insert_eq.
    + split; [apply timed_out_only_status|apply timed_out_unanswered].
Qed.

End sweep_facts.

(** ** Creating an escalation *)

Section create_facts.
Context `{PyRuntime}.
Import FirebaseService.

(** The whole effect of [create_help_request] when the store answers. *)
Lemma create_help_request_run (w : world) (q c s : string) :
  faults w = [] ->
  exists d w',
    create_help_request q c s w =
      (Ok {| hr_id := uuids w (drawn w);
             hr_question := q;
             hr_caller_info := Some (if String.eqb c "" then "Anonymous" else c);
             hr_status := "pending";
             hr_created_at := isoformat (clock w (ticks w));
             hr_resolved_at := None;
             hr_timeout_at := isoformat (clock w (S (ticks w)) + timedelta_hours 2);
             hr_answer := None;
             hr_answered_by := None;
             hr_session_id := s |}, w') /\
    help_requests w' = <[uuids w (drawn w) := Dict d]> (help_requests w) /\
    d !! "id" = Some (JStr (uuids w (drawn w))) /\
    d !! "question" = Some (JStr q) /\
    d !! "status" = Some (JStr "pending") /\
    d !! "created_at" = Some (JStr (isoformat (clock w (ticks w)))) /\
    d !! "timeout_at" =
      Some (JStr (isoformat (clock w (S (ticks w)) + timedelta_hours 2))) /\
    unanswered d.
Proof.
  intros Hf.
  unfold create_help_request, try_except, bind, uuid4, utcnow.
  cbn [set_drawn set_ticks clock ticks uuids drawn].
  unfold set_help_request, bind. rewrite store_call_up by done.
  eexists _, _. split; [reflexivity|].
  repeat split; reflexivity.
Qed.

(** C8. When the store answers, creating an escalation returns a pending
    record without [resolved_at], [answer] and [answered_by]; its
    [created_at] is the first reading of the clock, its [timeout_at] the
    second reading plus two hours, so the two are two hours apart up to
    the time between the two readings. *)
Theorem create_returns_pending (w : world) (q c s : string) :
  q ≠ "" ->
  faults w = [] ->
  exists r w',
    create_help_request q c s w = (Ok r, w') /\
    hr_question r = q /\
    hr_status r = "pending" /\
    hr_resolved_at r = None /\ hr_answer r = None /\ hr_answered_by r = None /\
    exists t0 t1,
      hr_created_at r = isoformat t0 /\
      hr_timeout_at r = isoformat t1 /\
      t1 - (t0 + timedelta_hours 2) = clock w (S (ticks w)) - clock w (ticks w) /\
      forall tolerance,
        Z.abs (clock w (S (ticks w)) - clock w (ticks w)) <= tolerance ->
        Z.abs (t1 - (t0 + timedelta_hours 2)) <= tolerance.
Proof.
  intros _ Hf.
  destruct (create_help_request_run w q c s Hf) as (d & w' & Hrun & _).
  eexists _, w'. split; [exact Hrun|]. cbn.
  repeat (split; [reflexivity|]).
  exists (clock w (ticks w)), (clock w (S (ticks w)) + timedelta_hours 2).
  repeat (split; [reflexivity|]). split; [lia|].
  intros tolerance Htol.
  by replace (clock w (S (ticks w)) + timedelta_hours 2 -
              (clock w (ticks w) + timedelta_hours 2))
    with (clock w (S (ticks w)) - clock w (ticks w)) by lia.
Qed.

(** C6 (what the code does). No check is made of the question: when the
    store answers, an empty question is given an id and persisted as a
    pending record, by the service and by the POST route alike. *)
Theorem create_persists_empty_question (w : world) (c s : string) :
  faults w = [] ->
  exists r w' d,
    HelpRequestRoutes.create_help_request
      {| question := ""; caller_info := c; session_id := s |} w = (Ok r, w') /\
    hr_question r = "" /\
    help_requests w' !! hr_id r = Some (Dict d) /\
    d !! "question" = Some (JStr "") /\
    d !! "status" = Some (JStr "pending").
Proof.
  intros Hf.
  destruct (create_help_request_run w "" c s Hf)
    as (d & w' & Hrun & Hh & _ & Hq & Hs & _).
  eexists _, w', d.
  unfold HelpRequestRoutes.create_help_request, try_except, bind.
  cbn [question caller_info session_id]. rewrite Hrun.
  cbn [NotificationService.notify_new_request raise ret].
  split; [reflexivity|]. cbn [hr_question hr_id].
  split; [done|]. split; [|done].
  rewrite Hh. apply lookup_insert_eq.
Qed.

End create_facts.

(** ** Resolving an escalation *)

Section resolve_facts.
Context `{PyRuntime}.
Import FirebaseService.

Lemma answered_lookup_other (d : pydict) (ad : HelpRequestAnswer) (t k : string) :
  k ≠ "resolved_at" -> k ≠ "answered_by" -> k ≠ "answer" -> k ≠ "status" ->
  answered d ad t !! k = d !! k.
Proof. intros. unfold answered. by rewrite !lookup_insert_ne by done. Qed.

Lemma answered_status (d : pydict) (ad : HelpRequestAnswer) (t : string) :
  answered d ad t !! "status" = Some (JStr "resolved").
Proof. unfold answered. rewrite !lookup_insert_ne by done. apply lookup_insert_eq. Qed.

Lemma answered_answer (d : pydict) (ad : HelpRequestAnswer) (t : string) :
  answered d ad t !! "answer" = Some (JStr (answer ad)).
Proof. unfold answered. rewrite !lookup_insert_ne by done. apply lookup_insert_eq. Qed.

Lemma answered_answered_by (d : pydict) (ad : HelpRequestAnswer) (t : string) :
  answered d ad t !! "answered_by" = Some (JStr (supervisor_name ad)).
Proof. unfold answered. rewrite !lookup_insert_ne by done. apply lookup_insert_eq. Qed.

Lemma answered_resolved_at (d : pydict) (ad : HelpRequestAnswer) (t : string) :
  answered d ad t !! "resolved_at" = Some (JStr t).
Proof. unfold answered. by rewrite lookup_insert_eq. Qed.

Lemma field_str_Some (d : pydict) (k s : string) :
  field_str d k = Some s <-> d !! k = Some (JStr s).
Proof.
  unfold field_str. destruct (d !! k) as [[| | |s']|]; split; try done.
  - by intros [= ->].
  - by intros [= ->].
Qed.

Lemma of_dict_question (d : pydict) (r : HelpRequestResponse) :
  HelpRequestResponse_of_dict d = Some r -> d !! "question" = Some (JStr (hr_question r)).
Proof.
  unfold HelpRequestResponse_of_dict. intros Hr.
  repeat match type of Hr with
         | (?x ≫= _) = Some _ => destruct x eqn:?; simpl in Hr; [|done]
         end.
  injection Hr as <-. by apply field_str_Some.
Qed.

(** [add_to_knowledge_base] on a string question, when the store answers. *)
Lemma add_to_knowledge_base_run (w : world) (q a : string) :
  faults w = [] ->
  exists e r w',
    add_to_knowledge_base (JStr q) a w = (Ok r, w') /\
    faults w' = [] /\
    help_requests w' = help_requests w /\
    knowledge_base w' = <[uuids w (drawn w) := Dict e]> (knowledge_base w) /\
    broadcasts w' = broadcasts w /\
    e !! "question" = Some (JStr q) /\
    e !! "answer" = Some (JStr a) /\
    e !! "source" = Some (JStr "learned") /\
    e !! "use_count" = Some (JNum 0).
Proof.
  intros Hf.
  unfold add_to_knowledge_base, try_except, bind, uuid4, utcnow.
  cbn [set_drawn set_ticks clock ticks uuids drawn].
  unfold set_kb_entry, bind. rewrite store_call_up by done.
  eexists _, _, _. split; [reflexivity|].
  repeat split; reflexivity || done.
Qed.

(** The whole effect of [answer_request] on a stored, non-empty record when
    the store answers: the record is overwritten whatever it held; the
    call returns when the record written validates. *)
Lemma answer_request_run (w : world) (request_id : string)
    (ad : HelpRequestAnswer) (d : pydict) :
  faults w = [] ->
  help_requests w !! request_id = Some (Dict d) ->
  d ≠ ∅ ->
  let d' := answered d ad (isoformat (clock w (ticks w))) in
  exists o w',
    answer_request request_id ad w = (o, w') /\
    faults w' = [] /\
    help_requests w' = <[request_id := Dict d']> (help_requests w) /\
    broadcasts w' = broadcasts w /\
    (forall r, HelpRequestResponse_of_dict d' = Some r -> o = Ok r) /\
    (HelpRequestResponse_of_dict d' = None -> exists e, o = Raise e).
Proof.
  intros Hf Hk Hd d'.
  unfold answer_request, try_except, bind, get_help_request, bind.
  rewrite store_call_up by done. rewrite Hk.
  cbn [node_truthy negb]. rewrite bool_decide_eq_false_2 by done.
  cbn [negb utcnow]. unfold set_help_request, bind.
  rewrite store_call_up by done. fold d'.
  unfold subscript.
  destruct (d' !! "question") as [qv|] eqn:Hq.
  2:{ eexists _, _. split; [reflexivity|]. repeat split; try done.
      - intros r Hr. apply of_dict_question in Hr. congruence.
      - by eexists. }
  destruct (HelpRequestResponse_of_dict d') as [r|] eqn:Hr.
  - pose proof (of_dict_question _ _ Hr) as Hq'.
    rewrite Hq in Hq'. injection Hq' as ->.
    edestruct (add_to_knowledge_base_run
                 (set_help_requests (insert request_id (Dict d'))
                    (set_ticks (S (ticks w)) w))
                 (hr_question r) (answer ad))
      as (e & kr & w' & Hrun & Hf' & Hh' & _ & Hb' & _); [done|].
    cbn [ret]. rewrite Hrun. eexists _, _. split; [reflexivity|].
    repeat split; try done.
    intros r' [= <-]. done.
  - cbn [ret].
    assert (Hkb : exists o w',
               add_to_knowledge_base qv (answer ad)
                 (set_help_requests (insert request_id (Dict d'))
                    (set_ticks (S (ticks w)) w)) = (o, w') /\
               faults w' = [] /\
               help_requests w' = <[request_id := Dict d']> (help_requests w) /\
               broadcasts w' = broadcasts w).
    { unfold add_to_knowledge_base, try_except, bind, uuid4, utcnow.
      cbn [set_drawn set_ticks clock ticks uuids drawn].
      unfold set_kb_entry, bind. rewrite store_call_up by done.
      destruct qv; cbn [ret raise];
        try destruct (KnowledgeBaseResponse_of_dict _); eexists _, _; done. }
    destruct Hkb as (o & w' & Hrun & Hf' & Hh' & Hb'). rewrite Hrun.
    destruct o as [kr|e]; eexists _, _; (split; [reflexivity|]);
      repeat split; try done; by eexists.
Qed.

(** C1 (what the code does). [answer_request] makes no check of the status:
    when the store answers, a stored record with any status, terminal or
    not, is overwritten with status resolved and the new answer, and the
    call returns the record as soon as it validates. *)
Theorem answer_request_ignores_status (w : world) (request_id : string)
    (ad : HelpRequestAnswer) (d : pydict) (status : string) :
  faults w = [] ->
  help_requests w !! request_id = Some (Dict d) ->
  d !! "status" = Some (JStr status) ->
  exists d',
    help_requests (answer_request request_id ad w).2 !! request_id = Some (Dict d') /\
    d' !! "status" = Some (JStr "resolved") /\
    d' !! "answer" = Some (JStr (answer ad)) /\
    d' !! "answered_by" = Some (JStr (supervisor_name ad)) /\
    d' !! "resolved_at" = Some (JStr (isoformat (clock w (ticks w)))) /\
    forall r, HelpRequestResponse_of_dict d' = Some r ->
              (answer_request request_id ad w).1 = Ok r.
Proof.
  intros Hf Hk Hs.
  assert (Hd : d ≠ ∅) by (intros ->; by rewrite lookup_empty in Hs).
  destruct (answer_request_run w request_id ad d Hf Hk Hd)
    as (o & w' & Hrun & _ & Hh & _ & Hok & _).
  eexists. rewrite Hrun. cbn [fst snd]. rewrite Hh, lookup_insert_eq.
  split; [reflexivity|].
  split; [apply answered_status|]. split; [apply answered_answer|].
  split; [apply answered_answered_by|]. split; [apply answered_resolved_at|].
  done.
Qed.

End resolve_facts.

(** ** The knowledge base after a resolve *)

Lemma try_reraise {A} (c : M A) (w : world) :
  try_except c (fun e => raise e) w = c w.
Proof. unfold try_except, raise. by destruct (c w) as [[a|e] w']. Qed.

Lemma store_call_inv (w w' : world) (o : outcome unit) :
  store_call w = (o, w') -> exists fs, w' = set_faults fs w.
Proof.
  unfold store_call. destruct (faults w) as [|[] fs] eqn:Hf; intros [= <- <-].
  - exists []. unfold set_faults. by rewrite <- Hf, world_eta.
  - by exists fs.
  - by exists fs.
Qed.

Section knowledge_facts.
Context `{PyRuntime}.
Import FirebaseService.

(** C7. A resolve that succeeds adds exactly one entry to the knowledge
    base, under the fresh id drawn for it: it is tagged learned, has use
    count 0, the question of the resolved record and the answer supplied;
    the entries that were there are all kept as they were. *)
Theorem resolve_adds_one_learned_entry (w w' : world) (request_id : string)
    (ad : HelpRequestAnswer) (r : HelpRequestResponse) :
  answer_request request_id ad w = (Ok r, w') ->
  knowledge_base w !! uuids w (drawn w) = None ->
  exists d e,
    help_requests w !! request_id = Some (Dict d) /\
    d !! "question" = Some (JStr (hr_question r)) /\
    knowledge_base w' = <[uuids w (drawn w) := Dict e]> (knowledge_base w) /\
    size (knowledge_base w') = S (size (knowledge_base w)) /\
    (forall k, k ≠ uuids w (drawn w) -> knowledge_base w' !! k = knowledge_base w !! k) /\
    e !! "source" = Some (JStr "learned") /\
    e !! "use_count" = Some (JNum 0) /\
    e !! "question" = Some (JStr (hr_question r)) /\
    e !! "answer" = Some (JStr (answer ad)).
Proof.
  intros Hrun Hfresh. unfold answer_request in Hrun. rewrite try_reraise in Hrun.
  unfold bind, get_help_request, bind in Hrun.
  destruct (store_call w) as [[[]|e1] w1] eqn:E1; [|done].
  apply store_call_inv in E1 as [fs1 ->].
  cbn [help_requests set_faults] in Hrun.
  destruct (help_requests w !! request_id) as [[v|d]|] eqn:Hk; [| |done].
  { destruct (node_truthy (Leaf v)); done. }
  destruct (negb (node_truthy (Dict d))); [done|].
  cbn [utcnow] in Hrun. unfold set_help_request, bind in Hrun.
  destruct (store_call _) as [[[]|e2] w2] eqn:E2; [|done].
  apply store_call_inv in E2 as [fs2 ->].
  unfold subscript in Hrun.
  destruct (answered d ad _ !! "question") as [qv|] eqn:Hq; [|done].
  cbn [ret] in Hrun. unfold add_to_knowledge_base in Hrun.
  rewrite try_reraise in Hrun.
  unfold bind, uuid4, utcnow, set_kb_entry, bind in Hrun.
  destruct (store_call _) as [[[]|e3] w3] eqn:E3; [|done].
  apply store_call_inv in E3 as [fs3 ->].
  destruct qv as [| | |q0]; cbn [ret raise] in Hrun; try done.
  destruct (KnowledgeBaseResponse_of_dict _) as [kr|] eqn:Hkr; [|done].
  cbn [validate ret] in Hrun.
  destruct (HelpRequestResponse_of_dict (answered d ad _)) as [r'|] eqn:Hr; [|done].
  cbn [validate ret] in Hrun. injection Hrun as -> <-.
  apply of_dict_question in Hr. rewrite Hq in Hr. injection Hr as ->.
  rewrite answered_lookup_other in Hq by done.
  eexists d, _. split; [done|]. split; [done|].
  cbn [knowledge_base set_knowledge_base set_faults set_ticks set_drawn set_help_requests
       uuids drawn].
  split; [reflexivity|]. split; [by apply map_size_insert_None|].
  split; [by intros k Hne; apply lookup_insert_ne|].
  repeat split; reflexivity.
Qed.

(** ** Store failures *)










End knowledge_facts.

(** ** A resolve racing a sweep *)

Section race_facts.
Context `{PyRuntime}.
Import FirebaseService TimeoutService.

Lemma field_str_answered (d : pydict) (ad : HelpRequestAnswer) (t k : string) :
  k ≠ "resolved_at" -> k ≠ "answered_by" -> k ≠ "answer" -> k ≠ "status" ->
  field_str (answered d ad t) k = field_str d k.
Proof. intros. unfold field_str. by rewrite answered_lookup_other. Qed.

Lemma field_opt_str_answered (d : pydict) (ad : HelpRequestAnswer) (t k : string) :
  k ≠ "resolved_at" -> k ≠ "answered_by" -> k ≠ "answer" -> k ≠ "status" ->
  field_opt_str (answered d ad t) k = field_opt_str d k.
Proof. intros. unfold field_opt_str. by rewrite answered_lookup_other. Qed.

Lemma field_str_answered_status (d : pydict) (ad : HelpRequestAnswer) (t : string) :
  field_str (answered d ad t) "status" = Some "resolved".
Proof. unfold field_str. by rewrite answered_status. Qed.

Lemma field_opt_str_answered_resolved_at (d : pydict) (ad : HelpRequestAnswer) (t : string) :
  field_opt_str (answered d ad t) "resolved_at" = Some (Some t).
Proof. unfold field_opt_str. by rewrite answered_resolved_at. Qed.

Lemma field_opt_str_answered_answer (d : pydict) (ad : HelpRequestAnswer) (t : string) :
  field_opt_str (answered d ad t) "answer" = Some (Some (answer ad)).
Proof. unfold field_opt_str. by rewrite answered_answer. Qed.

Lemma field_opt_str_answered_answered_by (d : pydict) (ad : HelpRequestAnswer) (t : string) :
  field_opt_str (answered d ad t) "answered_by" = Some (Some (supervisor_name ad)).
Proof. unfold field_opt_str. by rewrite answered_answered_by. Qed.

(** A valid record stays valid when it is answered, and keeps its id. *)
Lemma valid_answered (d : pydict) (ad : HelpRequestAnswer) (t request_id : string) :
  valid_record d -> d !! "id" = Some (JStr request_id) ->
  exists r, HelpRequestResponse_of_dict (answered d ad t) = Some r /\
            hr_id r = request_id.
Proof.
  intros [r0 Hr0] Hid. unfold HelpRequestResponse_of_dict in *.
  repeat match type of Hr0 with
         | (?x ≫= _) = Some _ => destruct x eqn:?; simpl in Hr0; [|done]
         end.
  rewrite (field_str_answered _ _ _ "id") by done.
  rewrite Heqo; cbn [mbind option_bind].
  rewrite (field_str_answered _ _ _ "question") by done.
  rewrite Heqo0; cbn [mbind option_bind].
  rewrite (field_opt_str_answered _ _ _ "caller_info") by done.
  rewrite Heqo1; cbn [mbind option_bind].
  rewrite field_str_answered_status; cbn [mbind option_bind].
  rewrite (field_str_answered _ _ _ "created_at") by done.
  rewrite Heqo3; cbn [mbind option_bind].
  rewrite field_opt_str_answered_resolved_at; cbn [mbind option_bind].
  rewrite (field_str_answered _ _ _ "timeout_at") by done.
  rewrite Heqo5; cbn [mbind option_bind].
  rewrite field_opt_str_answered_answer; cbn [mbind option_bind].
  rewrite field_opt_str_answered_answered_by; cbn [mbind option_bind].
  rewrite (field_str_answered _ _ _ "session_id") by done.
  rewrite Heqo8; cbn [mbind option_bind].
  eexists. split; [reflexivity|]. cbn [hr_id].
  apply field_str_Some in Hid. congruence.
Qed.

Lemma valid_timed_out (d : pydict) : valid_record d -> valid_record (timed_out d).
Proof.
  intros [r0 Hr0]. unfold valid_record, HelpRequestResponse_of_dict in *.
  repeat match type of Hr0 with
         | (?x ≫= _) = Some _ => destruct x eqn:?; simpl in Hr0; [|done]
         end.
  unfold field_str, field_opt_str, timed_out in *.
  rewrite !lookup_insert. simpl.
  repeat match goal with Hx : _ = Some _ |- _ => rewrite Hx end. simpl. done.
Qed.

Lemma answered_timed_out (d : pydict) (ad : HelpRequestAnswer) (t : string) :
  answered (timed_out d) ad t = answered d ad t.
Proof. unfold answered, timed_out. by rewrite insert_insert_eq. Qed.

Lemma valid_not_empty (d : pydict) : valid_record d -> d ≠ ∅.
Proof. intros [r Hr] ->. done. Qed.

(** The PUT request on a stored, valid record when the store answers: the
    record is overwritten and one [request_resolved] event is broadcast. *)
Lemma resolve_run (w : world) (request_id a n : string) (d : pydict) :
  faults w = [] ->
  help_requests w !! request_id = Some (Dict d) ->
  valid_record d ->
  d !! "id" = Some (JStr request_id) ->
  valid_answer a n ->
  exists w' m t,
    Race.resolve request_id a n w = (Ok tt, w') /\
    faults w' = [] /\
    help_requests w' =
      <[request_id := Dict (answered d {| answer := a; supervisor_name := n |} t)]>
        (help_requests w) /\
    broadcasts w' = broadcasts w ++ [m] /\
    msg_type m = "request_resolved" /\
    msg_data m !! "request_id" = Some (JStr request_id).
Proof.
  intros Hf Hk Hv Hid Han.
  set (ad := {| answer := a; supervisor_name := n |}).
  destruct (answer_request_run w request_id ad d Hf Hk (valid_not_empty d Hv))
    as (o & w1 & Hrun & Hf1 & Hh1 & Hb1 & Hok & _).
  destruct (valid_answered d ad (isoformat (clock w (ticks w))) request_id Hv Hid)
    as (r & Hr & Hrid).
  rewrite (Hok r Hr) in Hrun.
  unfold Race.resolve, HelpRequestRoutes.answer_help_request.
  unfold try_except at 1 2, bind at 1 2, HelpRequestRoutes.new_HelpRequestAnswer.
  rewrite bool_decide_eq_true_2 by done.
  cbn [ret]. fold ad. unfold bind at 1. rewrite Hrun.
  unfold bind at 1, try_except at 1.
  unfold NotificationService.notify_request_resolved, bind at 1, utcnow.
  rewrite broadcast_run.
  unfold bind, try_except, NotificationService.notify_customer_callback, bind, utcnow.
  cbn [ret]. eexists _, _, _. split; [reflexivity|].
  cbn [faults help_requests broadcasts set_ticks set_active_connections set_delivered
       set_attempted set_broadcasts msg_type msg_data].
  split; [done|]. split; [done|]. split; [by rewrite Hb1|].
  split; [done|]. cbn [msg_data].
  rewrite lookup_insert_eq. unfold dict_get, model_dump.
  rewrite lookup_insert_eq. simpl. by rewrite Hrid.
Qed.

Lemma bind_run {A B} (c : M A) (k : A -> M B) (w w1 : world) (a : A) :
  c w = (Ok a, w1) -> bind c k w = k a w1.
Proof. intros Hc. unfold bind. by rewrite Hc. Qed.

Lemma try_run {A} (c : M A) (h : exn -> M A) (w w1 : world) (a : A) :
  c w = (Ok a, w1) -> try_except c h w = (Ok a, w1).
Proof. intros Hc. unfold try_except. by rewrite Hc. Qed.

Lemma timeout_all_app (l1 l2 : list (string * pydict)) (w : world) :
  timeout_all (l1 ++ l2) w = (timeout_all l1 ;; timeout_all l2) w.
Proof.
  revert w. induction l1 as [|e l1 IH]; intros w; [done|].
  cbn [app timeout_all]. unfold bind.
  destruct (timeout_one e w) as [[[]|x] w1]; [|done].
  rewrite IH. done.
Qed.

(** Interrupted by nothing, the sweep is [_process_timeouts]. *)
Lemma sweep_interrupted_idle (n : nat) (w : world) :
  Race.sweep_interrupted n (ret tt) w = _process_timeouts w.
Proof.
  unfold Race.sweep_interrupted, _process_timeouts.
  unfold bind, try_except, utcnow, get_help_requests, bind, ret.
  destruct (store_call _) as [[[]|x] w1].
  - case_bool_decide as He.
    + rewrite take_nil, drop_nil. done.
    + pose proof (timeout_all_app
                    (take n (scan (clock w (ticks w)) (help_requests w1)))
                    (drop n (scan (clock w (ticks w)) (help_requests w1))) w1) as Happ.
      rewrite take_drop in Happ. rewrite Happ. unfold bind.
      destruct (timeout_all (take n _) w1) as [[[]|x] w2]; [|done].
      by destruct (timeout_all (drop n _) w2) as [[[]|x] w3].
  - rewrite take_nil, drop_nil. done.
Qed.

Lemma count_events_app (ty request_id : string) (l1 l2 : list message) :
  count_events ty request_id (l1 ++ l2) =
    (count_events ty request_id l1 + count_events ty request_id l2)%nat.
Proof. unfold count_events. by rewrite List.filter_app, length_app. Qed.

Lemma count_events_one (ty request_id : string) (m : message) :
  count_events ty request_id [m] = if is_event ty request_id m then 1%nat else 0%nat.
Proof. unfold count_events. cbn [List.filter]. by destruct (is_event _ _ _). Qed.

Lemma is_event_resolved (request_id : string) (m : message) :
  msg_type m = "request_resolved" ->
  msg_data m !! "request_id" = Some (JStr request_id) ->
  is_event "request_resolved" request_id m = true /\
  is_event "request_timeout" request_id m = false.
Proof.
  intros Hty Hid. unfold is_event. split.
  - by apply bool_decide_eq_true_2.
  - apply bool_decide_eq_false_2. rewrite Hty. by intros [[=] _].
Qed.

Lemma is_event_timeout (k request_id : string) (d : pydict) (m : message) :
  is_timeout_event d m -> d !! "id" = Some (JStr k) ->
  is_event "request_timeout" request_id m = bool_decide (k = request_id) /\
  is_event "request_resolved" request_id m = false.
Proof.
  intros (Hty & Hid & _) Hd. unfold dict_get in Hid. rewrite Hd in Hid.
  unfold is_event. split.
  - apply bool_decide_ext. rewrite Hty, Hid. split.
    + by intros [_ [= ->]].
    + by intros ->.
  - apply bool_decide_eq_false_2. rewrite Hty. by intros [[=] _].
Qed.

(** Among the events of a sweep, those about [request_id]. *)
Lemma count_timeout_msgs (l : list (string * pydict)) (msgs : list message)
    (request_id : string) :
  Forall2 (fun e m => is_timeout_event e.2 m) l msgs ->
  (forall k d, (k, d) ∈ l -> d !! "id" = Some (JStr k)) ->
  count_events "request_resolved" request_id msgs = 0%nat /\
  count_events "request_timeout" request_id msgs =
    length (List.filter (fun e => bool_decide (e.1 = request_id)) l).
Proof.
  induction 1 as [|[k d] m l msgs Hm _ IH]; intros Hkeys; [done|].
  destruct IH as [IH1 IH2].
  { intros k' d' Hin. apply Hkeys. by right. }
  destruct (is_event_timeout k request_id d m Hm) as [Ht Hr].
  { apply Hkeys. by left. }
  unfold count_events in *. cbn [List.filter]. rewrite Ht, Hr. cbn [fst].
  split; [done|]. destruct (bool_decide (k = request_id)); simpl; by rewrite IH2.
Qed.

Lemma count_key (l : list (string * pydict)) (request_id : string) :
  NoDup l.*1 ->
  length (List.filter (fun e => bool_decide (e.1 = request_id)) l) =
    if bool_decide (request_id ∈ l.*1) then 1%nat else 0%nat.
Proof.
  induction l as [|[k d] l IH]; intros Hnd; [done|].
  cbn [fmap list_fmap fst] in *. apply NoDup_cons in Hnd as [Hk Hnd].
  cbn [List.filter fst]. destruct (decide (k = request_id)) as [->|Hne].
  - rewrite (bool_decide_eq_true_2 (request_id = request_id)) by done.
    cbn [length]. rewrite (IH Hnd).
    rewrite (bool_decide_eq_false_2 (request_id ∈ l.*1)) by done.
    by rewrite bool_decide_eq_true_2 by left.
  - rewrite (bool_decide_eq_false_2 (k = request_id)) by done.
    rewrite (IH Hnd). apply (f_equal (fun b : bool => if b then 1%nat else 0%nat)).
    apply bool_decide_ext. rewrite elem_of_cons. split; [by right|].
    intros [Heq|Hin]; [by subst|done].
Qed.

Lemma scan_read (now : Z) (w : world) :
  faults w = [] -> help_requests w ≠ ∅ ->
  try_except
    (data <- get_help_requests ;;
     ret (if bool_decide (data = ∅) then [] else scan now data))
    (fun _ => ret []) w = (Ok (scan now (help_requests w)), w).
Proof.
  intros Hf He. unfold try_except, bind, get_help_requests, bind.
  rewrite store_call_up by done. by rewrite bool_decide_eq_false_2.
Qed.

Lemma scan_well_keyed (now : Z) (data : gmap string node) :
  well_keyed data ->
  forall k d, (k, d) ∈ scan now data -> d !! "id" = Some (JStr k).
Proof. intros Hwk k d Hin. apply elem_of_scan in Hin as [Hk _]. by apply Hwk. Qed.

Lemma due_pending (now : Z) (k : string) (d : pydict) :
  due now k d -> d !! "status" = Some (JStr "pending").
Proof. by intros (_ & Hs & _). Qed.

(** C2 (what the code does). A resolve and a sweep on one overdue pending
    record that validates, when the store answers, every stored record
    holds its own key as [id] and the answer is within the bounds of
    [HelpRequestAnswer] (5 to 2000 characters, a name of at most 100): the
    record ends in a terminal status, that of the last write, and one
    [request_resolved] event is always broadcast.  When the resolve
    completes before the sweep reads the store, the record stays resolved
    and no [request_timeout] event is broadcast.  Otherwise a
    [request_timeout] event is broadcast as well.  The sweep takes the due
    records in the order in which the store listed them; when the resolve
    runs after the first [m] of them and the record is not among these,
    the sweep writes back what it had read: the record ends timed out,
    without the answer. *)
Theorem race_outcomes (w : world) (request_id a n : string) (d : pydict)
    (s : Race.schedule) :
  faults w = [] ->
  well_keyed (help_requests w) ->
  help_requests w !! request_id = Some (Dict d) ->
  valid_record d ->
  due (clock w (ticks w)) request_id d ->
  valid_answer a n ->
  exists w' d',
    Race.run s (Race.resolve request_id a n) w = (Ok tt, w') /\
    help_requests w' !! request_id = Some (Dict d') /\
    (d' !! "status" = Some (JStr "resolved") \/ d' !! "status" = Some (JStr "timeout")) /\
    count_events "request_resolved" request_id (broadcasts w') =
      S (count_events "request_resolved" request_id (broadcasts w)) /\
    match s with
    | Race.ResolveFirst =>
        d' !! "status" = Some (JStr "resolved") /\
        count_events "request_timeout" request_id (broadcasts w') =
          count_events "request_timeout" request_id (broadcasts w)
    | Race.ResolveAfter m =>
        count_events "request_timeout" request_id (broadcasts w') =
          S (count_events "request_timeout" request_id (broadcasts w)) /\
        if bool_decide
             (request_id ∈ (take m (scan (clock w (ticks w)) (help_requests w))).*1)
        then d' !! "status" = Some (JStr "resolved")
        else d' = timed_out d
    end.
Proof.
  intros Hf Hwk Hk Hv Hdue Han.
  assert (Hid : d !! "id" = Some (JStr request_id)) by by apply Hwk.
  set (ad := {| answer := a; supervisor_name := n |}).
  destruct s as [|m]; cbn [Race.run].
  - (* the resolve completes first *)
    destruct (resolve_run w request_id a n d Hf Hk Hv Hid Han)
      as (w1 & mr & t & Hrun1 & Hf1 & Hh1 & Hb1 & Hty & Hrid).
    destruct (process_timeouts_run w1 Hf1)
      as (w2 & msgs & Hrun2 & _ & Hh2 & _ & Hb2 & Hms).
    set (l := scan (clock w1 (ticks w1)) (help_requests w1)) in *.
    assert (Hnot : request_id ∉ l.*1).
    { intros Hin. apply list_elem_of_fmap in Hin as ([k dx] & -> & Hin).
      apply elem_of_scan in Hin as [Hkx Hduex]. cbn [fst] in Hkx.
      rewrite Hh1, lookup_insert_eq in Hkx. injection Hkx as <-.
      apply due_pending in Hduex. by rewrite answered_status in Hduex. }
    assert (Hkeys : forall k dx, (k, dx) ∈ l -> dx !! "id" = Some (JStr k)).
    { intros k dx Hin. apply elem_of_scan in Hin as [Hkx _].
      rewrite Hh1 in Hkx. destruct (decide (k = request_id)) as [->|Hne].
      - rewrite lookup_insert_eq in Hkx. injection Hkx as <-.
        by rewrite answered_lookup_other.
      - rewrite lookup_insert_ne in Hkx by done. by apply Hwk. }
    destruct (count_timeout_msgs l msgs request_id Hms Hkeys) as [Hc1 Hc2].
    rewrite (count_key l request_id (NoDup_scan _ _)) in Hc2.
    rewrite bool_decide_eq_false_2 in Hc2 by done.
    eexists w2, _. split; [by rewrite (bind_run _ _ _ _ _ Hrun1)|].
    split.
    { rewrite Hh2, write_back_notin by done. rewrite Hh1. apply lookup_insert_eq. }
    destruct (is_event_resolved request_id mr Hty Hrid) as [He1 He2].
    rewrite Hb2, Hb1, !count_events_app, Hc1, Hc2, !count_events_one, He1, He2.
    rewrite answered_status.
    split; [by left|]. split; [lia|]. split; [done|lia].
  - (* the resolve runs inside or after the sweep *)
    set (now := clock w (ticks w)). set (l := scan now (help_requests w)).
    assert (Hne : help_requests w ≠ ∅).
    { intros He. by rewrite He, lookup_empty in Hk. }
    assert (Hin : (request_id, d) ∈ l) by by apply elem_of_scan.
    assert (Hnd : NoDup ((take m l).*1 ++ (drop m l).*1)).
    { rewrite <- fmap_app, take_drop. apply NoDup_scan. }
    apply NoDup_app in Hnd as (Hnd1 & Hdis & Hnd2).
    assert (Hkeys : forall k dx, (k, dx) ∈ l -> dx !! "id" = Some (JStr k))
      by by apply scan_well_keyed.
    set (w0 := set_ticks (S (ticks w)) w).
    destruct (timeout_all_run (take m l) w0 Hf)
      as (w1 & msgs1 & Hrun1 & Hf1 & Hh1 & _ & Hb1 & Hms1).
    destruct (count_timeout_msgs (take m l) msgs1 request_id Hms1) as [Hc1 Hc1'].
    { intros k dx Hx. apply Hkeys. rewrite <- (take_drop m l). apply elem_of_app. by left. }
    rewrite (count_key _ _ Hnd1) in Hc1'.
    (* the record that the resolve finds *)
    assert (Hfound : exists d0, help_requests w1 !! request_id = Some (Dict d0) /\
               valid_record d0 /\ d0 !! "id" = Some (JStr request_id) /\
               forall t, answered d0 ad t = answered d ad t).
    { rewrite Hh1. destruct (decide (request_id ∈ (take m l).*1)) as [Ht|Ht].
      - exists (timed_out d). split.
        + apply write_back_in; [done|].
          apply list_elem_of_fmap in Ht as ([k dx] & -> & Hx).
          assert (Hx' : (k, dx) ∈ l).
          { rewrite <- (take_drop m l). apply elem_of_app. by left. }
          apply elem_of_scan in Hx' as [Hkx _]. cbn [fst] in Hk.
          rewrite Hk in Hkx. by injection Hkx as <-.
        + split; [by apply valid_timed_out|]. split.
          * unfold timed_out. by rewrite lookup_insert_ne.
          * intros t. apply answered_timed_out.
      - exists d. split; [by rewrite write_back_notin|]. done. }
    destruct Hfound as (d0 & Hk1 & Hv0 & Hid0 & Hans).
    destruct (resolve_run w1 request_id a n d0 Hf1 Hk1 Hv0 Hid0 Han)
      as (w2 & mr & t & Hrun2 & Hf2 & Hh2 & Hb2 & Hty & Hrid).
    fold ad in Hh2. rewrite Hans in Hh2.
    destruct (timeout_all_run (drop m l) w2 Hf2)
      as (w3 & msgs2 & Hrun3 & _ & Hh3 & _ & Hb3 & Hms2).
    destruct (count_timeout_msgs (drop m l) msgs2 request_id Hms2) as [Hc2 Hc2'].
    { intros k dx Hx. apply Hkeys. rewrite <- (take_drop m l). apply elem_of_app. by right. }
    rewrite (count_key _ _ Hnd2) in Hc2'.
    assert (Hrun : Race.sweep_interrupted m (Race.resolve request_id a n) w = (Ok tt, w3)).
    { unfold Race.sweep_interrupted.
      rewrite (bind_run utcnow _ w w0 now) by done.
      rewrite (bind_run _ _ _ _ _ (scan_read now w0 Hf Hne)).
      change (help_requests w0) with (help_requests w). fold l.
      erewrite (bind_run _ _ w0 w1 true).
      2:{ apply try_run. by rewrite (bind_run _ _ _ _ _ Hrun1). }
      rewrite (bind_run _ _ _ _ _ Hrun2).
      by apply try_run. }
    assert (Hsplit : request_id ∈ (take m l).*1 \/ request_id ∈ (drop m l).*1).
    { apply elem_of_app. rewrite <- fmap_app, take_drop.
      apply list_elem_of_fmap. by exists (request_id, d). }
    assert (Hcount : (count_events "request_timeout" request_id msgs1 +
                      count_events "request_timeout" request_id msgs2 = 1)%nat).
    { rewrite Hc1', Hc2'. destruct Hsplit as [Ht|Hd].
      - rewrite bool_decide_eq_true_2 by done.
        rewrite bool_decide_eq_false_2; [done|]. by apply Hdis.
      - rewrite (bool_decide_eq_true_2 (request_id ∈ (drop m l).*1)) by done.
        rewrite bool_decide_eq_false_2; [done|]. intros Ht. by apply (Hdis request_id). }
    assert (Hfinal : help_requests w3 !! request_id =
              Some (Dict (if bool_decide (request_id ∈ (take m l).*1)
                          then answered d ad t else timed_out d))).
    { rewrite Hh3. destruct (decide (request_id ∈ (take m l).*1)) as [Ht|Ht].
      - rewrite (bool_decide_eq_true_2 _ Ht).
        rewrite write_back_notin by by apply Hdis.
        rewrite Hh2. apply lookup_insert_eq.
      - rewrite (bool_decide_eq_false_2 _ Ht).
        destruct Hsplit as [?|Hd]; [done|]. apply write_back_in; [done|].
        apply list_elem_of_fmap in Hd as ([k dx] & -> & Hx).
        assert (Hx' : (k, dx) ∈ l).
        { rewrite <- (take_drop m l). apply elem_of_app. by right. }
        apply elem_of_scan in Hx' as [Hkx _]. cbn [fst] in Hk.
        rewrite Hk in Hkx. by injection Hkx as <-. }
    eexists w3, _. split; [exact Hrun|]. split; [exact Hfinal|].
    rewrite Hb3, Hb2, Hb1. change (broadcasts w0) with (broadcasts w).
    destruct (is_event_resolved request_id mr Hty Hrid) as [He1 He2].
    rewrite !count_events_app, Hc1, Hc2, !count_events_one, He1, He2.
    destruct (decide (request_id ∈ (take m l).*1)) as [Ht|Ht].
    + rewrite !(bool_decide_eq_true_2 _ Ht). rewrite answered_status.
      split; [by left|]. split; [lia|]. split; [lia|done].
    + rewrite !(bool_decide_eq_false_2 _ Ht).
      split; [right; apply lookup_insert_eq|]. split; [lia|]. split; [lia|done].
Qed.

End race_facts.

(** * The properties on the example worlds *)

Section examples.
Import Examples.
#[local] Existing Instance rt.

(** The stroke of the new year reads back from its ISO form, and the two
    formats agree on an instant with microseconds. *)
Example isoformat_new_year :
  ExampleRuntime.isoformat new_year = "2024-01-01T00:00:00" /\
  ExampleRuntime.fromisoformat "2024-01-01T00:00:00" = Some new_year /\
  ExampleRuntime.isoformat 1709210096123456 = "2024-02-29T12:34:56.123456" /\
  ExampleRuntime.fromisoformat "2024-02-29T12:34:56.123456" = Some 1709210096123456 /\
  ExampleRuntime.fromisoformat "2023-02-29T12:34:56" = None.
Proof. repeat split; vm_compute; reflexivity. Qed.

(** Lengths are counted in characters, not in bytes: an answer of three
    accented letters (six bytes) is too short, and one of 1500 accented
    letters (3000 bytes) is accepted. *)
Example answer_bounds_count_characters :
  let w := world_of mixed_store [] [] (fun _ => false) in
  len "ééé" = 3%nat /\
  String.length "ééé" = 6%nat /\
  HelpRequestRoutes.new_HelpRequestAnswer "ééé" "Sarah" w = (Raise ValidationError, w) /\
  HelpRequestRoutes.answer_help_request "req-2" "ééé" "Sarah" w
    = (Raise (HTTPException 500), w) /\
  len (accented 1500) = 1500%nat /\
  String.length (accented 1500) = 3000%nat /\
  (HelpRequestRoutes.new_HelpRequestAnswer (accented 1500) "Sarah" w).1
    = Ok {| answer := accented 1500; supervisor_name := "Sarah" |}.
Proof. repeat split; vm_compute; reflexivity. Qed.

(** Three connections, the second one dead. *)
Lemma broadcast_isolates_one_failure_witness :
  let w := world_of initial_data [] [1; 2; 3]%nat (fun c => bool_decide (c = 2%nat)) in
  let msg := {| msg_type := "knowledge_base_updated"; msg_data := ∅;
                msg_timestamp := "2024-01-01T00:00:00" |} in
  exists w',
    ConnectionManager.broadcast msg w = (Ok tt, w') /\
    attempted w' = attempted w ++ map (fun x => (x, msg)) ([1] ++ 2 :: [3])%nat /\
    delivered w' = delivered w ++ map (fun x => (x, msg)) ([1] ++ [3])%nat /\
    active_connections w' = ([1] ++ [3])%nat /\
    S (length (active_connections w')) = length (active_connections w) /\
    forall msg', exists w'',
      ConnectionManager.broadcast msg' w' = (Ok tt, w'') /\
      delivered w'' = delivered w' ++ map (fun x => (x, msg')) ([1] ++ [3])%nat /\
      active_connections w'' = ([1] ++ [3])%nat.
Proof.
  intros w msg.
  apply (broadcast_isolates_one_failure msg w [1%nat] [3%nat] 2%nat).
  - reflexivity.
  - reflexivity.
  - intros x Hx. apply elem_of_cons in Hx as [->|Hx]; [reflexivity|].
    apply elem_of_cons in Hx as [->|Hx]; [reflexivity|].
    by apply elem_of_nil in Hx.
Defined.

(** Two pending, one resolved, one timed out. *)
Lemma get_stats_counts_witness :
  let w := world_of mixed_store [] [] (fun _ => false) in
  faults w = [] /\
  FirebaseService.get_stats w =
    (Ok {| pending := 2; resolved := 1; timeout := 1; total := 4 |}, w).
Proof.
  intros w. split; [reflexivity|].
  exact (get_stats_counts w eq_refl).
Defined.

(** One overdue record in the store, swept on the stroke of the new year. *)
Lemma overdue_is_due :
  due (H := rt) new_year "req-1" transplants.
Proof.
  split; [done|]. split; [reflexivity|].
  exists "2023-12-31T23:00:00", 1704063600000000.
  split; [reflexivity|]. split; [vm_compute; reflexivity|vm_compute; discriminate].
Defined.

Lemma sweep_times_out_the_due_witness :
  let w := world_of overdue_store [] [] (fun _ => false) in
  faults w = [] /\
  exists w' l msgs,
    TimeoutService._process_timeouts (H := rt) w = (Ok tt, w') /\
    NoDup l.*1 /\
    (forall k d, (k, d) ∈ l <->
       help_requests w !! k = Some (Dict d) /\ due (H := rt) (clock w (ticks w)) k d) /\
    (forall k d, (k, d) ∈ l -> help_requests w' !! k = Some (Dict (timed_out d))) /\
    (forall k, k ∉ l.*1 -> help_requests w' !! k = help_requests w !! k) /\
    broadcasts w' = broadcasts w ++ msgs /\
    Forall2 (fun e m => is_timeout_event e.2 m) l msgs.
Proof.
  intros w. split; [reflexivity|].
  apply (sweep_times_out_the_due (H := rt) w). reflexivity.
Defined.

(** The sweep on that store, run: one record written back, one event. *)
Example sweep_overdue_store :
  let w := world_of overdue_store [] [] (fun _ => false) in
  let w' := (TimeoutService._process_timeouts (H := rt) w).2 in
  help_requests w' = <["req-1" := Dict (timed_out transplants)]> overdue_store /\
  map msg_type (broadcasts w') = ["request_timeout"] /\
  map (fun m => msg_data m !! "request_id") (broadcasts w') = [Some (JStr "req-1")].
Proof. repeat split; vm_compute; reflexivity. Qed.

Lemma timeout_changes_only_status_witness :
  let w := world_of overdue_store [] [] (fun _ => false) in
  faults w = [] /\
  help_requests w !! "req-1" = Some (Dict transplants) /\
  due (H := rt) (clock w (ticks w)) "req-1" transplants /\
  transplants ≠ ∅ /\
  (exists w' d',
     TimeoutService._process_timeouts (H := rt) w = (Ok tt, w') /\
     help_requests w' !! "req-1" = Some (Dict d') /\
     only_status_changed transplants d' /\
     (unanswered transplants -> unanswered d')) /\
  (exists d',
     help_requests (FirebaseService.timeout_request "req-1" w).2 !! "req-1"
       = Some (Dict d') /\
     only_status_changed transplants d' /\
     (unanswered transplants -> unanswered d')).
Proof.
  intros w.
  assert (Hne : transplants ≠ ∅).
  { intros He. apply (f_equal (fun m : pydict => m !! "id")) in He.
    vm_compute in He. discriminate He. }
  split; [reflexivity|]. split; [reflexivity|].
  split; [exact overdue_is_due|]. split; [exact Hne|].
  destruct (timeout_changes_only_status (H := rt) w "req-1" transplants
              eq_refl eq_refl) as [Hsweep Hreq].
  split; [exact (Hsweep overdue_is_due)|exact (Hreq Hne)].
Defined.

Lemma create_returns_pending_witness :
  let w := world_of initial_data [] [] (fun _ => false) in
  "Do you do hair transplants?" ≠ "" /\
  faults w = [] /\
  exists r w',
    FirebaseService.create_help_request (H := rt)
      "Do you do hair transplants?" "555-0101" "room-42" w = (Ok r, w') /\
    hr_question r = "Do you do hair transplants?" /\
    hr_status r = "pending" /\
    hr_resolved_at r = None /\ hr_answer r = None /\ hr_answered_by r = None /\
    exists t0 t1,
      hr_created_at r = isoformat (PyRuntime := rt) t0 /\
      hr_timeout_at r = isoformat (PyRuntime := rt) t1 /\
      t1 - (t0 + timedelta_hours 2) = clock w (S (ticks w)) - clock w (ticks w) /\
      forall tolerance,
        Z.abs (clock w (S (ticks w)) - clock w (ticks w)) <= tolerance ->
        Z.abs (t1 - (t0 + timedelta_hours 2)) <= tolerance.
Proof.
  intros w. split; [done|]. split; [reflexivity|].
  apply (create_returns_pending (H := rt) w); [done|reflexivity].
Defined.

(** The scenario of the specification, run: the two readings of the clock
    are one second apart, and so are [timeout_at] and [created_at] plus
    two hours. *)
Example create_transplants :
  let w := world_of initial_data [] [] (fun _ => false) in
  (FirebaseService.create_help_request (H := rt)
     "Do you do hair transplants?" "555-0101" "room-42" w).1 =
  Ok {| hr_id := "00000000-0000-4000-8000-000000000000";
        hr_question := "Do you do hair transplants?";
        hr_caller_info := Some "555-0101";
        hr_status := "pending";
        hr_created_at := "2024-01-01T00:00:00";
        hr_resolved_at := None;
        hr_timeout_at := "2024-01-01T02:00:01";
        hr_answer := None;
        hr_answered_by := None;
        hr_session_id := "room-42" |}.
Proof. vm_compute. reflexivity. Qed.

Lemma create_persists_empty_question_witness :
  let w := world_of initial_data [] [] (fun _ => false) in
  faults w = [] /\
  exists r w' d,
    HelpRequestRoutes.create_help_request (H := rt)
      {| question := ""; caller_info := "555-0101"; session_id := "room-42" |} w
      = (Ok r, w') /\
    hr_question r = "" /\
    help_requests w' !! hr_id r = Some (Dict d) /\
    d !! "question" = Some (JStr "") /\
    d !! "status" = Some (JStr "pending").
Proof.
  intros w. split; [reflexivity|].
  apply (create_persists_empty_question (H := rt) w). reflexivity.
Defined.

(** C1, counterexample. The record [req-4] has timed out; a resolve on it
    does not fail: it returns the record as resolved and the stored record
    now reads resolved, with the answer. *)
Lemma resolve_overwrites_timed_out_record :
  let w := world_of mixed_store [] [] (fun _ => false) in
  let res := FirebaseService.answer_request (H := rt) "req-4" sarah w in
  (exists d, help_requests w !! "req-4" = Some (Dict d) /\
             d !! "status" = Some (JStr "timeout")) /\
  (exists r, res.1 = Ok r /\ hr_status r = "resolved") /\
  (exists d', help_requests res.2 !! "req-4" = Some (Dict d') /\
              d' !! "status" = Some (JStr "resolved") /\
              d' !! "answer" = Some (JStr "24 hours notice required")) /\
  help_requests res.2 !! "req-4" ≠ help_requests w !! "req-4".
Proof.
  intros w res. split; [|split; [|split]].
  - eexists. split; reflexivity.
  - exists {| hr_id := "req-4";
              hr_question := "Do you sell gift cards?";
              hr_caller_info := Some "555-0104";
              hr_status := "resolved";
              hr_created_at := "2023-12-31T19:00:00";
              hr_resolved_at := Some "2024-01-01T00:00:00";
              hr_timeout_at := "2023-12-31T21:00:00";
              hr_answer := Some "24 hours notice required";
              hr_answered_by := Some "Sarah";
              hr_session_id := "room-45" |}.
    split; [vm_compute; reflexivity|reflexivity].
  - exists (FirebaseService.answered (timed_out gift_cards) sarah "2024-01-01T00:00:00").
    split; [vm_compute; reflexivity|]. split; reflexivity.
  - intros Heq.
    apply (f_equal (fun o : option node =>
                      match o with
                      | Some (Dict d) => d !! "status"
                      | _ => None
                      end)) in Heq.
    vm_compute in Heq. discriminate Heq.
Qed.

Lemma answer_request_ignores_status_witness :
  let w := world_of mixed_store [] [] (fun _ => false) in
  faults w = [] /\
  help_requests w !! "req-4" = Some (Dict (timed_out gift_cards)) /\
  timed_out gift_cards !! "status" = Some (JStr "timeout") /\
  exists d',
    help_requests (FirebaseService.answer_request (H := rt) "req-4" sarah w).2 !! "req-4"
      = Some (Dict d') /\
    d' !! "status" = Some (JStr "resolved") /\
    d' !! "answer" = Some (JStr (answer sarah)) /\
    d' !! "answered_by" = Some (JStr (supervisor_name sarah)) /\
    d' !! "resolved_at" = Some (JStr (isoformat (PyRuntime := rt) (clock w (ticks w)))) /\
    forall r, HelpRequestResponse_of_dict d' = Some r ->
              (FirebaseService.answer_request (H := rt) "req-4" sarah w).1 = Ok r.
Proof.
  intros w. split; [reflexivity|]. split; [reflexivity|]. split; [reflexivity|].
  apply (answer_request_ignores_status (H := rt) w "req-4" sarah
           (timed_out gift_cards) "timeout"); reflexivity.
Defined.

(** The scenario of the specification: the pending record [req-2] is
    resolved by Sarah. *)
Lemma resolve_adds_one_learned_entry_witness :
  let w := world_of mixed_store [] [] (fun _ => false) in
  let res := FirebaseService.answer_request (H := rt) "req-2" sarah w in
  let r := {| hr_id := "req-2";
              hr_question := "What is your cancellation policy?";
              hr_caller_info := Some "555-0102";
              hr_status := "resolved";
              hr_created_at := "2023-12-31T23:30:00";
              hr_resolved_at := Some "2024-01-01T00:00:00";
              hr_timeout_at := "2024-01-01T01:30:00";
              hr_answer := Some "24 hours notice required";
              hr_answered_by := Some "Sarah";
              hr_session_id := "room-43" |} in
  res = (Ok r, res.2) /\
  knowledge_base w !! uuids w (drawn w) = None /\
  exists d e,
    help_requests w !! "req-2" = Some (Dict d) /\
    d !! "question" = Some (JStr (hr_question r)) /\
    knowledge_base res.2 = <[uuids w (drawn w) := Dict e]> (knowledge_base w) /\
    size (knowledge_base res.2) = S (size (knowledge_base w)) /\
    (forall k, k ≠ uuids w (drawn w) ->
               knowledge_base res.2 !! k = knowledge_base w !! k) /\
    e !! "source" = Some (JStr "learned") /\
    e !! "use_count" = Some (JNum 0) /\
    e !! "question" = Some (JStr (hr_question r)) /\
    e !! "answer" = Some (JStr (answer sarah)).
Proof.
  intros w res r.
  assert (Hok : res.1 = Ok r) by (vm_compute; reflexivity).
  assert (Hres : res = (Ok r, res.2)).
  { rewrite <- Hok. apply surjective_pairing. }
  split; [exact Hres|]. split; [reflexivity|].
  apply (resolve_adds_one_learned_entry (H := rt) w res.2 "req-2" sarah r).
  - exact Hres.
  - reflexivity.
Defined.



(** The other failures of that store, run: a resolve whose write of the
    record fails leaves the record as it was; a create and the queries
    with a store that fails at once. *)
Example store_failures_run :
  let w1 := world_of mixed_store [false; true] [] (fun _ => false) in
  let w0 := world_of mixed_store [true] [] (fun _ => false) in
  (store_failed w1 (FirebaseService.answer_request "req-2" sarah w1).2 /\
   (FirebaseService.answer_request "req-2" sarah w1).1 = Raise StoreError /\
   help_requests (FirebaseService.answer_request "req-2" sarah w1).2 !! "req-2"
     = Some (Dict cancellation)) /\
  (store_failed w0
     (FirebaseService.create_help_request
        "Do you do hair transplants?" "555-0101" "room-42" w0).2 /\
   (FirebaseService.create_help_request
      "Do you do hair transplants?" "555-0101" "room-42" w0).1 = Raise StoreError) /\
  (store_failed w0 (FirebaseService.get_stats w0).2 /\
   (FirebaseService.get_stats w0).1 = Ok FirebaseService.zero_stats) /\
  (store_failed w0 (FirebaseService.get_all_help_requests w0).2 /\
   (FirebaseService.get_all_help_requests w0).1 = Ok []) /\
  (store_failed w0 (FirebaseService.get_request_by_id "req-2" w0).2 /\
   (FirebaseService.get_request_by_id "req-2" w0).1 = Ok None).
Proof.
  intros w1 w0.
  assert (Hin1 : true ∈ [false; true]) by (apply elem_of_cons; right; by left).
  assert (Hin0 : true ∈ [true]) by by left.
  split; [split; [|split]|split; [split|split; [split|split; split]]].
  all: try (vm_compute; reflexivity).
  - exists [false; true]. split; [vm_compute; reflexivity|exact Hin1].
  - exists [true]. split; [vm_compute; reflexivity|exact Hin0].
  - exists [true]. split; [vm_compute; reflexivity|exact Hin0].
  - exists [true]. split; [vm_compute; reflexivity|exact Hin0].
  - exists [true]. split; [vm_compute; reflexivity|exact Hin0].
Qed.

(** C2, counterexample. Both records are overdue and an operator is
    connected.  The sweep reads the store, writes [req-1] back and is
    suspended in its notification; the resolve of [req-4] runs to its end;
    the sweep resumes and writes back the [req-4] it had read.  Both events
    are broadcast about [req-4], and the record ends timed out, its answer
    lost, while the knowledge base has learnt the answer.  When the resolve
    runs after the sweep has ended, both events are broadcast as well and
    the record that had timed out ends resolved. *)
Lemma resolve_inside_sweep_emits_both_events :
  let w := world_of two_overdue_store [] [1%nat] (fun _ => false) in
  let w' := (Race.run (H := rt) (Race.ResolveAfter 1)
               (Race.resolve (H := rt) "req-4" "24 hours notice required" "Sarah") w).2 in
  let w'' := (Race.run (H := rt) (Race.ResolveAfter 2)
                (Race.resolve (H := rt) "req-4" "24 hours notice required" "Sarah") w).2 in
  help_requests w !! "req-4" = Some (Dict gift_cards) /\
  due (H := rt) new_year "req-4" gift_cards /\
  (TimeoutService.scan (H := rt) new_year (help_requests w)).*1 = ["req-1"; "req-4"] /\
  count_events "request_resolved" "req-4" (broadcasts w') = 1%nat /\
  count_events "request_timeout" "req-4" (broadcasts w') = 1%nat /\
  help_requests w' !! "req-4" = Some (Dict (timed_out gift_cards)) /\
  unanswered (timed_out gift_cards) /\
  size (knowledge_base w') = 1%nat /\
  count_events "request_resolved" "req-4" (broadcasts w'') = 1%nat /\
  count_events "request_timeout" "req-4" (broadcasts w'') = 1%nat /\
  help_requests w'' !! "req-4" =
    Some (Dict (FirebaseService.answered gift_cards sarah "2024-01-01T00:00:03")).
Proof.
  intros w w' w''. split; [reflexivity|]. split.
  { split; [done|]. split; [reflexivity|].
    exists "2023-12-31T21:00:00", 1704056400000000.
    split; [reflexivity|]. split; [vm_compute; reflexivity|vm_compute; discriminate]. }
  repeat split; vm_compute; reflexivity.
Qed.

Lemma two_overdue_well_keyed : well_keyed two_overdue_store.
Proof.
  intros k d Hk. unfold two_overdue_store, overdue_store, initial_data in Hk.
  rewrite !lookup_insert in Hk.
  repeat case_decide; simplify_eq; reflexivity.
Defined.

Lemma race_outcomes_witness :
  let w := world_of two_overdue_store [] [1%nat] (fun _ => false) in
  let a := "24 hours notice required" in
  faults w = [] /\
  well_keyed (help_requests w) /\
  help_requests w !! "req-4" = Some (Dict gift_cards) /\
  valid_record gift_cards /\
  due (H := rt) (clock w (ticks w)) "req-4" gift_cards /\
  valid_answer a "Sarah" /\
  exists w' d',
    Race.run (H := rt) (Race.ResolveAfter 1) (Race.resolve (H := rt) "req-4" a "Sarah") w
      = (Ok tt, w') /\
    help_requests w' !! "req-4" = Some (Dict d') /\
    (d' !! "status" = Some (JStr "resolved") \/ d' !! "status" = Some (JStr "timeout")) /\
    count_events "request_resolved" "req-4" (broadcasts w') =
      S (count_events "request_resolved" "req-4" (broadcasts w)) /\
    count_events "request_timeout" "req-4" (broadcasts w') =
      S (count_events "request_timeout" "req-4" (broadcasts w)) /\
    if bool_decide
         ("req-4" ∈ (take 1 (TimeoutService.scan (H := rt) (clock w (ticks w))
                               (help_requests w))).*1)
    then d' !! "status" = Some (JStr "resolved")
    else d' = timed_out gift_cards.
Proof.
  intros w a.
  assert (Hv : valid_record gift_cards) by (eexists; reflexivity).
  assert (Hdue : due (H := rt) (clock w (ticks w)) "req-4" gift_cards).
  { split; [done|]. split; [reflexivity|].
    exists "2023-12-31T21:00:00", 1704056400000000.
    split; [reflexivity|]. split; [vm_compute; reflexivity|vm_compute; discriminate]. }
  assert (Han : valid_answer a "Sarah") by (vm_compute; lia).
  split; [reflexivity|]. split; [exact two_overdue_well_keyed|].
  split; [reflexivity|]. split; [exact Hv|]. split; [exact Hdue|]. split; [exact Han|].
  exact (race_outcomes (H := rt) w "req-4" a "Sarah" gift_cards (Race.ResolveAfter 1)
           eq_refl two_overdue_well_keyed eq_refl Hv Hdue Han).
Defined.

End examples.

(** * Further properties of the services *)

(** ** The queries *)

Section query_facts.
Context `{PyRuntime}.
Import FirebaseService.

Lemma insert_newest_first_perm (x : HelpRequestResponse) (l : list HelpRequestResponse) :
  insert_newest_first x l ≡ₚ x :: l.
Proof.
  induction l as [|y l IH]; [done|].
  simpl. destruct (String.leb _ _); [done|].
  rewrite IH. apply perm_swap.
Qed.

Lemma sort_newest_first_perm (l : list HelpRequestResponse) :
  sort_newest_first l ≡ₚ l.
Proof.
  induction l as [|x l IH]; [done|].
  unfold sort_newest_first in *. simpl.
  by rewrite insert_newest_first_perm, IH.
Qed.

Lemma insert_newest_first_sorted (x : HelpRequestResponse) (l : list HelpRequestResponse) :
  Sorted newer_or_same l -> Sorted newer_or_same (insert_newest_first x l).
Proof.
  induction l as [|y l IH]; intros Hs.
  - repeat constructor.
  - simpl. destruct (String.leb (hr_created_at y) (hr_created_at x)) eqn:Hyx.
    + constructor; [done|]. by constructor.
    + apply Sorted_inv in Hs as [Hs Hhd]. constructor; [by apply IH|].
      assert (Hxy : newer_or_same y x).
      { unfold newer_or_same.
        destruct (String.leb_total (hr_created_at y) (hr_created_at x)); congruence. }
      destruct l as [|z l]; simpl.
      * by constructor.
      * destruct (String.leb (hr_created_at z) (hr_created_at x)).
        -- by constructor.
        -- constructor. by apply HdRel_inv in Hhd.
Qed.

Lemma sort_newest_first_sorted (l : list HelpRequestResponse) :
  Sorted newer_or_same (sort_newest_first l).
Proof.
  induction l as [|x l IH]; [constructor|].
  by apply insert_newest_first_sorted.
Qed.

Lemma length_omap_le {A B} (f : A -> option B) (l : list A) :
  (length (omap f l) <= length l)%nat.
Proof.
  induction l as [|x l IH]; [done|].
  cbn [omap list_omap]. destruct (f x); simpl; lia.
Qed.

Lemma parse_entry_spec (k : string) (n : node) (r : HelpRequestResponse) :
  parse_entry (k, n) = Some r <->
  k ≠ "initialized" /\ exists d, n = Dict d /\ HelpRequestResponse_of_dict d = Some r.
Proof.
  unfold parse_entry. destruct (String.eqb_spec k "initialized") as [->|Hk].
  - split; [done|]. by intros [? _].
  - destruct n as [v|d].
    + split; [done|]. by intros (_ & d & ? & _).
    + split.
      * intros Hr. split; [done|]. by exists d.
      * by intros (_ & d' & [= <-] & Hr).
Qed.

(** X1. When the store answers, the list of all escalations holds one
    response for each stored record that validates, the marker left out,
    and is ordered by [created_at], newest first. *)
Theorem get_all_help_requests_lists_the_valid_records (w : world) :
  faults w = [] ->
  exists l,
    get_all_help_requests w = (Ok l, w) /\
    Sorted newer_or_same l /\
    l ≡ₚ omap parse_entry (map_to_list (help_requests w)) /\
    (forall r, r ∈ l <->
       exists k d, k ≠ "initialized" /\
                   help_requests w !! k = Some (Dict d) /\
                   HelpRequestResponse_of_dict d = Some r) /\
    (length l <= size (help_requests w))%nat.
Proof.
  intros Hf.
  exists (sort_newest_first (omap parse_entry (items (help_requests w)))).
  split.
  { unfold get_all_help_requests, try_except, bind, get_help_requests, bind.
    rewrite store_call_up by done. case_bool_decide as He; [|done].
    by rewrite He, items_empty. }
  split; [apply sort_newest_first_sorted|].
  split; [by rewrite sort_newest_first_perm, items_listing|].
  split.
  - intros r. rewrite sort_newest_first_perm, list_elem_of_omap. split.
    + intros ([k n] & Hin & Hr). apply elem_of_items in Hin.
      apply parse_entry_spec in Hr as (Hk & d & -> & Hr). by exists k, d.
    + intros (k & d & Hk & Hin & Hr). exists (k, Dict d). split.
      * by apply elem_of_items.
      * apply parse_entry_spec. split; [done|]. by exists d.
  - rewrite sort_newest_first_perm, <- length_items. apply length_omap_le.
Qed.

Lemma of_dict_status (d : pydict) (r : HelpRequestResponse) :
  HelpRequestResponse_of_dict d = Some r -> d !! "status" = Some (JStr (hr_status r)).
Proof.
  unfold HelpRequestResponse_of_dict. intros Hr.
  repeat match type of Hr with
         | (?x ≫= _) = Some _ => destruct x eqn:?; simpl in Hr; [|done]
         end.
  injection Hr as <-. by apply field_str_Some.
Qed.

Lemma parse_pending_entry_spec (k : string) (n : node) (r : HelpRequestResponse) :
  parse_pending_entry (k, n) = Some r <->
  k ≠ "initialized" /\
  exists d, n = Dict d /\ HelpRequestResponse_of_dict d = Some r /\ hr_status r = "pending".
Proof.
  unfold parse_pending_entry. destruct (String.eqb_spec k "initialized") as [->|Hk].
  { split; [done|]. by intros [? _]. }
  destruct n as [v|d].
  { split; [done|]. by intros (_ & d & ? & _). }
  split.
  - case_bool_decide as Hs; [|done]. intros Hr. split; [done|]. exists d.
    split; [done|]. split; [done|].
    apply of_dict_status in Hr. unfold dict_get in Hs. rewrite Hr in Hs.
    simpl in Hs. by injection Hs.
  - intros (_ & d' & [= <-] & Hr & Hs).
    rewrite bool_decide_eq_true_2; [done|].
    apply of_dict_status in Hr. unfold dict_get. by rewrite Hr, Hs.
Qed.

Lemma length_pending_le (l : list (string * node)) :
  (length (omap parse_pending_entry l)
   <= length (List.filter (has_status PENDING) l.*2))%nat.
Proof.
  induction l as [|[k n] l IH]; [done|].
  cbn [omap list_omap fmap list_fmap List.filter snd].
  destruct (parse_pending_entry (k, n)) as [r|] eqn:Hr.
  - assert (Hs : has_status PENDING n = true).
    { unfold parse_pending_entry in Hr.
      destruct (String.eqb k "initialized"); [done|].
      destruct n as [v|d]; [done|]. simpl.
      destruct (decide (dict_get d "status" = JStr (RequestStatus_value PENDING)))
        as [Hs|Hs].
      - by apply bool_decide_eq_true_2.
      - by rewrite (bool_decide_eq_false_2 _ Hs) in Hr. }
    rewrite Hs. simpl. lia.
  - destruct (has_status PENDING n); simpl; lia.
Qed.

(** X2. When the store answers, the list of pending escalations holds
    one response for each stored record that validates and whose status
    is pending, the marker left out, and no other; it is ordered newest
    first and is never longer than the number of pending records. *)
Theorem get_pending_requests_lists_the_pending (w : world) :
  faults w = [] ->
  exists l,
    get_pending_requests w = (Ok l, w) /\
    Sorted newer_or_same l /\
    l ≡ₚ omap parse_pending_entry (map_to_list (help_requests w)) /\
    Forall (fun r => hr_status r = "pending") l /\
    (forall r, r ∈ l <->
       exists k d, k ≠ "initialized" /\
                   help_requests w !! k = Some (Dict d) /\
                   HelpRequestResponse_of_dict d = Some r /\
                   hr_status r = "pending") /\
    (length l <= size (with_status PENDING (help_requests w)))%nat.
Proof.
  intros Hf.
  exists (sort_newest_first (omap parse_pending_entry (items (help_requests w)))).
  split.
  { unfold get_pending_requests, try_except, bind, get_help_requests, bind.
    rewrite store_call_up by done. case_bool_decide as He; [|done].
    by rewrite He, items_empty. }
  split; [apply sort_newest_first_sorted|].
  split; [by rewrite sort_newest_first_perm, items_listing|].
  assert (Hmem : forall r,
    r ∈ sort_newest_first (omap parse_pending_entry (items (help_requests w))) <->
    exists k d, k ≠ "initialized" /\ help_requests w !! k = Some (Dict d) /\
                HelpRequestResponse_of_dict d = Some r /\ hr_status r = "pending").
  { intros r. rewrite sort_newest_first_perm, list_elem_of_omap. split.
    - intros ([k n] & Hin & Hr). apply elem_of_items in Hin.
      apply parse_pending_entry_spec in Hr as (Hk & d & -> & Hr & Hs). by exists k, d.
    - intros (k & d & Hk & Hin & Hr & Hs). exists (k, Dict d). split.
      + by apply elem_of_items.
      + apply parse_pending_entry_spec. split; [done|]. by exists d. }
  split; [|split; [done|]].
  - apply Forall_forall. intros r Hr. by apply Hmem in Hr as (_ & _ & _ & _ & _ & Hs).
  - rewrite sort_newest_first_perm, <- count_status_size.
    apply length_pending_le.
Qed.

Lemma same_data_faults (w : world) (fs : list bool) : same_data w (set_faults fs w).
Proof. by repeat split. Qed.

(** X3. The four queries never raise and never write, whatever the store
    holds and whether it answers or not. *)
Theorem queries_neither_raise_nor_write (w : world) (request_id : string) :
  ((exists o, (get_request_by_id request_id w).1 = Ok o) /\
   same_data w (get_request_by_id request_id w).2) /\
  ((exists l, (get_all_help_requests w).1 = Ok l) /\
   same_data w (get_all_help_requests w).2) /\
  ((exists l, (get_pending_requests w).1 = Ok l) /\
   same_data w (get_pending_requests w).2) /\
  ((exists s, (get_stats w).1 = Ok s) /\
   same_data w (get_stats w).2).
Proof.
  split; [|split; [|split]].
  - unfold get_request_by_id, try_except, bind, get_help_request, bind.
    destruct (store_call w) as [[[]|e] w1] eqn:E;
      apply store_call_inv in E as [fs ->]; cbn [help_requests set_faults].
    + destruct (help_requests w !! request_id) as [[v|d]|]; cbn [ret raise].
      * destruct (truthy v); cbn [ret raise fst snd];
          (split; [by eexists|apply same_data_faults]).
      * case_bool_decide; cbn [ret].
        -- split; [by eexists|apply same_data_faults].
        -- destruct (HelpRequestResponse_of_dict d); cbn [validate ret raise fst snd];
             (split; [by eexists|apply same_data_faults]).
      * split; [by eexists|apply same_data_faults].
    + cbn [ret fst snd]. split; [by eexists|apply same_data_faults].
  - unfold get_all_help_requests, try_except, bind, get_help_requests, bind.
    destruct (store_call w) as [[[]|e] w1] eqn:E;
      apply store_call_inv in E as [fs ->]; cbn [help_requests set_faults].
    + case_bool_decide; cbn [ret fst snd]; (split; [by eexists|apply same_data_faults]).
    + cbn [ret fst snd]. split; [by eexists|apply same_data_faults].
  - unfold get_pending_requests, try_except, bind, get_help_requests, bind.
    destruct (store_call w) as [[[]|e] w1] eqn:E;
      apply store_call_inv in E as [fs ->]; cbn [help_requests set_faults].
    + case_bool_decide; cbn [ret fst snd]; (split; [by eexists|apply same_data_faults]).
    + cbn [ret fst snd]. split; [by eexists|apply same_data_faults].
  - unfold get_stats, try_except, bind, get_help_requests, bind.
    destruct (store_call w) as [[[]|e] w1] eqn:E;
      apply store_call_inv in E as [fs ->]; cbn [help_requests set_faults].
    + case_bool_decide; cbn [ret fst snd]; (split; [by eexists|apply same_data_faults]).
    + cbn [ret fst snd]. split; [by eexists|apply same_data_faults].
Qed.

Lemma queries_found (w : world) (request_id : string) :
  exists o w', get_request_by_id request_id w = (Ok o, w').
Proof.
  unfold get_request_by_id, try_except.
  destruct (bind _ _ w) as [[o|e] w1]; by eexists _, _.
Qed.

(** X4. The GET route of one escalation answers with the record or with
    404, never with 500: an unknown id, a stored record that does not
    validate and a store that fails all give 404. *)
Theorem get_help_request_is_found_or_404 (w : world) (request_id : string) :
  ((exists r, (HelpRequestRoutes.get_help_request request_id w).1 = Ok r) \/
   (HelpRequestRoutes.get_help_request request_id w).1 = Raise (HTTPException 404)) /\
  (help_requests w !! request_id = None ->
   (HelpRequestRoutes.get_help_request request_id w).1 = Raise (HTTPException 404)) /\
  (forall fs, faults w = true :: fs ->
   (HelpRequestRoutes.get_help_request request_id w).1 = Raise (HTTPException 404)) /\
  (forall d, faults w = [] -> help_requests w !! request_id = Some (Dict d) ->
             HelpRequestResponse_of_dict d = None ->
   (HelpRequestRoutes.get_help_request request_id w).1 = Raise (HTTPException 404)).
Proof.
  destruct (queries_found w request_id) as [o [w1 Hq]].
  assert (Hroute : HelpRequestRoutes.get_help_request request_id w =
            (match o with Some r => Ok r | None => Raise (HTTPException 404) end, w1)).
  { unfold HelpRequestRoutes.get_help_request, try_except, bind.
    rewrite Hq. by destruct o. }
  rewrite Hroute. cbn [fst].
  split; [|split; [|split]].
  - destruct o as [r|]; [left; by eexists|by right].
  - intros Hk. revert Hq.
    unfold get_request_by_id, try_except, bind, get_help_request, bind.
    destruct (store_call w) as [[[]|e] w2] eqn:E;
      apply store_call_inv in E as [fs ->]; cbn [help_requests set_faults].
    + rewrite Hk. unfold ret, raise. by intros [= <- <-].
    + unfold ret, raise. by intros [= <- <-].
  - intros fs Hf. revert Hq.
    unfold get_request_by_id, try_except, bind, get_help_request, bind.
    rewrite (store_call_down _ fs) by done. unfold ret, raise.
    by intros [= <- <-].
  - intros d Hf Hk Hd. revert Hq.
    unfold get_request_by_id, try_except, bind, get_help_request, bind.
    rewrite store_call_up by done. rewrite Hk, Hd.
    case_bool_decide; unfold ret, raise; simpl; by intros [= <- <-].
Qed.

End query_facts.

(** ** Creating, reading back and resolving *)

Section lifecycle_facts.
Context `{PyRuntime}.
Import FirebaseService.

(** The world after [create_help_request], field by field. *)
Lemma create_help_request_world (w : world) (q c s : string) :
  faults w = [] ->
  exists d r w',
    create_help_request q c s w = (Ok r, w') /\
    help_requests w' = <[uuids w (drawn w) := Dict d]> (help_requests w) /\
    HelpRequestResponse_of_dict d = Some r /\
    hr_id r = uuids w (drawn w) /\
    hr_question r = q /\
    hr_status r = "pending" /\
    hr_created_at r = isoformat (clock w (ticks w)) /\
    hr_timeout_at r = isoformat (clock w (S (ticks w)) + timedelta_hours 2) /\
    d !! "id" = Some (JStr (uuids w (drawn w))) /\
    d !! "status" = Some (JStr "pending") /\
    d !! "timeout_at" =
      Some (JStr (isoformat (clock w (S (ticks w)) + timedelta_hours 2))) /\
    faults w' = [] /\
    same_data (set_help_requests (fun _ => help_requests w') w) w' /\
    clock w' = clock w /\ ticks w' = S (S (ticks w)) /\
    uuids w' = uuids w /\ drawn w' = S (drawn w).
Proof.
  intros Hf.
  unfold create_help_request, try_except, bind, uuid4, utcnow.
  cbn [set_drawn set_ticks clock ticks uuids drawn].
  unfold set_help_request, bind. rewrite store_call_up by done.
  eexists _, _, _. split; [reflexivity|].
  split; [reflexivity|]. split; [reflexivity|]. repeat split; reflexivity || done.
Qed.

Lemma dict_with_id_not_empty (d : pydict) (v : jvalue) :
  d !! "id" = Some v -> d ≠ ∅.
Proof. intros Hd ->. by rewrite lookup_empty in Hd. Qed.

(** X5. An escalation that was created reads back: when the store answers,
    the service and the GET route return, for the id that Create returned,
    the very response that Create returned. *)
Theorem create_then_get (w : world) (q c s : string) :
  faults w = [] ->
  exists r w',
    create_help_request q c s w = (Ok r, w') /\
    get_request_by_id (hr_id r) w' = (Ok (Some r), w') /\
    HelpRequestRoutes.get_help_request (hr_id r) w' = (Ok r, w').
Proof.
  intros Hf.
  destruct (create_help_request_world w q c s Hf)
    as (d & r & w' & Hrun & Hh & Hr & Hid & _ & _ & _ & _ & Hdid & _ & _ & Hf' & _).
  exists r, w'. split; [done|].
  assert (Hget : get_request_by_id (hr_id r) w' = (Ok (Some r), w')).
  { unfold get_request_by_id, try_except, bind, get_help_request, bind.
    rewrite store_call_up by done. rewrite Hh, Hid, lookup_insert_eq.
    rewrite bool_decide_eq_false_2 by by eapply dict_with_id_not_empty.
    by rewrite Hr. }
  split; [done|].
  unfold HelpRequestRoutes.get_help_request, try_except, bind. by rewrite Hget.
Qed.

(** X6. Resolving an id that is not stored fails and changes nothing: the
    service raises [ValueError], the PUT route answers 500 (not 404), and
    the world stays as it was: no record, no knowledge entry, no event. *)
Theorem resolve_unknown_id (w : world) (request_id a n : string) :
  faults w = [] ->
  help_requests w !! request_id = None ->
  answer_request request_id {| answer := a; supervisor_name := n |} w =
    (Raise (ValueError ("Request " +:+ request_id +:+ " not found")), w) /\
  HelpRequestRoutes.answer_help_request request_id a n w =
    (Raise (HTTPException 500), w).
Proof.
  intros Hf Hk.
  assert (Hsvc : forall ad, answer_request request_id ad w =
            (Raise (ValueError ("Request " +:+ request_id +:+ " not found")), w)).
  { intros ad. unfold answer_request. rewrite try_reraise.
    unfold bind, get_help_request, bind. rewrite store_call_up by done.
    by rewrite Hk. }
  split; [apply Hsvc|].
  unfold HelpRequestRoutes.answer_help_request, try_except, bind,
    HelpRequestRoutes.new_HelpRequestAnswer.
  case_bool_decide; [|done]. cbn [ret]. by rewrite Hsvc.
Qed.

(** X7. An answer outside the bounds of [HelpRequestAnswer] (shorter than
    5 characters or longer than 2000, or a supervisor name longer than
    100 characters) is refused by the PUT route with 500 before the store
    is touched: the world is left exactly as it was, for a stored id as
    for any other. *)
Theorem resolve_refuses_invalid_answer (w : world) (request_id a n : string) :
  ~ valid_answer a n ->
  HelpRequestRoutes.answer_help_request request_id a n w =
    (Raise (HTTPException 500), w).
Proof.
  intros Hbad.
  unfold HelpRequestRoutes.answer_help_request, try_except, bind,
    HelpRequestRoutes.new_HelpRequestAnswer.
  by rewrite bool_decide_eq_false_2.
Qed.

(** X8. Resolving the id of a child that is no record, such as the marker
    [initialized] that the start of the server writes, raises [TypeError]
    when the child is truthy and [ValueError] otherwise, and changes
    nothing. *)
Theorem resolve_scalar_child (w : world) (request_id : string)
    (ad : HelpRequestAnswer) (v : jvalue) :
  faults w = [] ->
  help_requests w !! request_id = Some (Leaf v) ->
  answer_request request_id ad w =
    (Raise (if truthy v then TypeError
            else ValueError ("Request " +:+ request_id +:+ " not found")), w).
Proof.
  intros Hf Hk. unfold answer_request. rewrite try_reraise.
  unfold bind, get_help_request, bind. rewrite store_call_up by done.
  rewrite Hk. cbn [node_truthy]. by destruct (truthy v).
Qed.

(** X9. A resolve rewrites four fields of the record and nothing else:
    every other field of the record, and every other child of the store,
    is what it was; so [created_at], [timeout_at], [question] and
    [session_id] survive a resolve. *)
Theorem resolve_changes_four_fields (w : world) (request_id : string)
    (ad : HelpRequestAnswer) (d : pydict) :
  faults w = [] ->
  help_requests w !! request_id = Some (Dict d) ->
  d ≠ ∅ ->
  exists d',
    help_requests (answer_request request_id ad w).2 !! request_id = Some (Dict d') /\
    (forall f, f ≠ "status" -> f ≠ "answer" -> f ≠ "answered_by" -> f ≠ "resolved_at" ->
               d' !! f = d !! f) /\
    (forall k, k ≠ request_id ->
               help_requests (answer_request request_id ad w).2 !! k =
               help_requests w !! k).
Proof.
  intros Hf Hk Hd.
  destruct (answer_request_run w request_id ad d Hf Hk Hd)
    as (o & w' & Hrun & _ & Hh & _).
  eexists. rewrite Hrun. cbn [snd]. rewrite Hh, lookup_insert_eq.
  split; [reflexivity|]. split.
  - intros f ????. by apply answered_lookup_other.
  - intros k Hne. by rewrite lookup_insert_ne.
Qed.

(** The response of a stored record once it is answered. *)
Lemma of_dict_answered (d : pydict) (ad : HelpRequestAnswer) (t : string)
    (r0 : HelpRequestResponse) :
  HelpRequestResponse_of_dict d = Some r0 ->
  HelpRequestResponse_of_dict (answered d ad t) =
    Some {| hr_id := hr_id r0;
            hr_question := hr_question r0;
            hr_caller_info := hr_caller_info r0;
            hr_status := "resolved";
            hr_created_at := hr_created_at r0;
            hr_resolved_at := Some t;
            hr_timeout_at := hr_timeout_at r0;
            hr_answer := Some (answer ad);
            hr_answered_by := Some (supervisor_name ad);
            hr_session_id := hr_session_id r0 |}.
Proof.
  intros Hr0. unfold HelpRequestResponse_of_dict in *.
  destruct (field_str d "id") as [i|] eqn:Hi; simpl in Hr0; [|done].
  destruct (field_str d "question") as [q|] eqn:Hq; simpl in Hr0; [|done].
  destruct (field_opt_str d "caller_info") as [c|] eqn:Hc; simpl in Hr0; [|done].
  destruct (field_str d "status") as [st|] eqn:Hst; simpl in Hr0; [|done].
  destruct (field_str d "created_at") as [ca|] eqn:Hca; simpl in Hr0; [|done].
  destruct (field_opt_str d "resolved_at") as [ra|] eqn:Hra; simpl in Hr0; [|done].
  destruct (field_str d "timeout_at") as [ta|] eqn:Hta; simpl in Hr0; [|done].
  destruct (field_opt_str d "answer") as [an|] eqn:Han; simpl in Hr0; [|done].
  destruct (field_opt_str d "answered_by") as [ab|] eqn:Hab; simpl in Hr0; [|done].
  destruct (field_str d "session_id") as [si|] eqn:Hsi; simpl in Hr0; [|done].
  injection Hr0 as <-. cbn [hr_id hr_question hr_caller_info hr_created_at
                            hr_timeout_at hr_session_id].
  rewrite (field_str_answered _ _ _ "id") by done.
  rewrite Hi; cbn [mbind option_bind].
  rewrite (field_str_answered _ _ _ "question") by done.
  rewrite Hq; cbn [mbind option_bind].
  rewrite (field_opt_str_answered _ _ _ "caller_info") by done.
  rewrite Hc; cbn [mbind option_bind].
  rewrite field_str_answered_status; cbn [mbind option_bind].
  rewrite (field_str_answered _ _ _ "created_at") by done.
  rewrite Hca; cbn [mbind option_bind].
  rewrite field_opt_str_answered_resolved_at; cbn [mbind option_bind].
  rewrite (field_str_answered _ _ _ "timeout_at") by done.
  rewrite Hta; cbn [mbind option_bind].
  rewrite field_opt_str_answered_answer; cbn [mbind option_bind].
  rewrite field_opt_str_answered_answered_by; cbn [mbind option_bind].
  rewrite (field_str_answered _ _ _ "session_id") by done.
  by rewrite Hsi.
Qed.

(** [answer_request] on a stored record that validates, field by field. *)
Lemma answer_request_ok (w : world) (request_id : string)
    (ad : HelpRequestAnswer) (d : pydict) (r : HelpRequestResponse) :
  faults w = [] ->
  help_requests w !! request_id = Some (Dict d) ->
  HelpRequestResponse_of_dict (answered d ad (isoformat (clock w (ticks w)))) = Some r ->
  exists e w',
    answer_request request_id ad w = (Ok r, w') /\
    faults w' = [] /\
    help_requests w' =
      <[request_id := Dict (answered d ad (isoformat (clock w (ticks w))))]>
        (help_requests w) /\
    knowledge_base w' = <[uuids w (drawn w) := Dict e]> (knowledge_base w) /\
    broadcasts w' = broadcasts w /\
    e !! "question" = Some (JStr (hr_question r)) /\
    e !! "answer" = Some (JStr (answer ad)) /\
    e !! "source" = Some (JStr "learned") /\
    e !! "use_count" = Some (JNum 0).
Proof.
  intros Hf Hk Hr.
  assert (Hd : d ≠ ∅).
  { intros ->. apply of_dict_question in Hr.
    rewrite answered_lookup_other in Hr by done. by rewrite lookup_empty in Hr. }
  pose proof (of_dict_question _ _ Hr) as Hq.
  unfold answer_request. rewrite try_reraise.
  unfold bind at 1, get_help_request, bind at 1.
  rewrite store_call_up by done. rewrite Hk.
  cbn [node_truthy negb]. rewrite bool_decide_eq_false_2 by done.
  cbn [negb]. unfold bind at 1. cbn [utcnow].
  unfold bind at 1, set_help_request, bind at 1.
  rewrite store_call_up by done.
  unfold bind at 1, subscript. rewrite Hq. cbn [ret].
  edestruct (add_to_knowledge_base_run
               (set_help_requests
                  (insert request_id
                     (Dict (answered d ad (isoformat (clock w (ticks w))))))
                  (set_ticks (S (ticks w)) w))
               (hr_question r) (answer ad))
    as (e & kr & w' & Hrun & Hf' & Hh' & Hkb' & Hb' & He1 & He2 & He3 & He4); [done|].
  unfold bind. rewrite Hrun, Hr. cbn [validate ret].
  exists e, w'. split; [done|]. rewrite Hh', Hkb', Hb'. by repeat split.
Qed.

(** X10. Resolving a stored record that validates, with an answer within
    the bounds of [HelpRequestAnswer] (counted in characters) and the
    store answering, returns the record as stored with status
    resolved, the answer, the supervisor and the time of the resolve, and
    broadcasts one [request_resolved] event that carries the id, the
    answer, the supervisor and that time. *)
Theorem resolve_returns_and_announces (w : world) (request_id a n : string)
    (d : pydict) (r0 : HelpRequestResponse) :
  faults w = [] ->
  help_requests w !! request_id = Some (Dict d) ->
  HelpRequestResponse_of_dict d = Some r0 ->
  valid_answer a n ->
  let t := isoformat (clock w (ticks w)) in
  let r := {| hr_id := hr_id r0;
              hr_question := hr_question r0;
              hr_caller_info := hr_caller_info r0;
              hr_status := "resolved";
              hr_created_at := hr_created_at r0;
              hr_resolved_at := Some t;
              hr_timeout_at := hr_timeout_at r0;
              hr_answer := Some a;
              hr_answered_by := Some n;
              hr_session_id := hr_session_id r0 |} in
  exists w' m,
    HelpRequestRoutes.answer_help_request request_id a n w = (Ok r, w') /\
    get_request_by_id request_id w' = (Ok (Some r), w') /\
    broadcasts w' = broadcasts w ++ [m] /\
    msg_type m = "request_resolved" /\
    msg_data m !! "request_id" = Some (JStr (hr_id r0)) /\
    msg_data m !! "answer" = Some (JStr a) /\
    msg_data m !! "answered_by" = Some (JStr n) /\
    msg_data m !! "resolved_at" = Some (JStr t).
Proof.
  intros Hf Hk Hr0 Han t r.
  set (ad := {| answer := a; supervisor_name := n |}).
  pose proof (of_dict_answered d ad t r0 Hr0) as Hr. fold r in Hr.
  destruct (answer_request_ok w request_id ad d r Hf Hk Hr)
    as (e & w1 & Hrun & Hf1 & Hh1 & _ & Hb1 & _).
  unfold HelpRequestRoutes.answer_help_request.
  unfold try_except at 1, bind at 1, HelpRequestRoutes.new_HelpRequestAnswer.
  rewrite bool_decide_eq_true_2 by done.
  cbn [ret]. fold ad. unfold bind at 1. rewrite Hrun.
  unfold bind at 1, try_except at 1.
  unfold NotificationService.notify_request_resolved, bind at 1, utcnow.
  rewrite broadcast_run.
  unfold bind, try_except, NotificationService.notify_customer_callback, bind, utcnow.
  cbn [ret]. eexists _, _. split; [reflexivity|].
  cbn [faults help_requests broadcasts set_ticks set_active_connections set_delivered
       set_attempted set_broadcasts msg_type msg_data].
  split.
  { unfold get_request_by_id, try_except, bind, get_help_request, bind.
    rewrite store_call_up by done.
    cbn [faults help_requests broadcasts set_ticks set_active_connections set_delivered
         set_attempted set_broadcasts].
    rewrite Hh1, lookup_insert_eq. fold t.
    rewrite bool_decide_eq_false_2.
    - by rewrite Hr.
    - intros He. apply of_dict_question in Hr. by rewrite He, lookup_empty in Hr. }
  split; [by rewrite Hb1|]. split; [done|].
  repeat split; reflexivity.
Qed.

(** X11. Create then resolve, the store answering and the answer within
    the bounds of [HelpRequestAnswer] (counted in characters):
    the resolve returns the escalation with the question, [created_at] and
    [timeout_at] that Create returned, now resolved with the answer, and
    the knowledge base holds a learned entry with that question and that
    answer under the next id of the supply. *)
Theorem create_then_resolve (w : world) (q c s a n : string) :
  faults w = [] ->
  valid_answer a n ->
  exists r w1 r' w2 e,
    create_help_request q c s w = (Ok r, w1) /\
    HelpRequestRoutes.answer_help_request (hr_id r) a n w1 = (Ok r', w2) /\
    hr_id r' = hr_id r /\
    hr_question r' = q /\
    hr_status r' = "resolved" /\
    hr_answer r' = Some a /\
    hr_answered_by r' = Some n /\
    hr_created_at r' = hr_created_at r /\
    hr_timeout_at r' = hr_timeout_at r /\
    knowledge_base w2 !! uuids w (S (drawn w)) = Some (Dict e) /\
    e !! "question" = Some (JStr q) /\
    e !! "answer" = Some (JStr a) /\
    e !! "source" = Some (JStr "learned").
Proof.
  intros Hf Han.
  destruct (create_help_request_world w q c s Hf)
    as (d & r & w1 & Hrun & Hh & Hr & Hid & Hq & _ & _ & _ & _ & _ & _ & Hf1 & _
        & Hclock & Hticks & Huuids & Hdrawn).
  set (ad := {| answer := a; supervisor_name := n |}).
  assert (Hk : help_requests w1 !! hr_id r = Some (Dict d)).
  { rewrite Hh, Hid. apply lookup_insert_eq. }
  pose proof (of_dict_answered d ad (isoformat (clock w1 (ticks w1))) r Hr) as Hr'.
  destruct (answer_request_ok w1 (hr_id r) ad d _ Hf1 Hk Hr')
    as (e & w2 & Hrun2 & Hf2 & Hh2 & Hkb2 & Hb2 & Heq & Hea & Hes & _).
  eexists r, w1, _, _, e. split; [done|].
  split.
  { unfold HelpRequestRoutes.answer_help_request.
    unfold try_except at 1, bind at 1, HelpRequestRoutes.new_HelpRequestAnswer.
    rewrite bool_decide_eq_true_2 by done.
    cbn [ret]. fold ad. unfold bind at 1. rewrite Hrun2.
    unfold bind at 1, try_except at 1.
    unfold NotificationService.notify_request_resolved, bind at 1, utcnow.
    rewrite broadcast_run.
    unfold bind, try_except, NotificationService.notify_customer_callback, bind, utcnow.
    cbn [ret]. reflexivity. }
  cbn [hr_id hr_question hr_status hr_answer hr_answered_by hr_created_at hr_timeout_at
       knowledge_base set_ticks set_active_connections set_delivered set_attempted
       set_broadcasts].
  rewrite Hkb2, Huuids, Hdrawn, lookup_insert_eq.
  cbn [hr_question] in Heq. rewrite Hq in Heq.
  by repeat split.
Qed.

(** X12. The POST route never announces the escalation it creates:
    [notify_new_request] is handed the response model, fails on its first
    [get] and the route ignores the failure, so whatever the world no
    [new_request] event, and no event at all, is broadcast or sent. *)
Theorem create_route_broadcasts_nothing (w : world) (request : HelpRequestCreate) :
  broadcasts (HelpRequestRoutes.create_help_request request w).2 = broadcasts w /\
  attempted (HelpRequestRoutes.create_help_request request w).2 = attempted w /\
  delivered (HelpRequestRoutes.create_help_request request w).2 = delivered w.
Proof.
  unfold HelpRequestRoutes.create_help_request, create_help_request,
    NotificationService.notify_new_request,
    try_except, bind, uuid4, utcnow, set_help_request, bind, raise, ret.
  destruct (store_call _) as [[[]|e] w1] eqn:E;
    apply store_call_inv in E as [fs ->]; [|done].
  by destruct (HelpRequestResponse_of_dict _) as [r|].
Qed.

Lemma with_status_insert_fresh (s : RequestStatus) (data : gmap string node)
    (k : string) (d : pydict) (st : string) :
  data !! k = None ->
  d !! "status" = Some (JStr st) ->
  size (with_status s (<[k := Dict d]> data)) =
    ((if bool_decide (st = RequestStatus_value s) then 1 else 0) +
     size (with_status s data))%nat.
Proof.
  intros Hk Hd. unfold with_status. case_bool_decide as Hs.
  - rewrite map_filter_insert_True.
    + rewrite map_size_insert_None; [done|].
      by rewrite map_lookup_filter_None_2; [|left].
    + exists d. split; [done|]. by rewrite Hd, Hs.
  - rewrite map_filter_insert_not'.
    + done.
    + intros (d' & [= <-] & Hd'). rewrite Hd in Hd'. congruence.
    + intros y. by rewrite Hk.
Qed.

(** X13. Creating an escalation under a fresh id raises the pending count
    of the statistics by one, and the total with it, and leaves the
    resolved and timeout counts as they were. *)
Theorem create_adds_one_pending (w : world) (q c s : string) (st : Stats) :
  faults w = [] ->
  help_requests w !! uuids w (drawn w) = None ->
  (get_stats w).1 = Ok st ->
  exists r w',
    create_help_request q c s w = (Ok r, w') /\
    (get_stats w').1 =
      Ok {| pending := S (pending st); resolved := resolved st;
            timeout := timeout st; total := S (total st) |}.
Proof.
  intros Hf Hfresh Hst.
  destruct (create_help_request_world w q c s Hf)
    as (d & r & w' & Hrun & Hh & _ & _ & _ & _ & _ & _ & _ & Hds & _ & Hf' & _).
  exists r, w'. split; [done|].
  assert (Hstats : forall w0, faults w0 = [] ->
    (get_stats w0).1 =
      Ok {| pending := size (with_status PENDING (help_requests w0));
            resolved := size (with_status RESOLVED (help_requests w0));
            timeout := size (with_status TIMEOUT (help_requests w0));
            total := size (with_status PENDING (help_requests w0)) +
                     size (with_status RESOLVED (help_requests w0)) +
                     size (with_status TIMEOUT (help_requests w0)) |}).
  { intros w0 Hf0.
    unfold get_stats, try_except, bind, get_help_requests, bind.
    rewrite store_call_up by done.
    case_bool_decide as He.
    - rewrite He. unfold with_status. by rewrite !map_filter_empty, map_size_empty.
    - unfold ret. by rewrite !count_status_size. }
  rewrite (Hstats w Hf) in Hst. injection Hst as <-.
  rewrite (Hstats w' Hf'), Hh. cbn [pending resolved timeout total].
  rewrite !(with_status_insert_fresh _ _ _ d "pending") by done.
  reflexivity.
Qed.

Lemma well_keyed_insert (data : gmap string node) (k : string) (d : pydict) :
  well_keyed data -> d !! "id" = Some (JStr k) -> well_keyed (<[k := Dict d]> data).
Proof.
  intros Hwk Hd k' d' Hk'. destruct (decide (k = k')) as [<-|Hne].
  - rewrite lookup_insert_eq in Hk'. by injection Hk' as <-.
  - rewrite lookup_insert_ne in Hk' by done. by apply Hwk.
Qed.

Lemma well_keyed_write_back (l : list (string * pydict)) (data : gmap string node) :
  well_keyed data ->
  (forall k d, (k, d) ∈ l -> d !! "id" = Some (JStr k)) ->
  well_keyed (write_back l data).
Proof.
  revert data. induction l as [|[k d] l IH]; intros data Hwk Hl; [done|].
  simpl. apply IH.
  - apply well_keyed_insert; [done|].
    unfold timed_out. rewrite lookup_insert_ne by done. apply Hl. by left.
  - intros k' d' Hin. apply Hl. by right.
Qed.

(** X14. The three writers keep the store well keyed (every record holds
    its own key as [id]): when the store answers, this holds after a
    create, after a resolve of any id and after a sweep if it held
    before. *)
Theorem writers_keep_the_store_well_keyed (w : world) (q c s request_id : string)
    (ad : HelpRequestAnswer) :
  faults w = [] ->
  well_keyed (help_requests w) ->
  well_keyed (help_requests (create_help_request q c s w).2) /\
  well_keyed (help_requests (answer_request request_id ad w).2) /\
  well_keyed (help_requests (TimeoutService._process_timeouts w).2).
Proof.
  intros Hf Hwk. split; [|split].
  - destruct (create_help_request_world w q c s Hf)
      as (d & r & w' & Hrun & Hh & _ & _ & _ & _ & _ & _ & Hid & _).
    rewrite Hrun. cbn [snd]. rewrite Hh. by apply well_keyed_insert.
  - destruct (help_requests w !! request_id) as [[v|d]|] eqn:Hk.
    + unfold answer_request. rewrite try_reraise.
      unfold bind, get_help_request, bind. rewrite store_call_up by done.
      rewrite Hk. cbn [node_truthy]. by destruct (truthy v).
    + destruct (decide (d = ∅)) as [->|Hd].
      * unfold answer_request. rewrite try_reraise.
        unfold bind, get_help_request, bind. rewrite store_call_up by done.
        rewrite Hk. cbn [node_truthy]. by rewrite bool_decide_eq_true_2.
      * destruct (answer_request_run w request_id ad d Hf Hk Hd)
          as (o & w' & Hrun & _ & Hh & _).
        rewrite Hrun. cbn [snd]. rewrite Hh. apply well_keyed_insert; [done|].
        rewrite answered_lookup_other by done. by apply Hwk.
    + unfold answer_request. rewrite try_reraise.
      unfold bind, get_help_request, bind. rewrite store_call_up by done.
      by rewrite Hk.
  - destruct (process_timeouts_run w Hf) as (w' & msgs & Hrun & _ & Hh & _).
    rewrite Hrun. cbn [snd]. rewrite Hh. apply well_keyed_write_back; [done|].
    by apply scan_well_keyed.
Qed.

End lifecycle_facts.

(** ** The sweep under failures and over time *)

Section sweep_more_facts.
Context `{PyRuntime}.
Import FirebaseService TimeoutService.

Lemma process_timeouts_returns (w : world) :
  exists w', _process_timeouts w = (Ok tt, w').
Proof.
  unfold _process_timeouts, bind at 1, utcnow, try_except.
  match goal with
  | |- context [let (_, _) := ?c in _] => destruct c as [[[]|e] w1]
  end; by eexists.
Qed.

(** X15. A turn of the monitor loop never takes its 60 second retry: the
    sweep swallows every failure itself, so whatever the world the turn
    ends normally and the loop sleeps the full 300 seconds. *)
Theorem check_timeouts_turn_sleeps_300 (w : world) :
  exists w', _check_timeouts_turn w = (Ok 300%nat, w').
Proof.
  destruct (process_timeouts_returns w) as [w' Hrun].
  exists w'. unfold _check_timeouts_turn, try_except, bind. by rewrite Hrun.
Qed.

(** X16. When the store fails at the read of a sweep, the sweep ends
    normally, having written nothing and broadcast nothing: all that
    changed is the clock reading taken and the failure consumed. *)
Theorem sweep_swallows_read_failure (w : world) (fs : list bool) :
  faults w = true :: fs ->
  _process_timeouts w = (Ok tt, set_faults fs (set_ticks (S (ticks w)) w)).
Proof.
  intros Hf.
  unfold _process_timeouts, bind, utcnow, try_except, get_help_requests, bind.
  by rewrite (store_call_down _ fs).
Qed.

Lemma timeout_one_step (k : string) (d : pydict) (w : world) (rest : list bool) :
  faults w = false :: rest ->
  exists w' m,
    timeout_one (k, d) w = (Ok tt, w') /\
    faults w' = rest /\
    help_requests w' = <[k := Dict (timed_out d)]> (help_requests w) /\
    broadcasts w' = broadcasts w ++ [m] /\
    is_timeout_event d m.
Proof.
  intros Hf.
  unfold timeout_one, set_help_request, bind. unfold store_call. rewrite Hf.
  unfold NotificationService.notify_request_timeout, bind, utcnow.
  rewrite broadcast_run. do 2 eexists. split; [reflexivity|]. simpl.
  repeat split; try done.
  all: cbn [msg_data]; rewrite ?lookup_insert_ne by done;
       rewrite lookup_insert_eq; f_equal; by apply dict_get_timed_out.
Qed.

(** The second loop of the sweep when the store fails at its write
    number [n]. *)
Lemma timeout_all_fails (n : nat) (l : list (string * pydict)) (w : world)
    (fs : list bool) :
  faults w = replicate n false ++ true :: fs ->
  (n < length l)%nat ->
  exists w' msgs,
    timeout_all l w = (Raise StoreError, w') /\
    help_requests w' = write_back (take n l) (help_requests w) /\
    broadcasts w' = broadcasts w ++ msgs /\
    Forall2 (fun e m => is_timeout_event e.2 m) (take n l) msgs.
Proof.
  revert l w. induction n as [|n IH]; intros l w Hf Hn.
  - destruct l as [|[k d] l]; [simpl in Hn; lia|].
    exists (set_faults fs w), []. cbn [timeout_all]. unfold bind, timeout_one.
    unfold set_help_request, bind. rewrite (store_call_down _ fs) by done.
    rewrite app_nil_r. repeat split; done.
  - destruct l as [|[k d] l]; [simpl in Hn; lia|].
    destruct (timeout_one_step k d w (replicate n false ++ true :: fs) Hf)
      as (w1 & m & Hrun1 & Hf1 & Hh1 & Hb1 & Hm).
    destruct (IH l w1 Hf1) as (w2 & msgs & Hrun2 & Hh2 & Hb2 & Hms).
    { simpl in Hn. lia. }
    exists w2, (m :: msgs). cbn [timeout_all]. unfold bind. rewrite Hrun1, Hrun2.
    split; [done|]. split; [by rewrite Hh2, Hh1|].
    split; [by rewrite Hb2, Hb1, <- app_assoc|].
    cbn [take]. by constructor.
Qed.

(** X17. A store failure in the middle of a sweep stops it there.  The
    due records are taken in the order in which the store listed them; when
    the write number [n] (from 0) fails, the [n] records before it are
    timed out, and the events broadcast are, in that order, one
    [request_timeout] event about each of them and no other; the records
    that were to follow are left in the store as they were; and the sweep
    still ends normally. *)
Theorem sweep_stops_at_a_failed_write (w : world) (n : nat) (fs : list bool) :
  faults w = false :: replicate n false ++ true :: fs ->
  (n < length (scan (clock w (ticks w)) (help_requests w)))%nat ->
  exists w' msgs,
    _process_timeouts w = (Ok tt, w') /\
    help_requests w' =
      write_back (take n (scan (clock w (ticks w)) (help_requests w))) (help_requests w) /\
    broadcasts w' = broadcasts w ++ msgs /\
    length msgs = n /\
    Forall2 (fun e m => is_timeout_event e.2 m)
            (take n (scan (clock w (ticks w)) (help_requests w))) msgs /\
    (forall k d, (k, d) ∈ take n (scan (clock w (ticks w)) (help_requests w)) ->
                 help_requests w' !! k = Some (Dict (timed_out d))) /\
    (forall k d, (k, d) ∈ drop n (scan (clock w (ticks w)) (help_requests w)) ->
                 help_requests w' !! k = Some (Dict d)) /\
    (forall k, k ∉ (scan (clock w (ticks w)) (help_requests w)).*1 ->
               help_requests w' !! k = help_requests w !! k).
Proof.
  intros Hf Hn.
  set (l := scan (clock w (ticks w)) (help_requests w)) in *.
  assert (Hne : help_requests w ≠ ∅).
  { intros He. unfold l, scan in Hn. rewrite He, items_empty in Hn.
    simpl in Hn. lia. }
  destruct (timeout_all_fails n l
              (set_faults (replicate n false ++ true :: fs) (set_ticks (S (ticks w)) w))
              fs eq_refl Hn)
    as (w' & msgs & Hrun & Hh & Hb & Hms).
  exists w', msgs. split.
  { unfold _process_timeouts, bind, utcnow, try_except, get_help_requests, bind.
    unfold store_call. cbn [faults set_ticks]. rewrite Hf.
    cbn [help_requests set_faults set_ticks].
    rewrite bool_decide_eq_false_2 by done. fold l. by rewrite Hrun. }
  split; [done|]. split; [done|]. split.
  { apply Forall2_length in Hms. rewrite <- Hms, length_take. lia. }
  split; [done|].
  assert (Hnd : NoDup ((take n l).*1 ++ (drop n l).*1)).
  { rewrite <- fmap_app, take_drop. apply NoDup_scan. }
  apply NoDup_app in Hnd as (Hndt & Hdis & _).
  rewrite Hh. cbn [help_requests set_faults set_ticks].
  split; [|split].
  - intros k d Hin. by apply write_back_in.
  - intros k d Hin. rewrite write_back_notin.
    + assert (Hl : (k, d) ∈ l).
      { rewrite <- (take_drop n l). apply elem_of_app. by right. }
      by apply elem_of_scan in Hl as [Hk _].
    + intros Hk. apply (Hdis k Hk). apply list_elem_of_fmap. by exists (k, d).
  - intros k Hk. apply write_back_notin. intros Hin. apply Hk.
    rewrite <- (take_drop n l), fmap_app. apply elem_of_app. by left.
Qed.

(** X18. A record that a sweep has timed out is never selected by a later
    sweep, at whatever time it runs: it is timed out, and announced, once. *)
Theorem timed_out_records_are_not_swept_again (w : world) :
  faults w = [] ->
  exists w',
    _process_timeouts w = (Ok tt, w') /\
    forall k d, (k, d) ∈ scan (clock w (ticks w)) (help_requests w) ->
      forall now' d', (k, d') ∉ scan now' (help_requests w').
Proof.
  intros Hf.
  destruct (process_timeouts_run w Hf) as (w' & msgs & Hrun & _ & Hh & _).
  exists w'. split; [done|].
  intros k d Hin now' d' Hin'.
  apply elem_of_scan in Hin' as [Hk' Hdue].
  rewrite Hh, (write_back_in _ _ k d (NoDup_scan _ _) Hin) in Hk'.
  injection Hk' as <-. apply due_pending in Hdue.
  unfold timed_out in Hdue. by rewrite lookup_insert_eq in Hdue.
Qed.

(** X19. An escalation and its deadline: when the store answers and the
    deadline written by Create reads back from its ISO form, the sweep
    that follows leaves the new record pending if it runs before the
    deadline, and times it out if it runs at the deadline or later. *)
Theorem create_then_sweep (w : world) (q c s : string) :
  faults w = [] ->
  uuids w (drawn w) ≠ "initialized" ->
  fromisoformat (isoformat (clock w (S (ticks w)) + timedelta_hours 2)) =
    Some (clock w (S (ticks w)) + timedelta_hours 2) ->
  let deadline := clock w (S (ticks w)) + timedelta_hours 2 in
  let now := clock w (S (S (ticks w))) in
  exists r w1 w2 d,
    create_help_request q c s w = (Ok r, w1) /\
    _process_timeouts w1 = (Ok tt, w2) /\
    help_requests w1 !! hr_id r = Some (Dict d) /\
    d !! "status" = Some (JStr "pending") /\
    (now < deadline -> help_requests w2 !! hr_id r = Some (Dict d)) /\
    (deadline <= now -> help_requests w2 !! hr_id r = Some (Dict (timed_out d))).
Proof.
  intros Hf Hid Hiso deadline now.
  destruct (create_help_request_world w q c s Hf)
    as (d & r & w1 & Hrun & Hh & _ & Hrid & _ & _ & _ & _ & _ & Hds & Hdt & Hf1 & _
        & Hclock & Hticks & _).
  destruct (process_timeouts_run w1 Hf1) as (w2 & msgs & Hrun2 & _ & Hh2 & _).
  assert (Hk : help_requests w1 !! hr_id r = Some (Dict d)).
  { rewrite Hh, Hrid. apply lookup_insert_eq. }
  assert (Hnow : clock w1 (ticks w1) = now) by by rewrite Hclock, Hticks.
  exists r, w1, w2, d. split; [done|]. split; [done|]. split; [done|].
  split; [done|]. rewrite Hh2, Hnow. split.
  - intros Hlt. rewrite write_back_notin; [done|].
    intros Hin. apply list_elem_of_fmap in Hin as ([k dx] & Hkx & Hin).
    cbn [fst] in Hkx. subst k.
    apply elem_of_scan in Hin as [Hkx (_ & _ & s0 & t0 & Hta & Ht0 & Hle)].
    rewrite Hk in Hkx. injection Hkx as <-.
    rewrite Hdt in Hta. injection Hta as <-.
    rewrite Hiso in Ht0. injection Ht0 as <-. unfold deadline, now in *. lia.
  - intros Hle. apply write_back_in; [apply NoDup_scan|].
    apply elem_of_scan. split; [done|]. split; [by rewrite Hrid|].
    split; [done|]. eexists _, _. split; [exact Hdt|]. split; [exact Hiso|done].
Qed.

End sweep_more_facts.

(** ** The registry of connections *)

Section registry_facts.
Import ConnectionManager.

Lemma elem_of_filter_bool (p : nat -> bool) (l : list nat) (x : nat) :
  x ∈ List.filter p l <-> x ∈ l /\ p x = true.
Proof. by rewrite !list_elem_of_In, filter_In. Qed.

(** X20. A broadcast never raises and leaves in the registry exactly the
    connections whose send went through, each of which received the event
    once per registration; a second broadcast then reaches the whole
    registry and removes nothing. *)
Theorem broadcast_prunes_the_registry (msg : message) (w : world) :
  exists w',
    broadcast msg w = (Ok tt, w') /\
    (forall c, c ∈ active_connections w' <->
               c ∈ active_connections w /\ send_raises w c = false) /\
    attempted w' = attempted w ++ map (fun c => (c, msg)) (active_connections w) /\
    delivered w' = delivered w ++ map (fun c => (c, msg)) (active_connections w') /\
    forall msg', exists w'',
      broadcast msg' w' = (Ok tt, w'') /\
      active_connections w'' = active_connections w' /\
      delivered w'' = delivered w' ++ map (fun c => (c, msg')) (active_connections w').
Proof.
  eexists. split; [apply broadcast_run|]. simpl. split; [|split; [done|split; [done|]]].
  - intros c. rewrite elem_of_filter_bool. destruct (send_raises w c); simpl; intuition congruence.
  - intros msg'. eexists. split; [apply broadcast_run|]. simpl.
    rewrite filter_all; [done|].
    intros x Hx. by apply elem_of_filter_bool in Hx as [_ Hx].
Qed.

Lemma received_map_other (c : nat) (m : message) (l : list nat) :
  c ∉ l ->
  List.filter (fun e : nat * message => bool_decide (e.1 = c)) (map (fun x => (x, m)) l) = [].
Proof.
  induction l as [|x l IH]; intros Hc; [done|].
  simpl. rewrite bool_decide_eq_false_2.
  - apply IH. intros Hin. apply Hc. by right.
  - intros ->. apply Hc. by left.
Qed.

(** X21. There is no replay: a connection registered after an event was
    broadcast does not receive that event; it receives the next one,
    once. *)
Theorem late_connection_gets_no_replay (w : world) (c : nat) (m m' : message) :
  c ∉ active_connections w ->
  send_raises w c = false ->
  exists w',
    (broadcast m ;; connect c ;; broadcast m') w = (Ok tt, w') /\
    received c w' = received c w ++ [m'] /\
    c ∈ active_connections w'.
Proof.
  intros Hc Hgood.
  set (good := List.filter (fun x => negb (send_raises w x)) (active_connections w)).
  assert (Hcg : c ∉ good).
  { intros Hin. by apply elem_of_filter_bool in Hin as [Hin _]. }
  eexists. split.
  { unfold bind. rewrite broadcast_run. unfold connect. rewrite broadcast_run.
    reflexivity. }
  cbn [active_connections send_raises delivered set_active_connections set_delivered
       set_attempted set_broadcasts].
  fold good. rewrite List.filter_app. cbn [List.filter]. rewrite Hgood. cbn [negb].
  rewrite (filter_all _ good).
  2:{ intros x Hx. by apply elem_of_filter_bool in Hx as [_ Hx]. }
  split; [|apply elem_of_app; right; by left].
  unfold received. cbn [delivered set_active_connections set_delivered].
  rewrite !List.filter_app, (map_app _ good [c]), List.filter_app.
  rewrite !received_map_other by done. cbn [map List.filter fst].
  rewrite bool_decide_eq_true_2 by done.
  rewrite !app_nil_r. cbn [app]. by rewrite fmap_app.
Qed.

Lemma list_remove_length (x : nat) (l : list nat) :
  x ∈ l -> S (length (list_remove x l)) = length l.
Proof.
  induction l as [|y l IH]; intros Hx; [by apply elem_of_nil in Hx|].
  simpl. case_decide as Hxy; [done|].
  simpl. f_equal. apply IH. by apply elem_of_cons in Hx as [->|Hx].
Qed.

Lemma list_remove_NoDup (x : nat) (l : list nat) :
  NoDup l -> x ∉ list_remove x l.
Proof.
  induction l as [|y l IH]; intros Hnd; [apply not_elem_of_nil|].
  apply NoDup_cons in Hnd as [Hy Hnd]. simpl. case_decide as Hxy.
  - by subst.
  - intros Hin. apply elem_of_cons in Hin as [->|Hin]; [done|]. by apply IH.
Qed.

Lemma list_remove_last (x : nat) (l : list nat) :
  x ∉ l -> list_remove x (l ++ [x]) = l.
Proof.
  induction l as [|y l IH]; intros Hx; simpl.
  - by rewrite decide_True.
  - rewrite decide_False.
    + f_equal. apply IH. intros Hin. apply Hx. by right.
    + intros ->. apply Hx. by left.
Qed.

(** X22. Unregistering drops one registration: a socket that is not
    registered leaves the world as it is; a registered one shortens the
    registry by one, and is gone from it when it was registered once;
    registering a new socket and unregistering it restores the world. *)
Theorem disconnect_drops_one_registration (w : world) (c : nat) :
  (c ∉ active_connections w -> disconnect c w = (Ok tt, w)) /\
  (c ∈ active_connections w ->
   S (length (active_connections (disconnect c w).2)) = length (active_connections w)) /\
  (NoDup (active_connections w) -> c ∉ active_connections (disconnect c w).2) /\
  (c ∉ active_connections w -> (connect c ;; disconnect c) w = (Ok tt, w)).
Proof.
  split; [|split; [|split]].
  - intros Hc. unfold disconnect. by rewrite decide_False.
  - intros Hc. rewrite disconnect_run. simpl. by apply list_remove_length.
  - intros Hnd. rewrite disconnect_run. simpl. by apply list_remove_NoDup.
  - intros Hc. unfold bind, connect. rewrite disconnect_run. f_equal.
    unfold set_active_connections. simpl. rewrite list_remove_last by done.
    apply world_eta.
Qed.

End registry_facts.

(** ** The knowledge base: manual entries and the use count *)

Section knowledge_more_facts.
Context `{PyRuntime}.
Import FirebaseService.

(** X23. The POST route of the knowledge base answers an empty question or
    an empty answer with 500, not 400: the 400 it raises is caught by its
    own handler.  Nothing is drawn, written or broadcast. *)
Theorem kb_route_turns_missing_text_into_500 (w : world) (q a : string) :
  q = "" \/ a = "" ->
  KnowledgeBaseRoutes.create_kb_entry q a w = (Raise (HTTPException 500), w).
Proof.
  intros Hqa. unfold KnowledgeBaseRoutes.create_kb_entry, try_except, bind.
  assert (Hb : String.eqb q "" || String.eqb a "" = true).
  { apply orb_true_iff. destruct Hqa as [-> | ->]; [by left|by right]. }
  by rewrite Hb.
Qed.

(** [create_kb_entry] of the service, when the store answers. *)
Lemma create_kb_entry_run (w : world) (q a : string) :
  faults w = [] ->
  let now := isoformat (clock w (ticks w)) in
  let e : pydict :=
    <["id" := JStr (uuids w (drawn w))]> (
    <["question" := JStr q]> (
    <["answer" := JStr a]> (
    <["source" := JStr "manual"]> (
    <["created_at" := JStr now]> (
    <["updated_at" := JStr now]> (
    <["use_count" := JNum 0]> ∅)))))) in
  create_kb_entry q a w =
    (Ok {| kb_id := uuids w (drawn w); kb_question := q; kb_answer := a;
           kb_source := "manual"; kb_created_at := now; kb_updated_at := now;
           kb_use_count := 0 |},
     set_knowledge_base (insert (uuids w (drawn w)) (Dict e))
       (set_ticks (S (ticks w)) (set_drawn (S (drawn w)) w))).
Proof.
  intros Hf now e. unfold create_kb_entry. rewrite try_reraise.
  unfold bind, uuid4, utcnow, set_kb_entry, bind.
  rewrite store_call_up by done. reflexivity.
Qed.

(** X24. With a question and an answer that are not empty and a store that
    answers, the POST route of the knowledge base returns a new entry
    tagged manual with use count 0, stores under its fresh id a record
    that validates to the entry returned, leaves the escalations alone and
    broadcasts one [knowledge_base_updated] event carrying the question
    and the answer. *)
Theorem kb_route_creates_a_manual_entry (w : world) (q a : string) :
  faults w = [] ->
  q <> "" ->
  a <> "" ->
  let now := isoformat (clock w (ticks w)) in
  let r := {| kb_id := uuids w (drawn w); kb_question := q; kb_answer := a;
              kb_source := "manual"; kb_created_at := now; kb_updated_at := now;
              kb_use_count := 0 |} in
  exists w' e,
    KnowledgeBaseRoutes.create_kb_entry q a w = (Ok r, w') /\
    knowledge_base w' = <[uuids w (drawn w) := Dict e]> (knowledge_base w) /\
    KnowledgeBaseResponse_of_dict e = Some r /\
    help_requests w' = help_requests w /\
    broadcasts w' =
      broadcasts w ++
      [{| msg_type := "knowledge_base_updated";
          msg_data := <["question" := JStr q]> (<["answer" := JStr a]> ∅);
          msg_timestamp := isoformat (clock w (S (ticks w))) |}].
Proof.
  intros Hf Hq Ha now r.
  unfold KnowledgeBaseRoutes.create_kb_entry, try_except at 1, bind at 1.
  assert (Hb : String.eqb q "" || String.eqb a "" = false).
  { apply orb_false_iff. split; by apply String.eqb_neq. }
  rewrite Hb.
  unfold ret at 1.
  rewrite (bind_run _ _ _ _ _ (create_kb_entry_run w q a Hf)).
  unfold NotificationService.notify_kb_updated, bind, utcnow.
  rewrite broadcast_run.
  eexists _, _. split; [reflexivity|].
  repeat split; reflexivity.
Qed.

(** X25. On a stored entry, with a store that answers: the use count goes
    up by one (a missing count is 0), [updated_at] is set to the time of
    the call, every other key of the entry and every other entry is kept,
    and nothing is broadcast. *)
Theorem increment_kb_use_count_adds_one (w : world) (id : string) (d : pydict) (n : Z) :
  faults w = [] ->
  knowledge_base w !! id = Some (Dict d) ->
  d <> ∅ ->
  default (JNum 0) (d !! "use_count") = JNum n ->
  exists w' d',
    increment_kb_use_count id w = (Ok tt, w') /\
    knowledge_base w' = <[id := Dict d']> (knowledge_base w) /\
    d' !! "use_count" = Some (JNum (n + 1)) /\
    d' !! "updated_at" = Some (JStr (isoformat (clock w (ticks w)))) /\
    (forall k, k <> "use_count" -> k <> "updated_at" -> d' !! k = d !! k) /\
    help_requests w' = help_requests w /\
    broadcasts w' = broadcasts w.
Proof.
  intros Hf Hid Hd Hn.
  assert (Hcount : next_use_count d = ret (n + 1)).
  { unfold next_use_count. destruct (d !! "use_count") as [[]|]; simplify_eq/=; done. }
  unfold increment_kb_use_count, try_except, bind, get_kb_entry, bind.
  rewrite store_call_up by done. rewrite Hid. cbn [node_truthy].
  rewrite bool_decide_eq_false_2 by done. cbn [negb].
  rewrite Hcount. unfold ret, utcnow, set_kb_entry, bind.
  rewrite store_call_up by done.
  eexists _, _. split; [reflexivity|]. split; [reflexivity|].
  split; [|split; [|split; [|done]]].
  - by rewrite lookup_insert_ne, lookup_insert_eq.
  - by rewrite lookup_insert_eq.
  - intros k Hk1 Hk2. by rewrite !lookup_insert_ne.
Qed.

(** X26. Counting a use never raises, whatever the store holds and whether
    it answers or not; it touches at most the entry named, and leaves the
    knowledge base as it is when the entry is missing or when its count is
    a string. *)
Theorem increment_kb_use_count_never_raises (w : world) (id : string) :
  (increment_kb_use_count id w).1 = Ok tt /\
  let w' := (increment_kb_use_count id w).2 in
  help_requests w' = help_requests w /\
  broadcasts w' = broadcasts w /\
  (forall k, k <> id -> knowledge_base w' !! k = knowledge_base w !! k) /\
  (knowledge_base w !! id = None -> knowledge_base w' = knowledge_base w) /\
  (forall d s, knowledge_base w !! id = Some (Dict d) ->
               d !! "use_count" = Some (JStr s) ->
               knowledge_base w' = knowledge_base w).
Proof.
  unfold increment_kb_use_count, try_except, bind, get_kb_entry, bind.
  destruct (store_call w) as [[[]|x] w1] eqn:Hs;
    apply store_call_inv in Hs as [fs ->]; [|by repeat split].
  cbn [knowledge_base set_faults].
  destruct (knowledge_base w !! id) as [[v|d]|] eqn:Hid; [| |by repeat split].
  { cbn [node_truthy]. destruct (truthy v); by repeat split. }
  cbn [node_truthy]. destruct (bool_decide (d = ∅)); cbn [negb]; [by repeat split|].
  unfold next_use_count.
  destruct (d !! "use_count") as [[|b|n|s]|] eqn:Hc.
  1, 4: by unfold raise, ret; cbn; repeat split.
  all: unfold ret, utcnow, set_kb_entry, bind.
  all: match goal with
       | |- context [store_call ?w0] =>
           destruct (store_call w0) as [[[]|x] w2] eqn:Hs;
           apply store_call_inv in Hs as [fs' ->]
       end.
  all: repeat split; try done.
  all: try (intros k Hk; cbn; by rewrite lookup_insert_ne).
  all: intros d' s' [= <-]; by rewrite Hc.
Qed.

End knowledge_more_facts.

(** ** The initial data and the DELETE route *)

Section store_reset_facts.
Context `{PyRuntime}.
Import FirebaseService.

Lemma omap_nothing {A B} (f : A -> option B) (l : list A) :
  (forall x, x ∈ l -> f x = None) -> omap f l = [].
Proof.
  induction l as [|x l IH]; intros Hall; [done|].
  cbn [omap list_omap]. rewrite (Hall x) by left. apply IH.
  intros y Hy. apply Hall. by right.
Qed.

Lemma filter_nothing {A} (p : A -> bool) (l : list A) :
  (forall x, x ∈ l -> p x = false) -> List.filter p l = [].
Proof.
  induction l as [|x l IH]; intros Hall; [done|].
  simpl. rewrite (Hall x) by left. apply IH.
  intros y Hy. apply Hall. by right.
Qed.

(** A subtree whose children are all scalars holds no escalation for the
    queries. *)
Lemma scalars_hold_no_request (data : gmap string node) :
  (forall k n, data !! k = Some n -> exists v, n = Leaf v) ->
  omap parse_entry (items data) = [] /\
  omap parse_pending_entry (items data) = [] /\
  forall s, count_status s data = 0%nat.
Proof.
  intros Hleaf. split; [|split].
  - apply omap_nothing. intros [k n] Hkn.
    apply elem_of_items in Hkn. destruct (Hleaf _ _ Hkn) as [v ->].
    unfold parse_entry. by destruct (String.eqb k "initialized").
  - apply omap_nothing. intros [k n] Hkn.
    apply elem_of_items in Hkn. destruct (Hleaf _ _ Hkn) as [v ->].
    unfold parse_pending_entry. by destruct (String.eqb k "initialized").
  - intros s. unfold count_status. rewrite filter_nothing; [done|].
    intros n Hn. apply list_elem_of_fmap in Hn as ([k n'] & -> & Hkn).
    apply elem_of_items in Hkn. by destruct (Hleaf _ _ Hkn) as [v ->].
Qed.

Lemma store_call_pass (w : world) (fs : list bool) :
  faults w = false :: fs -> store_call w = (Ok tt, set_faults fs w).
Proof. intros Hf. unfold store_call. by rewrite Hf. Qed.

(** [get_request_by_id] reads one child only. *)
Lemma get_request_by_id_local (w1 w2 : world) (id : string) :
  faults w1 = [] -> faults w2 = [] ->
  help_requests w1 !! id = help_requests w2 !! id ->
  (get_request_by_id id w1).1 = (get_request_by_id id w2).1.
Proof.
  intros Hf1 Hf2 Hid.
  unfold get_request_by_id, try_except, bind, get_help_request, bind.
  rewrite !store_call_up by done. rewrite Hid.
  destruct (help_requests w2 !! id) as [[v|d]|]; [| |done].
  - by destruct (truthy v).
  - destruct (bool_decide (d = ∅)); [done|].
    by destruct (HelpRequestResponse_of_dict d).
Qed.

(** X27. With a store that answers, creating the initial data replaces
    both subtrees by the two marker keys, whatever they held: afterwards
    the statistics are all zero, the two lists are empty and no id is
    found. *)
Theorem initial_data_replaces_both_subtrees (w : world) :
  faults w = [] ->
  exists w',
    Database.create_initial_data w = (Ok tt, w') /\
    help_requests w' =
      <["initialized" := Leaf (JBool true)]> (
      <["created_at" := Leaf (JStr (isoformat (clock w (ticks w))))]> ∅) /\
    knowledge_base w' =
      <["initialized" := Leaf (JBool true)]> (
      <["created_at" := Leaf (JStr (isoformat (clock w (S (ticks w)))))]> ∅) /\
    (get_stats w').1 = Ok zero_stats /\
    (get_all_help_requests w').1 = Ok [] /\
    (get_pending_requests w').1 = Ok [] /\
    forall id, (get_request_by_id id w').1 = Ok None.
Proof.
  intros Hf.
  unfold Database.create_initial_data, try_except, bind, utcnow,
    put_help_requests, put_knowledge_base, bind.
  rewrite store_call_up by done. cbn [set_ticks ticks clock].
  rewrite store_call_up by done.
  eexists. split; [reflexivity|]. split; [reflexivity|]. split; [reflexivity|].
  match goal with |- context [get_stats ?w0] => set (w' := w0) end.
  assert (Hf' : faults w' = []) by done.
  set (data := help_requests w').
  assert (Hleaf : forall k n, data !! k = Some n -> exists v, n = Leaf v).
  { intros k n Hk. subst data w'. cbn in Hk.
    apply lookup_insert_Some in Hk as [[_ <-]|[_ Hk]]; [by eexists|].
    apply lookup_insert_Some in Hk as [[_ <-]|[_ Hk]]; [by eexists|].
    by rewrite lookup_empty in Hk. }
  destruct (scalars_hold_no_request data Hleaf) as (Hall & Hpend & Hcount).
  split; [|split; [|split]].
  - unfold get_stats, try_except, bind, get_help_requests, bind.
    rewrite store_call_up by done. fold data.
    destruct (bool_decide (data = ∅)); [done|]. by rewrite !Hcount.
  - unfold get_all_help_requests, try_except, bind, get_help_requests, bind.
    rewrite store_call_up by done. fold data.
    destruct (bool_decide (data = ∅)); [done|]. by rewrite Hall.
  - unfold get_pending_requests, try_except, bind, get_help_requests, bind.
    rewrite store_call_up by done. fold data.
    destruct (bool_decide (data = ∅)); [done|]. by rewrite Hpend.
  - intros id. unfold get_request_by_id, try_except, bind, get_help_request, bind.
    rewrite store_call_up by done. fold data.
    destruct (data !! id) as [n|] eqn:Hid; [|done].
    destruct (Hleaf _ _ Hid) as [v ->]. by destruct (truthy v).
Qed.

(** X28. Creating the initial data never raises.  When the first write
    fails, neither subtree is touched; when the second write fails, the
    escalations are already replaced and the knowledge base is kept. *)
Theorem initial_data_failure_is_swallowed (w : world) (fs : list bool) :
  (faults w = true :: fs ->
   exists w', Database.create_initial_data w = (Ok tt, w') /\
     help_requests w' = help_requests w /\
     knowledge_base w' = knowledge_base w) /\
  (faults w = false :: true :: fs ->
   exists w', Database.create_initial_data w = (Ok tt, w') /\
     help_requests w' =
       <["initialized" := Leaf (JBool true)]> (
       <["created_at" := Leaf (JStr (isoformat (clock w (ticks w))))]> ∅) /\
     knowledge_base w' = knowledge_base w) /\
  (Database.create_initial_data w).1 = Ok tt.
Proof.
  unfold Database.create_initial_data, try_except, bind, utcnow,
    put_help_requests, put_knowledge_base, bind.
  split; [|split].
  - intros Hf. rewrite (store_call_down _ fs) by done. by eexists.
  - intros Hf. rewrite (store_call_pass _ (true :: fs)) by done.
    rewrite (store_call_down _ fs) by done. by eexists.
  - destruct (store_call _) as [[[]|x] w1]; [|done].
    by destruct (store_call _) as [[[]|x] w2].
Qed.

(** X29. With a store that answers, the DELETE route succeeds for any id,
    stored or not: the record under the id is gone, so that the id is no
    longer found and its GET route answers 404; every other record, the
    knowledge base and the log of broadcasts are as before. *)
Theorem delete_route_removes_the_record (w : world) (id : string) :
  faults w = [] ->
  exists w',
    HelpRequestRoutes.delete_help_request id w = (Ok tt, w') /\
    help_requests w' = delete id (help_requests w) /\
    knowledge_base w' = knowledge_base w /\
    broadcasts w' = broadcasts w /\
    (get_request_by_id id w').1 = Ok None /\
    (HelpRequestRoutes.get_help_request id w').1 = Raise (HTTPException 404) /\
    forall k, k <> id -> (get_request_by_id k w').1 = (get_request_by_id k w).1.
Proof.
  intros Hf.
  unfold HelpRequestRoutes.delete_help_request, try_except, remove_help_request, bind.
  rewrite store_call_up by done.
  eexists. split; [reflexivity|]. split; [done|]. split; [done|]. split; [done|].
  match goal with |- context [get_request_by_id id ?w0] => set (w' := w0) end.
  assert (Hf' : faults w' = []) by done.
  assert (Hgone : help_requests w' !! id = None) by apply lookup_delete_eq.
  assert (Hget : get_request_by_id id w' = (Ok None, w')).
  { unfold get_request_by_id, try_except, bind, get_help_request, bind.
    rewrite store_call_up by done. by rewrite Hgone. }
  split; [by rewrite Hget|]. split.
  - unfold HelpRequestRoutes.get_help_request, try_except, bind.
    by rewrite Hget.
  - intros k Hk. apply get_request_by_id_local; [done|done|].
    subst w'. cbn. by rewrite lookup_delete_ne.
Qed.

(** X30. When the store fails, the DELETE route answers 500 and the record
    is kept. *)
Theorem delete_route_fails_with_the_store (w : world) (id : string) (fs : list bool) :
  faults w = true :: fs ->
  exists w',
    HelpRequestRoutes.delete_help_request id w = (Raise (HTTPException 500), w') /\
    help_requests w' = help_requests w /\
    knowledge_base w' = knowledge_base w /\
    broadcasts w' = broadcasts w.
Proof.
  intros Hf.
  unfold HelpRequestRoutes.delete_help_request, try_except, remove_help_request, bind.
  rewrite (store_call_down _ fs) by done. by eexists.
Qed.

End store_reset_facts.

(** * The further properties on the example stores *)

Section more_examples.
Import Examples ConnectionManager FirebaseService TimeoutService.
#[local] Existing Instance rt.

Lemma sarah_is_valid : valid_answer (answer sarah) (supervisor_name sarah).
Proof. unfold valid_answer. vm_compute. lia. Qed.

Lemma cancellation_not_empty : cancellation ≠ ∅.
Proof. by apply (dict_with_id_not_empty _ (JStr "req-2")). Qed.

Lemma overdue_store_well_keyed : well_keyed overdue_store.
Proof.
  intros k d Hk. unfold overdue_store, initial_data in Hk.
  apply lookup_insert_Some in Hk as [[<- [= <-]]|[_ Hk]]; [reflexivity|].
  apply lookup_insert_Some in Hk as [[_ [=]]|[_ Hk]].
  apply lookup_insert_Some in Hk as [[_ [=]]|[_ Hk]].
  by rewrite lookup_empty in Hk.
Qed.

(** The four records of the mixed store, listed. *)
Lemma get_all_help_requests_lists_the_valid_records_witness :
  let w := world_of mixed_store [] [] (fun _ => false) in
  faults w = [] /\
  exists l,
    get_all_help_requests w = (Ok l, w) /\
    Sorted newer_or_same l /\
    l ≡ₚ omap parse_entry (map_to_list (help_requests w)) /\
    (forall r, r ∈ l <->
       exists k d, k ≠ "initialized" /\
                   help_requests w !! k = Some (Dict d) /\
                   HelpRequestResponse_of_dict d = Some r) /\
    (length l <= size (help_requests w))%nat.
Proof.
  intros w. split; [reflexivity|].
  exact (get_all_help_requests_lists_the_valid_records w eq_refl).
Defined.

Lemma get_pending_requests_lists_the_pending_witness :
  let w := world_of mixed_store [] [] (fun _ => false) in
  faults w = [] /\
  exists l,
    get_pending_requests w = (Ok l, w) /\
    Sorted newer_or_same l /\
    l ≡ₚ omap parse_pending_entry (map_to_list (help_requests w)) /\
    Forall (fun r => hr_status r = "pending") l /\
    (forall r, r ∈ l <->
       exists k d, k ≠ "initialized" /\
                   help_requests w !! k = Some (Dict d) /\
                   HelpRequestResponse_of_dict d = Some r /\
                   hr_status r = "pending") /\
    (length l <= size (with_status PENDING (help_requests w)))%nat.
Proof.
  intros w. split; [reflexivity|].
  exact (get_pending_requests_lists_the_pending w eq_refl).
Defined.

(** The two lists on the mixed store, run: newest first. *)
Example lists_of_the_mixed_store :
  let w := world_of mixed_store [] [] (fun _ => false) in
  map hr_id (default [] (match (get_all_help_requests w).1 with
                         | Ok l => Some l | Raise _ => None end))
    = ["req-2"; "req-1"; "req-3"; "req-4"] /\
  map hr_id (default [] (match (get_pending_requests w).1 with
                         | Ok l => Some l | Raise _ => None end))
    = ["req-2"; "req-1"].
Proof. split; vm_compute; reflexivity. Qed.

Lemma create_then_get_witness :
  let w := world_of initial_data [] [] (fun _ => false) in
  faults w = [] /\
  exists r w',
    create_help_request "Do you do hair transplants?" "555-0101" "room-42" w = (Ok r, w') /\
    get_request_by_id (hr_id r) w' = (Ok (Some r), w') /\
    HelpRequestRoutes.get_help_request (hr_id r) w' = (Ok r, w').
Proof.
  intros w. split; [reflexivity|].
  exact (create_then_get w "Do you do hair transplants?" "555-0101" "room-42" eq_refl).
Defined.

Lemma resolve_unknown_id_witness :
  let w := world_of mixed_store [] [] (fun _ => false) in
  faults w = [] /\
  help_requests w !! "req-9" = None /\
  answer_request "req-9" {| answer := "24 hours notice required";
                            supervisor_name := "Sarah" |} w =
    (Raise (ValueError ("Request " +:+ "req-9" +:+ " not found")), w) /\
  HelpRequestRoutes.answer_help_request "req-9" "24 hours notice required" "Sarah" w =
    (Raise (HTTPException 500), w).
Proof.
  intros w. split; [reflexivity|]. split; [reflexivity|].
  exact (resolve_unknown_id w "req-9" "24 hours notice required" "Sarah" eq_refl eq_refl).
Defined.

(** An answer of two characters. *)
Lemma resolve_refuses_invalid_answer_witness :
  let w := world_of mixed_store [] [] (fun _ => false) in
  ~ valid_answer "No" "Sarah" /\
  HelpRequestRoutes.answer_help_request "req-2" "No" "Sarah" w =
    (Raise (HTTPException 500), w).
Proof.
  intros w.
  assert (Hbad : ~ valid_answer "No" "Sarah").
  { unfold valid_answer. vm_compute. lia. }
  split; [exact Hbad|].
  exact (resolve_refuses_invalid_answer w "req-2" "No" "Sarah" Hbad).
Defined.

(** Resolving the marker of the initial data. *)
Lemma resolve_scalar_child_witness :
  let w := world_of mixed_store [] [] (fun _ => false) in
  faults w = [] /\
  help_requests w !! "initialized" = Some (Leaf (JBool true)) /\
  answer_request "initialized" sarah w = (Raise TypeError, w).
Proof.
  intros w. split; [reflexivity|]. split; [reflexivity|].
  exact (resolve_scalar_child w "initialized" sarah (JBool true) eq_refl eq_refl).
Defined.

Lemma resolve_changes_four_fields_witness :
  let w := world_of mixed_store [] [] (fun _ => false) in
  faults w = [] /\
  help_requests w !! "req-2" = Some (Dict cancellation) /\
  cancellation ≠ ∅ /\
  exists d',
    help_requests (answer_request "req-2" sarah w).2 !! "req-2" = Some (Dict d') /\
    (forall f, f ≠ "status" -> f ≠ "answer" -> f ≠ "answered_by" -> f ≠ "resolved_at" ->
               d' !! f = cancellation !! f) /\
    (forall k, k ≠ "req-2" ->
               help_requests (answer_request "req-2" sarah w).2 !! k =
               help_requests w !! k).
Proof.
  intros w. split; [reflexivity|]. split; [reflexivity|].
  split; [exact cancellation_not_empty|].
  exact (resolve_changes_four_fields w "req-2" sarah cancellation
           eq_refl eq_refl cancellation_not_empty).
Defined.

Lemma resolve_returns_and_announces_witness :
  let w := world_of mixed_store [] [] (fun _ => false) in
  let r0 := {| hr_id := "req-2";
               hr_question := "What is your cancellation policy?";
               hr_caller_info := Some "555-0102";
               hr_status := "pending";
               hr_created_at := "2023-12-31T23:30:00";
               hr_resolved_at := None;
               hr_timeout_at := "2024-01-01T01:30:00";
               hr_answer := None;
               hr_answered_by := None;
               hr_session_id := "room-43" |} in
  let r := {| hr_id := "req-2";
              hr_question := "What is your cancellation policy?";
              hr_caller_info := Some "555-0102";
              hr_status := "resolved";
              hr_created_at := "2023-12-31T23:30:00";
              hr_resolved_at := Some "2024-01-01T00:00:00";
              hr_timeout_at := "2024-01-01T01:30:00";
              hr_answer := Some "24 hours notice required";
              hr_answered_by := Some "Sarah";
              hr_session_id := "room-43" |} in
  faults w = [] /\
  help_requests w !! "req-2" = Some (Dict cancellation) /\
  HelpRequestResponse_of_dict cancellation = Some r0 /\
  valid_answer "24 hours notice required" "Sarah" /\
  exists w' m,
    HelpRequestRoutes.answer_help_request "req-2" "24 hours notice required" "Sarah" w
      = (Ok r, w') /\
    get_request_by_id "req-2" w' = (Ok (Some r), w') /\
    broadcasts w' = broadcasts w ++ [m] /\
    msg_type m = "request_resolved" /\
    msg_data m !! "request_id" = Some (JStr "req-2") /\
    msg_data m !! "answer" = Some (JStr "24 hours notice required") /\
    msg_data m !! "answered_by" = Some (JStr "Sarah") /\
    msg_data m !! "resolved_at" = Some (JStr "2024-01-01T00:00:00").
Proof.
  intros w r0 r. split; [reflexivity|]. split; [reflexivity|].
  split; [reflexivity|]. split; [exact sarah_is_valid|].
  exact (resolve_returns_and_announces w "req-2" "24 hours notice required" "Sarah"
           cancellation r0 eq_refl eq_refl eq_refl sarah_is_valid).
Defined.

Lemma create_then_resolve_witness :
  let w := world_of initial_data [] [] (fun _ => false) in
  faults w = [] /\
  valid_answer "24 hours notice required" "Sarah" /\
  exists r w1 r' w2 e,
    create_help_request "What is your cancellation policy?" "555-0102" "room-43" w
      = (Ok r, w1) /\
    HelpRequestRoutes.answer_help_request (hr_id r) "24 hours notice required" "Sarah" w1
      = (Ok r', w2) /\
    hr_id r' = hr_id r /\
    hr_question r' = "What is your cancellation policy?" /\
    hr_status r' = "resolved" /\
    hr_answer r' = Some "24 hours notice required" /\
    hr_answered_by r' = Some "Sarah" /\
    hr_created_at r' = hr_created_at r /\
    hr_timeout_at r' = hr_timeout_at r /\
    knowledge_base w2 !! uuids w (S (drawn w)) = Some (Dict e) /\
    e !! "question" = Some (JStr "What is your cancellation policy?") /\
    e !! "answer" = Some (JStr "24 hours notice required") /\
    e !! "source" = Some (JStr "learned").
Proof.
  intros w. split; [reflexivity|]. split; [exact sarah_is_valid|].
  exact (create_then_resolve w "What is your cancellation policy?" "555-0102" "room-43"
           "24 hours notice required" "Sarah" eq_refl sarah_is_valid).
Defined.

Lemma create_adds_one_pending_witness :
  let w := world_of mixed_store [] [] (fun _ => false) in
  let st := {| pending := 2; resolved := 1; timeout := 1; total := 4 |} in
  faults w = [] /\
  help_requests w !! uuids w (drawn w) = None /\
  (get_stats w).1 = Ok st /\
  exists r w',
    create_help_request "Do you sell gift cards?" "555-0104" "room-45" w = (Ok r, w') /\
    (get_stats w').1 =
      Ok {| pending := 3; resolved := 1; timeout := 1; total := 5 |}.
Proof.
  intros w st.
  assert (Hst : (get_stats w).1 = Ok st) by (vm_compute; reflexivity).
  split; [reflexivity|]. split; [reflexivity|]. split; [exact Hst|].
  exact (create_adds_one_pending w "Do you sell gift cards?" "555-0104" "room-45" st
           eq_refl eq_refl Hst).
Defined.

Lemma writers_keep_the_store_well_keyed_witness :
  let w := world_of overdue_store [] [] (fun _ => false) in
  faults w = [] /\
  well_keyed (help_requests w) /\
  well_keyed (help_requests
    (create_help_request "Do you sell gift cards?" "555-0104" "room-45" w).2) /\
  well_keyed (help_requests (answer_request "req-1" sarah w).2) /\
  well_keyed (help_requests (_process_timeouts w).2).
Proof.
  intros w. split; [reflexivity|]. split; [exact overdue_store_well_keyed|].
  exact (writers_keep_the_store_well_keyed w "Do you sell gift cards?" "555-0104"
           "room-45" "req-1" sarah eq_refl overdue_store_well_keyed).
Defined.

Lemma sweep_swallows_read_failure_witness :
  let w := world_of overdue_store [true] [] (fun _ => false) in
  faults w = [true] /\
  _process_timeouts w = (Ok tt, set_faults [] (set_ticks (S (ticks w)) w)).
Proof.
  intros w. split; [reflexivity|].
  exact (sweep_swallows_read_failure w [] eq_refl).
Defined.

(** Two overdue records; the second write fails. *)
Lemma sweep_stops_at_a_failed_write_witness :
  let w := world_of two_overdue_store [false; false; true] [] (fun _ => false) in
  faults w = false :: replicate 1 false ++ true :: [] /\
  (1 < length (scan (clock w (ticks w)) (help_requests w)))%nat /\
  exists w' msgs,
    _process_timeouts w = (Ok tt, w') /\
    help_requests w' =
      write_back (take 1 (scan (clock w (ticks w)) (help_requests w))) (help_requests w) /\
    broadcasts w' = broadcasts w ++ msgs /\
    length msgs = 1%nat /\
    Forall2 (fun e m => is_timeout_event e.2 m)
            (take 1 (scan (clock w (ticks w)) (help_requests w))) msgs /\
    (forall k d, (k, d) ∈ take 1 (scan (clock w (ticks w)) (help_requests w)) ->
                 help_requests w' !! k = Some (Dict (timed_out d))) /\
    (forall k d, (k, d) ∈ drop 1 (scan (clock w (ticks w)) (help_requests w)) ->
                 help_requests w' !! k = Some (Dict d)) /\
    (forall k, k ∉ (scan (clock w (ticks w)) (help_requests w)).*1 ->
               help_requests w' !! k = help_requests w !! k).
Proof.
  intros w.
  assert (Hlen : (1 < length (scan (clock w (ticks w)) (help_requests w)))%nat).
  { assert (Hl : length (scan (clock w (ticks w)) (help_requests w)) = 2%nat)
      by (vm_compute; reflexivity).
    rewrite Hl. lia. }
  split; [reflexivity|]. split; [exact Hlen|].
  exact (sweep_stops_at_a_failed_write w 1 [] eq_refl Hlen).
Defined.

(** That sweep, run: the store lists [req-1] before [req-4]; the first is
    timed out and announced, the second is left pending. *)
Example sweep_failed_write_run :
  let w := world_of two_overdue_store [false; false; true] [] (fun _ => false) in
  let w' := (_process_timeouts w).2 in
  (scan (clock w (ticks w)) (help_requests w)).*1 = ["req-1"; "req-4"] /\
  (_process_timeouts w).1 = Ok tt /\
  help_requests w' !! "req-1" = Some (Dict (timed_out transplants)) /\
  help_requests w' !! "req-4" = Some (Dict gift_cards) /\
  map (fun m => (msg_type m, msg_data m !! "request_id")) (broadcasts w')
    = [("request_timeout", Some (JStr "req-1"))].
Proof. repeat split; vm_compute; reflexivity. Qed.

Lemma timed_out_records_are_not_swept_again_witness :
  let w := world_of overdue_store [] [] (fun _ => false) in
  faults w = [] /\
  exists w',
    _process_timeouts w = (Ok tt, w') /\
    forall k d, (k, d) ∈ scan (clock w (ticks w)) (help_requests w) ->
      forall now' d', (k, d') ∉ scan now' (help_requests w').
Proof.
  intros w. split; [reflexivity|].
  exact (timed_out_records_are_not_swept_again w eq_refl).
Defined.

Lemma create_then_sweep_witness :
  let w := world_of initial_data [] [] (fun _ => false) in
  let deadline := clock w (S (ticks w)) + timedelta_hours 2 in
  let now := clock w (S (S (ticks w))) in
  faults w = [] /\
  uuids w (drawn w) ≠ "initialized" /\
  fromisoformat (isoformat deadline) = Some deadline /\
  exists r w1 w2 d,
    create_help_request "Do you sell gift cards?" "555-0104" "room-45" w = (Ok r, w1) /\
    _process_timeouts w1 = (Ok tt, w2) /\
    help_requests w1 !! hr_id r = Some (Dict d) /\
    d !! "status" = Some (JStr "pending") /\
    (now < deadline -> help_requests w2 !! hr_id r = Some (Dict d)) /\
    (deadline <= now -> help_requests w2 !! hr_id r = Some (Dict (timed_out d))).
Proof.
  intros w deadline now.
  assert (Hid : uuids w (drawn w) ≠ "initialized") by discriminate.
  assert (Hiso : fromisoformat (isoformat deadline) = Some deadline)
    by (vm_compute; reflexivity).
  split; [reflexivity|]. split; [exact Hid|]. split; [exact Hiso|].
  exact (create_then_sweep w "Do you sell gift cards?" "555-0104" "room-45"
           eq_refl Hid Hiso).
Defined.

(** Two supervisors are connected, the second one dead; a third connects
    after the first event. *)
Lemma late_connection_gets_no_replay_witness :
  let w := world_of initial_data [] [1; 2]%nat (fun c => bool_decide (c = 2%nat)) in
  let m := {| msg_type := "new_help_request"; msg_data := ∅;
              msg_timestamp := "2024-01-01T00:00:00" |} in
  let m' := {| msg_type := "request_resolved"; msg_data := ∅;
               msg_timestamp := "2024-01-01T00:00:05" |} in
  (3%nat ∉ active_connections w) /\
  send_raises w 3%nat = false /\
  exists w',
    (broadcast m ;; connect 3%nat ;; broadcast m') w = (Ok tt, w') /\
    received 3%nat w' = received 3%nat w ++ [m'] /\
    3%nat ∈ active_connections w'.
Proof.
  intros w m m'.
  assert (Hnew : 3%nat ∉ active_connections w).
  { intros Hin. apply elem_of_cons in Hin as [[=]|Hin].
    apply elem_of_cons in Hin as [[=]|Hin]. by apply elem_of_nil in Hin. }
  split; [exact Hnew|]. split; [reflexivity|].
  exact (late_connection_gets_no_replay w 3%nat m m' Hnew eq_refl).
Defined.

Lemma kb_route_turns_missing_text_into_500_witness :
  let w := world_of initial_data [] [] (fun _ => false) in
  ("What are your hours?" = "" \/ "" = "") /\
  KnowledgeBaseRoutes.create_kb_entry "What are your hours?" "" w =
    (Raise (HTTPException 500), w).
Proof.
  intros w. split; [right; reflexivity|].
  exact (kb_route_turns_missing_text_into_500 w "What are your hours?" ""
           (or_intror eq_refl)).
Defined.

Lemma kb_route_creates_a_manual_entry_witness :
  let w := world_of initial_data [] [1]%nat (fun _ => false) in
  let r := {| kb_id := "00000000-0000-4000-8000-000000000000";
              kb_question := "What are your hours?";
              kb_answer := "9 to 6, Monday to Saturday";
              kb_source := "manual";
              kb_created_at := "2024-01-01T00:00:00";
              kb_updated_at := "2024-01-01T00:00:00";
              kb_use_count := 0 |} in
  faults w = [] /\
  "What are your hours?" <> "" /\
  "9 to 6, Monday to Saturday" <> "" /\
  exists w' e,
    KnowledgeBaseRoutes.create_kb_entry
      "What are your hours?" "9 to 6, Monday to Saturday" w = (Ok r, w') /\
    knowledge_base w' = <[uuids w (drawn w) := Dict e]> (knowledge_base w) /\
    KnowledgeBaseResponse_of_dict e = Some r /\
    help_requests w' = help_requests w /\
    broadcasts w' =
      broadcasts w ++
      [{| msg_type := "knowledge_base_updated";
          msg_data := <["question" := JStr "What are your hours?"]> (
                      <["answer" := JStr "9 to 6, Monday to Saturday"]> ∅);
          msg_timestamp := "2024-01-01T00:00:01" |}].
Proof.
  intros w r.
  assert (Hq : "What are your hours?" <> "") by discriminate.
  assert (Ha : "9 to 6, Monday to Saturday" <> "") by discriminate.
  split; [reflexivity|]. split; [exact Hq|]. split; [exact Ha|].
  exact (kb_route_creates_a_manual_entry w "What are your hours?"
           "9 to 6, Monday to Saturday" eq_refl Hq Ha).
Defined.

(** A learned entry that was used twice. *)
Lemma increment_kb_use_count_adds_one_witness :
  let e : pydict :=
    <["id" := JStr "kb-1"]> (
    <["question" := JStr "What is your cancellation policy?"]> (
    <["answer" := JStr "24 hours notice required"]> (
    <["source" := JStr "learned"]> (
    <["created_at" := JStr "2023-12-31T20:30:00"]> (
    <["updated_at" := JStr "2023-12-31T20:30:00"]> (
    <["use_count" := JNum 2]> ∅)))))) in
  let w := set_knowledge_base (fun _ => <["kb-1" := Dict e]> ∅)
             (world_of initial_data [] [] (fun _ => false)) in
  faults w = [] /\
  knowledge_base w !! "kb-1" = Some (Dict e) /\
  e <> ∅ /\
  default (JNum 0) (e !! "use_count") = JNum 2 /\
  exists w' d',
    increment_kb_use_count "kb-1" w = (Ok tt, w') /\
    knowledge_base w' = <["kb-1" := Dict d']> (knowledge_base w) /\
    d' !! "use_count" = Some (JNum (2 + 1)) /\
    d' !! "updated_at" = Some (JStr (isoformat (clock w (ticks w)))) /\
    (forall k, k <> "use_count" -> k <> "updated_at" -> d' !! k = e !! k) /\
    help_requests w' = help_requests w /\
    broadcasts w' = broadcasts w.
Proof.
  intros e w.
  assert (He : e <> ∅) by (by apply (dict_with_id_not_empty e (JStr "kb-1"))).
  split; [reflexivity|]. split; [reflexivity|]. split; [exact He|].
  split; [reflexivity|].
  exact (increment_kb_use_count_adds_one w "kb-1" e 2 eq_refl eq_refl He eq_refl).
Defined.

(** The server starts again on a store that holds four escalations. *)
Lemma initial_data_replaces_both_subtrees_witness :
  let w := world_of mixed_store [] [] (fun _ => false) in
  faults w = [] /\
  exists w',
    Database.create_initial_data w = (Ok tt, w') /\
    help_requests w' =
      <["initialized" := Leaf (JBool true)]> (
      <["created_at" := Leaf (JStr (isoformat (clock w (ticks w))))]> ∅) /\
    knowledge_base w' =
      <["initialized" := Leaf (JBool true)]> (
      <["created_at" := Leaf (JStr (isoformat (clock w (S (ticks w)))))]> ∅) /\
    (get_stats w').1 = Ok zero_stats /\
    (get_all_help_requests w').1 = Ok [] /\
    (get_pending_requests w').1 = Ok [] /\
    forall id, (get_request_by_id id w').1 = Ok None.
Proof.
  intros w. split; [reflexivity|].
  exact (initial_data_replaces_both_subtrees w eq_refl).
Defined.

Lemma delete_route_removes_the_record_witness :
  let w := world_of mixed_store [] [] (fun _ => false) in
  faults w = [] /\
  exists w',
    HelpRequestRoutes.delete_help_request "req-1" w = (Ok tt, w') /\
    help_requests w' = delete "req-1" (help_requests w) /\
    knowledge_base w' = knowledge_base w /\
    broadcasts w' = broadcasts w /\
    (get_request_by_id "req-1" w').1 = Ok None /\
    (HelpRequestRoutes.get_help_request "req-1" w').1 = Raise (HTTPException 404) /\
    forall k, k <> "req-1" -> (get_request_by_id k w').1 = (get_request_by_id k w).1.
Proof.
  intros w. split; [reflexivity|].
  exact (delete_route_removes_the_record w "req-1" eq_refl).
Defined.

Lemma delete_route_fails_with_the_store_witness :
  let w := world_of mixed_store [true] [] (fun _ => false) in
  faults w = [true] /\
  exists w',
    HelpRequestRoutes.delete_help_request "req-1" w = (Raise (HTTPException 500), w') /\
    help_requests w' = help_requests w /\
    knowledge_base w' = knowledge_base w /\
    broadcasts w' = broadcasts w.
Proof.
  intros w. split; [reflexivity|].
  exact (delete_route_fails_with_the_store w "req-1" [] eq_refl).
Defined.

End more_examples.
